(** * HPXML to HEScore translator: a shallow embedding and its properties

    The definitions below follow [hpxml_to_hescore.py] function by function.
    HPXML elements are records holding what the XPath queries of the source
    read from them.  Python floats are modelled by exact rationals ([Q]),
    except in [_get_skylights] and [make_zone_window_fl], where the rounding
    of each float operation is explicit; Python dictionaries by association
    lists in insertion order (the order in which a dictionary is walked only
    matters to [min], [max] and [sorted] on equal keys), except in
    [_get_building_zone_roof], where the order of each walk is a parameter;
    Python exceptions by the [exn] type and the [result] monad.  The source
    is Python 2: [round] rounds halves away from zero, and the name bound by
    [except ... as ex] outlives its clause. *)

From Stdlib Require Import ZArith QArith Qabs Qround Bool List String Ascii Lia Lqa Permutation
  Sorted.
From Stdlib Require Import DecimalString.
Import ListNotations.

Local Open Scope string_scope.
Local Open Scope Z_scope.

(* ===================================================================== *)
(** ** Python values, exceptions and the result monad                     *)
(* ===================================================================== *)

(** Values that a bounds check or an output dictionary can carry. *)
Inductive pyval : Type :=
  | PNone
  | PBool (b : bool)
  | PInt (z : Z)
  | PFloat (q : Q)
  | PStr (s : string)
  | PDate (year month day : Z).

(** The exceptions the translator can raise: the two classes of the module
    ([TranslationError], [InputOutOfBounds]) and the built-in ones. *)
Inductive exn : Type :=
  | TranslationError (msg : string)
  | InputOutOfBounds (inpname : string) (value : pyval)
  | KeyError (key : string)
  | AssertionError
  | TypeError
  | ValueError
  | IndexError
  | ZeroDivisionError.

Inductive result (A : Type) : Type :=
  | Ok (a : A)
  | Raise (e : exn).
Arguments Ok {A} a.
Arguments Raise {A} e.

Definition bind {A B : Type} (c : result A) (k : A -> result B) : result B :=
  match c with
  | Ok a => k a
  | Raise e => Raise e
  end.

Notation "x <- c ;; k" := (bind c (fun x => k))
  (at level 61, c at next level, right associativity).
Notation "' p <- c ;; k" := (bind c (fun x => let p := x in k))
  (at level 61, p pattern, c at next level, right associativity).

Definition is_translation_error (e : exn) : bool :=
  match e with TranslationError _ => true | _ => false end.

(* ===================================================================== *)
(** ** Numbers                                                            *)
(* ===================================================================== *)

Definition Qltb (a b : Q) : bool := negb (Qle_bool b a).

(** [d1 n] is the decimal literal with one digit after the point,
    [d2 n] the one with two: [d1 36] is 3.6 and [d2 95] is 0.95. *)
Definition d1 (n : Z) : Q := (n # 10)%Q.
Definition d2 (n : Z) : Q := (n # 100)%Q.

(** Python 2 [round(x)]: to the nearest integer, halves away from zero. *)
Definition py_round (q : Q) : Z :=
  let n := Qnum q in
  let d := Zpos (Qden q) in
  if 0 <=? n then (2 * n + d) / (2 * d)
  else - ((2 * (- n) + d) / (2 * d)).

(** Python 2 [round(x, ndigits)] for [ndigits] = 1 and 2. *)
Definition py_round1 (q : Q) : Q := (py_round (q * 10) # 10)%Q.
Definition py_round2 (q : Q) : Q := (py_round (q * 100) # 100)%Q.

(** [x / y] on floats. *)
Definition py_div (x y : Q) : result Q :=
  if Qeq_bool y 0%Q then Raise ZeroDivisionError else Ok (x / y)%Q.

(** [min(l, key=...)] and [max(l, key=...)]: the first element whose key
    is least (greatest). *)
Fixpoint py_min_from {A : Type} (key : A -> Q) (best : A) (l : list A) : A :=
  match l with
  | [] => best
  | x :: r => if Qltb (key x) (key best) then py_min_from key x r
              else py_min_from key best r
  end.

Definition py_min {A : Type} (key : A -> Q) (l : list A) : result A :=
  match l with
  | [] => Raise ValueError
  | x :: r => Ok (py_min_from key x r)
  end.

Fixpoint py_max_from {A : Type} (key : A -> Q) (best : A) (l : list A) : A :=
  match l with
  | [] => best
  | x :: r => if Qltb (key best) (key x) then py_max_from key x r
              else py_max_from key best r
  end.

Definition py_max {A : Type} (key : A -> Q) (l : list A) : result A :=
  match l with
  | [] => Raise ValueError
  | x :: r => Ok (py_max_from key x r)
  end.

(** [round_to_nearest(x, vals)] of the source. *)
Definition round_to_nearest (x : Q) (vals : list Z) : result Z :=
  py_min (fun y => Qabs (x - inject_Z y)%Q) vals.

Definition Qsum (l : list Q) : Q := fold_left Qplus l 0%Q.
Definition Zsum (l : list Z) : Z := fold_left Z.add l 0.

(* ===================================================================== *)
(** ** Strings                                                            *)
(* ===================================================================== *)

Definition lower_ascii (c : ascii) : ascii :=
  let n := nat_of_ascii c in
  if (Nat.leb 65 n && Nat.leb n 90)%bool then ascii_of_nat (n + 32) else c.

Fixpoint lower (s : string) : string :=
  match s with
  | EmptyString => EmptyString
  | String c r => String (lower_ascii c) (lower r)
  end.

(** [s[a:b]] for [0 <= a <= b]. *)
Definition slice (a b : nat) (s : string) : string := substring a (b - a) s.

(** ['%d' % z] and ['%02d' % z]. *)
Definition fmt_d (z : Z) : string := NilZero.string_of_int (Z.to_int z).

Definition fmt_02d (z : Z) : string :=
  let s := fmt_d z in
  if Nat.ltb (String.length s) 2 then "0" ++ s else s.

(** [int(s)] on a string of decimal digits. *)
Definition int_of_str (s : string) : result Z :=
  match NilZero.int_of_string s with
  | Some d => Ok (Z.of_int d)
  | None => Raise ValueError
  end.

(** [s.split(sep)] for a one-character separator. *)
Fixpoint split_from (sep : ascii) (cur : string) (s : string) : list string :=
  match s with
  | EmptyString => [cur]
  | String c r =>
      if Ascii.eqb c sep then cur :: split_from sep EmptyString r
      else split_from sep (cur ++ String c EmptyString) r
  end.

Definition py_split (sep : ascii) (s : string) : list string :=
  split_from sep EmptyString s.

Infix "=s?" := String.eqb (at level 70, no associativity).

Definition str_in (s : string) (l : list string) : bool :=
  existsb (String.eqb s) l.

(** [str(x)] for an optional text node. *)
Definition str_opt (x : option string) : string :=
  match x with Some s => s | None => "None" end.

(* ===================================================================== *)
(** ** Dictionaries                                                       *)
(* ===================================================================== *)

Section Dict.
Context {V : Type}.

Definition dict := list (string * V).

Fixpoint dict_get (d : dict) (k : string) : option V :=
  match d with
  | [] => None
  | (k', v) :: r => if String.eqb k k' then Some v else dict_get r k
  end.

(** [d[k]], raising [KeyError]. *)
Definition dict_item (d : dict) (k : string) : result V :=
  match dict_get d k with
  | Some v => Ok v
  | None => Raise (KeyError k)
  end.

(** [d[k] = v]: replaces in place, or appends a new key. *)
Fixpoint dict_set (d : dict) (k : string) (v : V) : dict :=
  match d with
  | [] => [(k, v)]
  | (k', v') :: r =>
      if String.eqb k k' then (k', v) :: r else (k', v') :: dict_set r k v
  end.

(** [del d[k]]: raises [KeyError] when the key is absent. *)
Definition dict_del (d : dict) (k : string) : dict :=
  filter (fun kv => negb (String.eqb (fst kv) k)) d.

Definition py_del (d : dict) (k : string) : result dict :=
  match dict_get d k with
  | Some _ => Ok (dict_del d k)
  | None => Raise (KeyError k)
  end.

(** [dict([(key, f(x)) for key, x in d.items()])] *)
Definition dict_map {W : Type} (f : string -> V -> W) (d : dict) : list (string * W) :=
  map (fun kv => (fst kv, f (fst kv) (snd kv))) d.

Definition dict_keys (d : dict) : list string := map fst d.
Definition dict_values (d : dict) : list V := map snd d.
End Dict.
Arguments dict V : clear implicits.

(** [d[k]] where [k] may be [None]: a missing text node is no key. *)
Definition dict_item_opt {V : Type} (d : dict V) (k : option string) : result V :=
  match k with
  | Some s => dict_item d s
  | None => Raise (KeyError "None")
  end.

(* ===================================================================== *)
(** ** [tobool]                                                           *)
(* ===================================================================== *)

Definition tobool (x : option string) : result (option bool) :=
  match x with
  | None => Ok None
  | Some s =>
      if lower s =s? "true" then Ok (Some true)
      else if lower s =s? "false" then Ok (Some false)
      else Raise AssertionError
  end.

(** Truth value of an optional boolean ([None] is falsy). *)
Definition truthy (b : option bool) : bool :=
  match b with Some true => true | _ => false end.

(* ===================================================================== *)
(** ** Orientation: [get_nearest_azimuth]                                 *)
(* ===================================================================== *)

Definition hpxml_orientation_to_azimuth : dict Z :=
  [("north", 0); ("northeast", 45); ("east", 90); ("southeast", 135);
   ("south", 180); ("southwest", 225); ("west", 270); ("northwest", 315)].

Definition get_nearest_azimuth (azimuth : option Q) (orientation : option string)
  : result Z :=
  match azimuth with
  | Some az => Ok (py_round (az / 45)%Q mod 8 * 45)
  | None =>
      match orientation with
      | None => Raise (TranslationError "Either an orientation or azimuth is required.")
      | Some o => dict_item hpxml_orientation_to_azimuth o
      end
  end.

(** Canonicalization of an integer azimuth, as read from an [Azimuth] node. *)
Definition canonicalize (x : Z) : result Z :=
  get_nearest_azimuth (Some (inject_Z x)) None.

(* ===================================================================== *)
(** ** Walls: [get_wall_assembly_code]                                    *)
(* ===================================================================== *)

(** An [Insulation/Layer] element. *)
Record Layer : Type := mkLayer {
  lyr_installation_type : option string;   (* InstallationType/text() *)
  lyr_rigid : bool;                        (* InsulationMaterial/Rigid present *)
  lyr_nominal_rvalue : option Q            (* NominalRValue/text() *)
}.

(** A [Wall] element. *)
Record Wall : Type := mkWall {
  wall_id : string;                        (* SystemIdentifier/@id *)
  wall_type : string;                      (* name(WallType/ * ) *)
  wall_layers : list Layer;
  wall_eps : option string;                (* ExpandedPolystyreneSheathing/text() *)
  wall_ove : option string;                (* OptimumValueEngineering/text() *)
  wall_siding : option string;             (* Siding/text() *)
  wall_area : option Q                     (* Area/text() *)
}.

Definition sidingmap : dict (option string) :=
  [("wood siding", Some "wo");
   ("stucco", Some "st");
   ("synthetic stucco", Some "st");
   ("vinyl siding", Some "vi");
   ("aluminum siding", Some "al");
   ("brick veneer", Some "br");
   ("asbestos siding", Some "wo");
   ("fiber cement siding", Some "wo");
   ("composite shingle siding", Some "wo");
   ("masonite siding", Some "wo");
   ("other", None)].

(** [float(text)] of an optional text node. *)
Definition float_opt (x : option Q) : result Q :=
  match x with Some q => Ok q | None => Raise TypeError end.

(** The layer loop of the wood-stud branch. *)
Fixpoint woodstud_layers (lyrs : list Layer) (has_rigid_ins : bool) (cavity_rvalue : Q)
  : result (bool * Q) :=
  match lyrs with
  | [] => Ok (has_rigid_ins, cavity_rvalue)
  | lyr :: r =>
      if (lyr_rigid lyr &&
          match lyr_installation_type lyr with
          | Some t => t =s? "continuous"
          | None => false
          end)%bool
      then woodstud_layers r true cavity_rvalue
      else
        v <- float_opt (lyr_nominal_rvalue lyr) ;;
        woodstud_layers r has_rigid_ins (cavity_rvalue + v)%Q
  end.

(** The layer loop of the brick and masonry branches. *)
Fixpoint sum_layers (lyrs : list Layer) (rvalue : Q) : result Q :=
  match lyrs with
  | [] => Ok rvalue
  | lyr :: r =>
      v <- float_opt (lyr_nominal_rvalue lyr) ;;
      sum_layers r (rvalue + v)%Q
  end.

Definition wall_code (wallconstype : string) (rvalue : Z) (sidingtype : string) : string :=
  "ew" ++ wallconstype ++ fmt_02d rvalue ++ sidingtype.

Definition get_wall_assembly_code (hpxmlwall : Wall) : result string :=
  let wallid := wall_id hpxmlwall in
  if wall_type hpxmlwall =s? "WoodStud" then
    '(has_rigid_ins, cavity_rvalue) <- woodstud_layers (wall_layers hpxmlwall) false 0%Q ;;
    eps <- tobool (wall_eps hpxmlwall) ;;
    '(wallconstype, rvalue) <-
      (if (truthy eps || has_rigid_ins)%bool then
         rvalue <- round_to_nearest cavity_rvalue [0; 3; 7; 11; 13; 15; 19; 21] ;;
         Ok ("ps", rvalue)
       else
         ove <- tobool (wall_ove hpxmlwall) ;;
         if truthy ove then
           rvalue <- round_to_nearest cavity_rvalue [19; 21; 27; 33; 38] ;;
           Ok ("ov", rvalue)
         else
           rvalue <- round_to_nearest cavity_rvalue [0; 3; 7; 11; 13; 15; 19; 21] ;;
           Ok ("wf", rvalue)) ;;
    let hpxmlsiding := wall_siding hpxmlwall in
    match dict_item_opt sidingmap hpxmlsiding with
    | Raise (KeyError _) =>
        Raise (TranslationError
                 ("Wall " ++ wallid ++ ": Exterior finish information is missing"))
    | Raise e => Raise e
    | Ok None =>
        Raise (TranslationError
                 ("Wall " ++ wallid ++
                  ": There is no HEScore wall siding equivalent for the HPXML option: "
                  ++ str_opt hpxmlsiding))
    | Ok (Some sidingtype) => Ok (wall_code wallconstype rvalue sidingtype)
    end
  else if wall_type hpxmlwall =s? "StructuralBrick" then
    rvalue <- sum_layers (wall_layers hpxmlwall) 0%Q ;;
    rvalue <- round_to_nearest rvalue [0; 5; 10] ;;
    Ok (wall_code "br" rvalue "nn")
  else if str_in (wall_type hpxmlwall) ["ConcreteMasonryUnit"; "Stone"] then
    rvalue <- sum_layers (wall_layers hpxmlwall) 0%Q ;;
    rvalue <- round_to_nearest rvalue [0; 3; 6] ;;
    match wall_siding hpxmlwall with
    | None => Ok (wall_code "cb" rvalue "nn")
    | Some hpxmlsiding =>
        sidingtype <- dict_item sidingmap hpxmlsiding ;;
        match sidingtype with
        | Some st =>
            if str_in st ["st"; "br"] then Ok (wall_code "cb" rvalue st)
            else
              Raise (TranslationError
                       ("Wall " ++ wallid ++
                        ": is a CMU and needs a siding of stucco, brick, or none to translate to HEScore. It has a siding type of "
                        ++ hpxmlsiding))
        | None =>
            Raise (TranslationError
                     ("Wall " ++ wallid ++
                      ": is a CMU and needs a siding of stucco, brick, or none to translate to HEScore. It has a siding type of "
                      ++ hpxmlsiding))
        end
    end
  else if wall_type hpxmlwall =s? "StrawBale" then
    Ok (wall_code "sb" 0 "st")
  else
    Raise (TranslationError ("Wall type " ++ wall_type hpxmlwall ++ " not supported")).

(* ===================================================================== *)
(** ** Walls: the per-side combination of [_get_building_zone_wall]       *)
(* ===================================================================== *)

(** Dictionaries keyed by a nominal R-value. *)
Definition zdict (V : Type) := list (Z * V).

Fixpoint zdict_get {V : Type} (d : zdict V) (k : Z) : option V :=
  match d with
  | [] => None
  | (k', v) :: r => if k =? k' then Some v else zdict_get r k
  end.

Definition zdict_item {V : Type} (d : zdict V) (k : Z) : result V :=
  match zdict_get d k with
  | Some v => Ok v
  | None => Raise (KeyError (fmt_d k))
  end.

Definition wall_const_types : list string := ["wf"; "ps"; "ov"; "br"; "cb"; "sb"].
Definition wall_ext_finish_types : list string := ["wo"; "st"; "vi"; "al"; "br"; "nn"].

(** [dict(zip(keys, [dict(zip(rvalues, x)) for x in rows]))] *)
Definition eff_table (keys : list string) (rvalues : list Z) (rows : list (list Q))
  : dict (zdict Q) :=
  combine keys (map (combine rvalues) rows).

Definition wall_eff_rvalues : dict (dict (zdict Q)) :=
  [("wf", eff_table (removelast wall_ext_finish_types) [0; 3; 7; 11; 13; 15; 19; 21]
            [ map d1 [36; 57; 97; 137; 157; 177; 217; 237];
              map d1 [23; 44; 84; 124; 144; 164; 204; 224];
              map d1 [22; 43; 83; 123; 143; 163; 203; 223];
              map d1 [21; 42; 82; 122; 142; 162; 202; 222];
              map d1 [29; 50; 90; 130; 150; 170; 210; 230] ]);
   ("ps", eff_table (removelast wall_ext_finish_types) [11; 13; 15; 19; 21]
            [ map d1 [171; 191; 211; 251; 271];
              map d1 [164; 184; 204; 244; 264];
              map d1 [163; 183; 203; 243; 263];
              map d1 [162; 182; 202; 242; 262];
              map d1 [170; 190; 210; 250; 270] ]);
   ("ov", eff_table (removelast wall_ext_finish_types) [19; 21; 27; 33; 38]
            [ map d1 [210; 230; 290; 350; 400];
              map d1 [203; 223; 283; 343; 393];
              map d1 [201; 221; 281; 341; 391];
              map d1 [201; 221; 281; 341; 391];
              map d1 [209; 229; 289; 349; 399] ]);
   ("br", [("nn", combine [0; 5; 10] (map d1 [29; 79; 128]))]);
   ("cb", eff_table ["st"; "br"; "nn"] [0; 3; 6]
            [ map d1 [41; 57; 85];
              [d1 56; d1 72; inject_Z 10];
              [inject_Z 4; d1 56; d1 83] ]);
   ("sb", [("st", [(0, d1 588)])])].

(** An entry of [hpxmlwalls[side]]. *)
Record walld : Type := mkWalld {
  assembly_code : string;
  area : option Q;
  id : string
}.

(** An entry of [zone_wall], before its windows are attached. *)
Record heswall : Type := mkHeswall {
  side : string;
  wall_assembly_code : string
}.

(** The area defaulting and check at the head of the per-side loop. *)
Definition side_wall_areas (side : string) (walls : list walld) : result (list (walld * Q)) :=
  match walls with
  | [w] =>
      Ok [(w, match area w with Some a => a | None => 1%Q end)]
  | _ =>
      if existsb (fun w => match area w with None => true | Some _ => false end) walls
      then Raise (TranslationError
                    ("The " ++ side ++ " side of the house has " ++
                     fmt_d (Z.of_nat (List.length walls)) ++
                     " walls and they do not all have areas."))
      else Ok (map (fun w => (w, match area w with Some a => a | None => 0%Q end)) walls)
  end.

(** The running totals of the loop over the walls of a side. *)
Record wall_acc : Type := mkWallAcc {
  wallra : Q;
  walltotalarea : Q;
  wall_const_type_areas : dict Q;
  wall_ext_finish_areas : dict Q
}.

Definition wall_acc0 : wall_acc :=
  mkWallAcc 0 0
    (combine wall_const_types (repeat 0%Q (List.length wall_const_types)))
    (combine wall_ext_finish_types (repeat 0%Q (List.length wall_ext_finish_types))).

(** [d[k] += v] *)
Definition dict_add (d : dict Q) (k : string) (v : Q) : result (dict Q) :=
  old <- dict_item d k ;;
  Ok (dict_set d k (old + v)%Q).

Definition wall_eff_lookup (const_type ext_finish : string) (rvalue : Z) : result Q :=
  by_finish <- dict_item wall_eff_rvalues const_type ;;
  by_rvalue <- dict_item by_finish ext_finish ;;
  zdict_item by_rvalue rvalue.

Definition wall_step (acc : wall_acc) (wa : walld * Q) : result wall_acc :=
  let '(w, a) := wa in
  let const_type := slice 2 4 (assembly_code w) in
  let ext_finish := slice 6 8 (assembly_code w) in
  rvalue <- int_of_str (slice 4 6 (assembly_code w)) ;;
  eff_rvalue <- wall_eff_lookup const_type ext_finish rvalue ;;
  cta <- dict_add (wall_const_type_areas acc) const_type a ;;
  efa <- dict_add (wall_ext_finish_areas acc) ext_finish a ;;
  Ok (mkWallAcc (wallra acc + a * eff_rvalue)%Q (walltotalarea acc + a)%Q cta efa).

Fixpoint wall_loop (acc : wall_acc) (walls : list (walld * Q)) : result wall_acc :=
  match walls with
  | [] => Ok acc
  | wa :: r => acc' <- wall_step acc wa ;; wall_loop acc' r
  end.

(** [max(d.keys(), key=lambda x: d[x])] *)
Definition dominant (d : dict Q) : result string :=
  py_max (fun k => match dict_get d k with Some v => v | None => 0%Q end) (dict_keys d).

(** The base offset: the effective value at nominal 0, or, where the table
    has no entry for 0, effective minus nominal at the least nominal key. *)
Definition wall_roffset (const_type ext_finish : string) : result Q :=
  match wall_eff_lookup const_type ext_finish 0 with
  | Ok r => Ok r
  | Raise (KeyError _) =>
      by_finish <- dict_item wall_eff_rvalues const_type ;;
      by_rvalue <- dict_item by_finish ext_finish ;;
      '(rvalue, eff_rvalue) <- py_min (fun x => inject_Z (fst x)) by_rvalue ;;
      Ok (eff_rvalue - inject_Z rvalue)%Q
  | Raise e => Raise e
  end.

Definition wall_catalog (const_type ext_finish : string) : result (list Z) :=
  by_finish <- dict_item wall_eff_rvalues const_type ;;
  by_rvalue <- dict_item by_finish ext_finish ;;
  Ok (map fst by_rvalue).

(** The body of [for side in sidemap.values()], lines 1118-1153. *)
Definition build_heswall (side : string) (walls : list walld) : result heswall :=
  walls_a <- side_wall_areas side walls ;;
  acc <- wall_loop wall_acc0 walls_a ;;
  const_type <- dominant (wall_const_type_areas acc) ;;
  ext_finish <- dominant (wall_ext_finish_areas acc) ;;
  roffset <- wall_roffset const_type ext_finish ;;
  rvalueavgeff <- py_div (wallra acc) (walltotalarea acc) ;;
  let rvalueavgnom := (rvalueavgeff - roffset)%Q in
  catalog <- wall_catalog const_type ext_finish ;;
  comb_rvalue <- py_min (fun x => Qabs (rvalueavgnom - inject_Z x)%Q) catalog ;;
  Ok (mkHeswall side (wall_code const_type comb_rvalue ext_finish)).

(** Every (construction type, finish, nominal R-value) key of the table. *)
Definition wall_entries : list (string * string * Z) :=
  flat_map (fun cf : string * dict (zdict Q) =>
    flat_map (fun fr : string * zdict Q =>
      map (fun re : Z * Q => (fst cf, fst fr, fst re)) (snd fr)) (snd cf))
    wall_eff_rvalues.

(** What the protocol returns for a single wall of nominal R-value [rv]:
    [rv] itself, except on masonry (cb), where 6 comes back as 3. *)
Definition single_wall_rvalue (ct : string) (rv : Z) : Z :=
  if ((ct =s? "cb") && (rv =? 6))%bool then 3 else rv.

Definition roundtrip_at (ct fin : string) (rv : Z) : Prop :=
  forall (side wid : string) (a : option Q),
    match a with Some q => (0 < q)%Q | None => True end ->
    build_heswall side [mkWalld (wall_code ct rv fin) a wid]
    = Ok (mkHeswall side (wall_code ct (single_wall_rvalue ct rv) fin)).

(* ===================================================================== *)
(** ** Ducts: [_get_systems_hvac_distribution]                            *)
(* ===================================================================== *)

(** A [Ducts] element. *)
Record Ducts : Type := mkDucts {
  frac_duct_area : option Q;        (* FractionDuctArea/text() *)
  hpxml_duct_location : option string;  (* DuctLocation/text() *)
  duct_has_ins : bool               (* DuctInsulationRValue > 0 or DuctInsulationThickness > 0 *)
}.

(** An [AirDistribution] element with what is read around it. *)
Record AirDistribution : Type := mkAirDistribution {
  issealed : bool;                  (* sealed with mastic, or DuctSystemSealed *)
  ducts : list Ducts;
  cfaserved : option Q              (* ConditionedFloorAreaServed/text() *)
}.

Definition duct_location_map : dict (option string) :=
  [("conditioned space", Some "cond_space");
   ("unconditioned space", None);
   ("unconditioned basement", Some "uncond_basement");
   ("unvented crawlspace", Some "unvented_crawl");
   ("vented crawlspace", Some "vented_crawl");
   ("crawlspace", None);
   ("unconditioned attic", Some "uncond_attic");
   ("interstitial space", None);
   ("garage", None);
   ("outside", None)].

(** [try: d[k] += v  except KeyError: d[k] = v] *)
Definition dict_accum (d : dict Q) (k : string) (v : Q) : dict Q :=
  match dict_get d k with
  | Some old => dict_set d k (old + v)%Q
  | None => dict_set d k v
  end.

Definition dict_accum_or (d : dict bool) (k : string) (v : bool) : dict bool :=
  match dict_get d k with
  | Some old => dict_set d k (old || v)%bool
  | None => dict_set d k v
  end.

(** The loop over the [Ducts] of one system. *)
Fixpoint ducts_loop (ds : list Ducts) (airdistsys_ductfracs : dict Q)
    (hescore_ductloc_has_ins : dict bool) : result (dict Q * dict bool) :=
  match ds with
  | [] => Ok (airdistsys_ductfracs, hescore_ductloc_has_ins)
  | duct :: r =>
      frac <- float_opt (frac_duct_area duct) ;;
      loc <- dict_item_opt duct_location_map (hpxml_duct_location duct) ;;
      match loc with
      | None =>
          Raise (TranslationError ("No comparable duct location in HEScore: "
                                   ++ str_opt (hpxml_duct_location duct)))
      | Some hescore_duct_location =>
          ducts_loop r
            (dict_accum airdistsys_ductfracs hescore_duct_location frac)
            (dict_accum_or hescore_ductloc_has_ins hescore_duct_location (duct_has_ins duct))
      end
  end.

(** [dict([(key, value / total) ...])] *)
Fixpoint dict_div (d : dict Q) (total : Q) : result (dict Q) :=
  match d with
  | [] => Ok []
  | (k, v) :: r =>
      v' <- py_div v total ;;
      r' <- dict_div r total ;;
      Ok ((k, v') :: r')
  end.

(** What the loop over the air distribution systems carries along. *)
Record duct_state : Type := mkDuctState {
  allhave_cfaserved : bool;
  allmissing_cfaserved : bool;
  airdistsystems_ductfracs : list (dict Q);
  ds_has_ins : dict bool;
  airdistsys_issealed : list bool
}.

Definition duct_state0 : duct_state := mkDuctState true true [] [] [].

Definition airdistsys_step (st : duct_state) (sys : AirDistribution) : result duct_state :=
  let sealed := (airdistsys_issealed st ++ [issealed sys])%list in
  '(fracs, has_ins) <- ducts_loop (ducts sys) [] (ds_has_ins st) ;;
  let total_duct_frac := Qsum (dict_values fracs) in
  fracs <- dict_div fracs total_duct_frac ;;
  match cfaserved sys with
  | Some cfa =>
      Ok (mkDuctState (allhave_cfaserved st) false
            (airdistsystems_ductfracs st ++ [dict_map (fun _ value => (value * cfa)%Q) fracs])%list
            has_ins sealed)
  | None =>
      Ok (mkDuctState false (allmissing_cfaserved st)
            (airdistsystems_ductfracs st ++ [fracs])%list has_ins sealed)
  end.

Fixpoint airdistsys_loop (st : duct_state) (systems : list AirDistribution)
  : result duct_state :=
  match systems with
  | [] => Ok st
  | sys :: r => st' <- airdistsys_step st sys ;; airdistsys_loop st' r
  end.

(** The double loop under [# Combine all]. *)
Definition combine_one (issealed : bool) (acc : dict Q * dict Q) (kv : string * Q)
  : dict Q * dict Q :=
  let '(ductfracs, issealedfracs) := acc in
  let '(key, value) := kv in
  (dict_accum ductfracs key value,
   dict_accum issealedfracs key (value * (if issealed then 1 else 0))%Q).

Definition combine_all (systems_ductfracs : list (dict Q)) (sealed : list bool)
  : dict Q * dict Q :=
  fold_left
    (fun acc (p : dict Q * bool) => fold_left (combine_one (snd p)) (fst p) acc)
    (List.combine systems_ductfracs sealed) ([], []).

(** [sorted(l, key=..., reverse=True)]: stable, greatest first. *)
Fixpoint insert_desc {A : Type} (key : A -> Q) (x : A) (l : list A) : list A :=
  match l with
  | [] => [x]
  | y :: r => if Qltb (key x) (key y) then y :: insert_desc key x r else x :: y :: r
  end.

Fixpoint sorted_desc {A : Type} (key : A -> Q) (l : list A) : list A :=
  match l with
  | [] => []
  | x :: r => insert_desc key x (sorted_desc key r)
  end.

Definition getq (d : dict Q) (k : string) : Q :=
  match dict_get d k with Some v => v | None => 0%Q end.

(** The loop deleting every location that is not among the top three. *)
Fixpoint prune (top3locations : list string) (locations : list string)
    (st : dict Q * dict bool * dict Q) : result (dict Q * dict bool * dict Q) :=
  match locations with
  | [] => Ok st
  | location :: r =>
      if str_in location top3locations then prune top3locations r st
      else
        let '(ductfracs, has_ins, issealedfracs) := st in
        ductfracs' <- py_del ductfracs location ;;
        has_ins' <- py_del has_ins location ;;
        issealedfracs' <- py_del issealedfracs location ;;
        prune top3locations r (ductfracs', has_ins', issealedfracs')
  end.

Fixpoint sealed_majority (issealedfracs ductfracs : dict Q) : result (dict bool) :=
  match issealedfracs with
  | [] => Ok []
  | (key, x) :: r =>
      total <- dict_item ductfracs key ;;
      share <- py_div x total ;;
      r' <- sealed_majority r ductfracs ;;
      Ok ((key, negb (py_round share =? 0)) :: r')
  end.

Fixpoint percentages (ductfracs : dict Q) (normalization_denominator : Q)
  : result (dict Z) :=
  match ductfracs with
  | [] => Ok []
  | (key, x) :: r =>
      share <- py_div x normalization_denominator ;;
      r' <- percentages r normalization_denominator ;;
      Ok ((key, py_round (share * 100)%Q) :: r')
  end.

(** An entry of [hvac_distribution]. *)
Record hvacd : Type := mkHvacd {
  name : string;
  location : string;
  fraction : Z;
  insulated : bool;
  sealed : bool
}.

Fixpoint emit_ducts (i : Z) (locations : list string) (ductfracs : dict Z)
    (has_ins : dict bool) (issealedfracs : dict bool) : result (list hvacd) :=
  match locations with
  | [] => Ok []
  | loc :: r =>
      f <- dict_item ductfracs loc ;;
      ins <- dict_item has_ins loc ;;
      sl <- dict_item issealedfracs loc ;;
      rest <- emit_ducts (i + 1) r ductfracs has_ins issealedfracs ;;
      Ok (mkHvacd ("duct" ++ fmt_d i) loc f ins sl :: rest)
  end.

(** From [top3locations = ...] to the end of the function. *)
Definition consolidate_ducts (ductfracs : dict Q) (has_ins : dict bool)
    (issealedfracs : dict Q) : result (list hvacd) :=
  let top3locations := firstn 3 (sorted_desc (getq ductfracs) (dict_keys ductfracs)) in
  '(ductfracs, has_ins, issealedfracs) <-
    prune top3locations (dict_keys ductfracs) (ductfracs, has_ins, issealedfracs) ;;
  issealedfracs <- sealed_majority issealedfracs ductfracs ;;
  let normalization_denominator := Qsum (dict_values ductfracs) in
  ductfracs <- percentages ductfracs normalization_denominator ;;
  ductfracs <-
    match top3locations with
    | first :: _ =>
        old <- dict_item ductfracs first ;;
        Ok (dict_set ductfracs first (old + (100 - Zsum (dict_values ductfracs))))
    | [] => Ok ductfracs
    end ;;
  emit_ducts 1 top3locations ductfracs has_ins issealedfracs.

Definition _get_systems_hvac_distribution (systems : list AirDistribution)
  : result (list hvacd) :=
  st <- airdistsys_loop duct_state0 systems ;;
  let allsame_cfaserved := (allhave_cfaserved st || allmissing_cfaserved st)%bool in
  let n := List.length (airdistsystems_ductfracs st) in
  if ((Nat.ltb 1 n && allsame_cfaserved) || Nat.leb n 1)%bool then
    let '(ductfracs, issealedfracs) :=
      combine_all (airdistsystems_ductfracs st) (airdistsys_issealed st) in
    consolidate_ducts ductfracs (ds_has_ins st) issealedfracs
  else
    Raise (TranslationError
      "All HVACDistribution elements need to have or NOT have the ConditionFloorAreaServed subelement.").

(* ===================================================================== *)
(** ** Roofs and attics: [_get_building_zone_roof]                        *)
(* ===================================================================== *)






















Fixpoint set_of (l : list string) : list string :=
  match l with
  | [] => []
  | x :: r => if str_in x (set_of r) then set_of r else x :: set_of r
  end.









(** *** What the zones are, in the words of the normalization protocol *)










(* ===================================================================== *)
(** ** Heating and cooling: classification of one unit                    *)
(* ===================================================================== *)

(** A [HeatingSystem], [CoolingSystem] or [HeatPump] element of the plant. *)
Record HVACUnit : Type := mkHVACUnit {
  tag : string;                                  (* element name *)
  heat_pump_type : option string;                (* HeatPumpType/text() *)
  heating_system_fuel : option string;           (* HeatingSystemFuel/text() *)
  hpxml_heating_type : string;                   (* name(HeatingSystemType/ * ) *)
  heating_efficiencies : list (string * Q);      (* Units and Value of each annual heating efficiency *)
  hpxml_cooling_type : option string;            (* CoolingSystemType/text() *)
  cooling_efficiencies : list (string * Q);      (* Units and Value of each annual cooling efficiency *)
  years : list Z;                                (* YearInstalled and ModelYear *)
  heating_capacity : option Q;                   (* HeatingCapacity/text() *)
  cooling_capacity : option Q                    (* CoolingCapacity/text() *)
}.

Fixpoint ends_with_from (suffix s : string) (fuel : nat) : bool :=
  if s =s? suffix then true
  else
    match fuel, s with
    | S n, String _ r => ends_with_from suffix r n
    | _, _ => false
    end.

(** [s.endswith(suffix)] *)
Definition endswith (s suffix : string) : bool :=
  ends_with_from suffix s (String.length s).

Definition heat_pump_type_map : dict string :=
  [("water-to-air", "gchp");
   ("water-to-water", "gchp");
   ("air-to-air", "heat_pump");
   ("mini-split", "heat_pump");
   ("ground-to-air", "gchp")].

Definition fuel_type_mapping : dict string :=
  [("electricity", "electric");
   ("renewable electricity", "electric");
   ("natural gas", "natural_gas");
   ("renewable natural gas", "natural_gas");
   ("fuel oil", "fuel_oil");
   ("fuel oil 1", "fuel_oil");
   ("fuel oil 2", "fuel_oil");
   ("fuel oil 4", "fuel_oil");
   ("fuel oil 5/6", "fuel_oil");
   ("propane", "lpg")].

(** The dictionary returned by [get_heating_system_type] and
    [get_cooling_system_type]; a field that is [None] here is a key that
    was not set, except [efficiency_method], which can be set to [None]. *)
Record sysd : Type := mkSysd {
  sd_type : string;
  sd_fuel_primary : option string;
  sd_efficiency_method : option string;
  sd_year : option Z;
  sd_efficiency : option Q;
  sd_capacity : option Q
}.

Definition first_year (u : HVACUnit) : result Z :=
  match years u with
  | y :: _ => Ok y
  | [] => Raise IndexError
  end.

(** The efficiency values whose [Units] are [units], in document order. *)
Definition eff_els (effs : list (string * Q)) (units : string) : list Q :=
  map snd (filter (fun e => fst e =s? units) effs).

Definition get_heating_system_type (htgsys : HVACUnit) : result sysd :=
  '(fuel_primary, type) <-
    (if endswith (tag htgsys) "HeatPump" then
       match heat_pump_type htgsys with
       | None => Ok ("electric", "heat_pump")
       | Some t => ty <- dict_item heat_pump_type_map t ;; Ok ("electric", ty)
       end
     else if endswith (tag htgsys) "HeatingSystem" then
       fuel <- dict_item_opt fuel_type_mapping (heating_system_fuel htgsys) ;;
       match dict_item [("Furnace", "central_furnace");
                        ("WallFurnace", "wall_furnace");
                        ("Boiler", "boiler");
                        ("ElectricResistance", "baseboard")]
                       (hpxml_heating_type htgsys) with
       | Ok ty => Ok (fuel, ty)
       | Raise (KeyError _) =>
           Raise (TranslationError
                    ("HEScore does not support the HPXML HeatingSystemType "
                     ++ hpxml_heating_type htgsys))
       | Raise e => Raise e
       end
     else Raise AssertionError) ;;
  if negb (str_in type ["furnace"; "baseboard"] && (fuel_primary =s? "electric"))%bool then
    eff_units <- dict_item [("heat_pump", "HSPF");
                            ("central_furnace", "AFUE");
                            ("wall_furnace", "AFUE");
                            ("boiler", "AFUE");
                            ("gchp", "COP")] type ;;
    match eff_els (heating_efficiencies htgsys) eff_units with
    | [] =>
        year <- first_year htgsys ;;
        Ok (mkSysd type (Some fuel_primary) (Some "shipment_weighted") (Some year) None
              (heating_capacity htgsys))
    | e :: _ =>
        Ok (mkSysd type (Some fuel_primary) (Some "user") None (Some e)
              (heating_capacity htgsys))
    end
  else
    Ok (mkSysd type (Some fuel_primary) None None None (heating_capacity htgsys)).

Definition get_cooling_system_type (clgsys : HVACUnit) : result sysd :=
  type <-
    (if endswith (tag clgsys) "HeatPump" then
       match heat_pump_type clgsys with
       | None => Ok "heat_pump"
       | Some t => dict_item heat_pump_type_map t
       end
     else if endswith (tag clgsys) "CoolingSystem" then
       dict_item_opt [("central air conditioning", "split_dx");
                      ("room air conditioner", "packaged_dx");
                      ("mini-split", "split_dx")]
                     (hpxml_cooling_type clgsys)
     else Raise AssertionError) ;;
  eff_units <- dict_item [("split_dx", Some "SEER");
                          ("packaged_dx", Some "EER");
                          ("heat_pump", Some "SEER");
                          ("gchp", Some "EER");
                          ("dec", None);
                          ("iec", None);
                          ("idec", None)] type ;;
  let els :=
    match eff_units with
    | Some units => eff_els (cooling_efficiencies clgsys) units
    | None => []
    end in
  match els with
  | [] =>
      year <- first_year clgsys ;;
      Ok (mkSysd type None (Some "shipment_weighted") (Some year) None
            (cooling_capacity clgsys))
  | e :: _ =>
      Ok (mkSysd type None (Some "user") None (Some e) (cooling_capacity clgsys))
  end.

(* ===================================================================== *)
(** ** Heating and cooling: the collection of units                       *)
(* ===================================================================== *)

(** The loop run when no primary system is designated: a unit whose
    classification raises [TranslationError] is skipped and the exception
    kept in [ex]; any other exception leaves the loop at once. *)
Fixpoint classify_units (classify : HVACUnit -> result sysd) (units : list HVACUnit)
    (systems : list sysd) (ex : option exn) : result (list sysd * option exn) :=
  match units with
  | [] => Ok (systems, ex)
  | u :: r =>
      match classify u with
      | Ok d => classify_units classify r (systems ++ [d])%list ex
      | Raise (TranslationError msg) =>
          classify_units classify r systems (Some (TranslationError msg))
      | Raise e => Raise e
      end
  end.

(** Lines 1297-1312 and 1373-1388. *)
Definition collect_systems (classify : HVACUnit -> result sysd)
    (primary : option HVACUnit) (units : list HVACUnit) : result (list sysd) :=
  match primary with
  | None =>
      '(systems, ex) <- classify_units classify units [] None ;;
      match ex, systems with
      | Some e, [] => Raise e
      | _, _ => Ok systems
      end
  | Some p => d <- classify p ;; Ok [d]
  end.

(** The capacity check that follows the collection. *)
Definition default_capacities (msg : string) (systems : list sysd)
  : result (list (sysd * Q)) :=
  if existsb (fun d => match sd_capacity d with None => true | Some _ => false end) systems
  then
    match systems with
    | [d] => Ok [(d, 1%Q)]
    | _ => Raise (TranslationError msg)
    end
  else Ok (map (fun d => (d, match sd_capacity d with Some c => c | None => 0%Q end)) systems).

(* ===================================================================== *)
(** ** Heating and cooling: grouping by capacity                          *)
(* ===================================================================== *)

Definition group_key : Type := (string * option string * option string)%type.

Definition opt_str_eqb (a b : option string) : bool :=
  match a, b with
  | Some x, Some y => x =s? y
  | None, None => true
  | _, _ => false
  end.

Definition group_key_eqb (a b : group_key) : bool :=
  let '(t1, f1, m1) := a in
  let '(t2, f2, m2) := b in
  ((t1 =s? t2) && opt_str_eqb f1 f2 && opt_str_eqb m1 m2)%bool.

(** A value of [htgsys_by_capacity] or [clgsys_by_capacity]. *)
Record combsys : Type := mkCombsys {
  totalcapacity : Q;
  cs_n : Z;
  cs_sum : Q;
  cs_type : string;
  cs_fuel_primary : option string;
  cs_efficiency_method : option string
}.

Definition by_capacity : Type := list (group_key * combsys).

Fixpoint by_capacity_get (d : by_capacity) (k : group_key) : option combsys :=
  match d with
  | [] => None
  | (k', v) :: r => if group_key_eqb k k' then Some v else by_capacity_get r k
  end.

Fixpoint by_capacity_set (d : by_capacity) (k : group_key) (v : combsys) : by_capacity :=
  match d with
  | [] => [(k, v)]
  | (k', v') :: r =>
      if group_key_eqb k k' then (k', v) :: r else (k', v') :: by_capacity_set r k v
  end.

(** [htgsysd[self.eff_method_map[method]]] *)
Definition eff_or_year (method : string) (d : sysd) : result Q :=
  if method =s? "user" then
    match sd_efficiency d with
    | Some e => Ok e
    | None => Raise (KeyError "efficiency")
    end
  else if method =s? "shipment_weighted" then
    match sd_year d with
    | Some y => Ok (inject_Z y)
    | None => Raise (KeyError "year")
    end
  else Raise (KeyError method).

Definition new_combsys (k : group_key) : combsys :=
  let '(t, f, m) := k in mkCombsys 0 0 0 t f m.

Definition htgsys_key (d : sysd) : group_key :=
  (sd_type d, sd_fuel_primary d, sd_efficiency_method d).

(** Cooling groups by type and efficiency method only. *)
Definition clgsys_key (d : sysd) : group_key :=
  (sd_type d, None, sd_efficiency_method d).

(** The body of [for htgsysd in htgsystems]. *)
Definition group_htgsys (groups : by_capacity) (dc : sysd * Q) : result by_capacity :=
  let '(htgsysd, capacity) := dc in
  let combhtgsys :=
    match by_capacity_get groups (htgsys_key htgsysd) with
    | Some c => c
    | None => new_combsys (htgsys_key htgsysd)
    end in
  weighted <-
    match cs_efficiency_method combhtgsys with
    | Some method =>
        v <- eff_or_year method htgsysd ;; Ok (cs_sum combhtgsys + v * capacity)%Q
    | None => Ok (cs_sum combhtgsys)
    end ;;
  Ok (by_capacity_set groups (htgsys_key htgsysd)
        (mkCombsys (totalcapacity combhtgsys + capacity)%Q (cs_n combhtgsys + 1) weighted
           (cs_type combhtgsys) (cs_fuel_primary combhtgsys)
           (cs_efficiency_method combhtgsys))).

(** The body of [for clgsysd in clgsystems]. *)
Definition group_clgsys (groups : by_capacity) (dc : sysd * Q) : result by_capacity :=
  let '(clgsysd, capacity) := dc in
  let combclgsys :=
    match by_capacity_get groups (clgsys_key clgsysd) with
    | Some c => c
    | None => new_combsys (clgsys_key clgsysd)
    end in
  weighted <-
    match cs_efficiency_method combclgsys with
    | Some method =>
        v <- eff_or_year method clgsysd ;; Ok (cs_sum combclgsys + v * capacity)%Q
    | None => Raise (KeyError "None")
    end ;;
  Ok (by_capacity_set groups (clgsys_key clgsysd)
        (mkCombsys (totalcapacity combclgsys + capacity)%Q (cs_n combclgsys + 1) weighted
           (cs_type combclgsys) (cs_fuel_primary combclgsys)
           (cs_efficiency_method combclgsys))).

Fixpoint group_loop (step : by_capacity -> sysd * Q -> result by_capacity)
    (groups : by_capacity) (systems : list (sysd * Q)) : result by_capacity :=
  match systems with
  | [] => Ok groups
  | dc :: r => groups' <- step groups dc ;; group_loop step groups' r
  end.

Definition pystr_opt (x : option string) : pyval :=
  match x with Some s => PStr s | None => PNone end.

(** The keys of a group that remain once [sum] and [n] are deleted;
    cooling groups have no [fuel_primary]. *)
Definition combsys_dict (c : combsys) : dict pyval :=
  ([("totalcapacity", PFloat (totalcapacity c)); ("type", PStr (cs_type c))]
   ++ match cs_fuel_primary c with
      | Some f => [("fuel_primary", PStr f)]
      | None => []
      end
   ++ [("efficiency_method", pystr_opt (cs_efficiency_method c))])%list.

(** The body of [for combhtgsys in htgsys_by_capacity.values()]. *)
Definition finish_htgsys (c : combsys) : result (dict pyval) :=
  match cs_efficiency_method c with
  | Some method =>
      if method =s? "user" then
        mean <- py_div (cs_sum c) (totalcapacity c) ;;
        let rounded :=
          if str_in (cs_type c) ["heat_pump"; "gchp"] then py_round1 mean
          else py_round2 mean in
        Ok (dict_set (combsys_dict c) "efficiency" (PFloat rounded))
      else if method =s? "shipment_weighted" then
        mean <- py_div (cs_sum c) (totalcapacity c) ;;
        Ok (dict_set (combsys_dict c) "year" (PInt (py_round mean)))
      else Raise AssertionError
  | None => py_del (combsys_dict c) "efficiency_method"
  end.

(** The body of [for combclgsys in clgsys_by_capacity.values()]. *)
Definition finish_clgsys (c : combsys) : result (dict pyval) :=
  match cs_efficiency_method c with
  | Some method =>
      if method =s? "user" then
        mean <- py_div (cs_sum c) (totalcapacity c) ;;
        Ok (dict_set (combsys_dict c) "efficiency" (PFloat (py_round1 mean)))
      else if method =s? "shipment_weighted" then
        mean <- py_div (cs_sum c) (totalcapacity c) ;;
        Ok (dict_set (combsys_dict c) "year" (PInt (py_round mean)))
      else Raise AssertionError
  | None => Raise AssertionError
  end.

Fixpoint finish_loop (finish : combsys -> result (dict pyval)) (groups : by_capacity)
  : result (list (dict pyval)) :=
  match groups with
  | [] => Ok []
  | (_, c) :: r =>
      d <- finish c ;;
      rest <- finish_loop finish r ;;
      Ok (d :: rest)
  end.

Definition totalcapacity_of (d : dict pyval) : Q :=
  match dict_get d "totalcapacity" with
  | Some (PFloat q) => q
  | _ => 0%Q
  end.

(** From [if len(htgsys_by_capacity) > 0] to the [return]: the group of
    greatest total capacity, without its [totalcapacity], its year raised
    to 1970 if need be. *)
Definition select_system (groups : list (dict pyval)) : result (dict pyval) :=
  match groups with
  | [] => Ok [("type", PStr "none")]
  | _ :: _ =>
      best <- py_max totalcapacity_of groups ;;
      sys <- py_del best "totalcapacity" ;;
      method <- dict_item sys "efficiency_method" ;;
      match method with
      | PStr m =>
          if m =s? "shipment_weighted" then
            year <- dict_item sys "year" ;;
            match year with
            | PInt y => if y <? 1970 then Ok (dict_set sys "year" (PInt 1970)) else Ok sys
            | _ => Raise TypeError
            end
          else Ok sys
      | _ => Ok sys
      end
  end.

Definition _get_systems_heating (primaryhtgsys : option HVACUnit) (units : list HVACUnit)
  : result (dict pyval) :=
  htgsystems <- collect_systems get_heating_system_type primaryhtgsys units ;;
  htgsystems <-
    default_capacities
      "If a primary heating system is not defined, each heating system must have a capacity"
      htgsystems ;;
  htgsys_by_capacity <- group_loop group_htgsys [] htgsystems ;;
  groups <- finish_loop finish_htgsys htgsys_by_capacity ;;
  select_system groups.

Definition _get_systems_cooling (primaryclgsys : option HVACUnit) (units : list HVACUnit)
  : result (dict pyval) :=
  clgsystems <- collect_systems get_cooling_system_type primaryclgsys units ;;
  clgsystems <-
    default_capacities
      "If a primary cooling system is not defined, each cooling system must have a capacity"
      clgsystems ;;
  clgsys_by_capacity <- group_loop group_clgsys [] clgsystems ;;
  groups <- finish_loop finish_clgsys clgsys_by_capacity ;;
  select_system groups.

(** The units that classify, and the last failure among the units. *)
Definition successes (classify : HVACUnit -> result sysd) (units : list HVACUnit)
  : list sysd :=
  flat_map (fun u => match classify u with Ok d => [d] | Raise _ => [] end) units.

Definition last_failure (classify : HVACUnit -> result sysd) (units : list HVACUnit)
    (ex : option exn) : option exn :=
  fold_left (fun acc u => match classify u with Raise e => Some e | Ok _ => acc end)
    units ex.

(** A unit is tolerable when it classifies or fails with [TranslationError]. *)
Definition tolerable (classify : HVACUnit -> result sysd) (u : HVACUnit) : Prop :=
  match classify u with
  | Ok _ => True
  | Raise e => is_translation_error e = true
  end.

(* ===================================================================== *)
(** ** The building summary: [_get_building_about]                        *)
(* ===================================================================== *)

(** An [AirInfiltrationMeasurement] element. *)
Record AirInfiltrationMeasurement : Type := mkAirInfiltrationMeasurement {
  type_of_infiltration_measurement : option string;
  house_pressure : option Z;
  unit_of_measure : option string;      (* BuildingAirLeakage/UnitofMeasure *)
  air_leakage : option Q;               (* BuildingAirLeakage/AirLeakage *)
  leakiness_description : option string
}.

(** What [_get_building_about] reads from a [Building] element; a date is
    a (year, month, day) triple. *)
Record Building : Type := mkBuilding {
  project_status_date : option (Z * Z * Z);
  residential_facility_type : option string;
  surroundings : option string;
  hpxml_year_built : option Z;
  number_of_bedrooms : option Z;
  number_of_conditioned_floors_above_grade : option Q;
  average_ceiling_height : option Q;
  conditioned_building_volume : option Q;
  hpxml_conditioned_floor_area : option Q;
  azimuth_of_front_of_home : option Q;
  orientation_of_front_of_home : option string;
  air_infiltration_measurements : list AirInfiltrationMeasurement;
  has_air_sealing : bool                (* count(AirInfiltration/AirSealing) > 0 *)
}.

(** The dictionary [bldg_about]; an optional field is a key that may be
    absent. *)
Record about : Type := mkAbout {
  assessment_date : Z * Z * Z;
  shape : string;
  town_house_walls : option string;
  year_built : Z;
  number_bedrooms : Z;
  num_floor_above_grade : Z;
  floor_to_ceiling_height : Z;
  conditioned_floor_area : Z;
  orientation : string;
  blower_door_test : bool;
  envelope_leakage : option pyval;
  air_sealing_present : option bool
}.

Definition shape_map : dict (option string) :=
  [("single-family detached", Some "rectangle");
   ("single-family attached", Some "town_house");
   ("manufactured home", None);
   ("2-4 unit building", None);
   ("5+ unit building", None);
   ("multi-family - uncategorized", None);
   ("multi-family - town homes", Some "town_house");
   ("multi-family - condos", None);
   ("apartment unit", None);
   ("studio unit", None);
   ("other", None);
   ("unknown", None)].

Definition town_house_walls_map : dict (option string) :=
  [("stand-alone", None);
   ("attached on one side", Some "back_right_front");
   ("attached on two sides", Some "back_front");
   ("attached on three sides", None)].

Definition orientation_names : zdict string :=
  [(0, "north"); (45, "north_east"); (90, "east"); (135, "south_east");
   (180, "south"); (225, "south_west"); (270, "west"); (315, "north_west")].

(** [int(text)] of an optional text node. *)
Definition int_opt (x : option Z) : result Z :=
  match x with Some z => Ok z | None => Raise TypeError end.

(** [d[k] = v] on a dictionary keyed by an azimuth. *)
Fixpoint zdict_set {V : Type} (d : zdict V) (k : Z) (v : V) : zdict V :=
  match d with
  | [] => [(k, v)]
  | (k', v') :: r => if k =? k' then (k', v) :: r else (k', v') :: zdict_set r k v
  end.

Definition make_sidemap (house_azimuth : Z) : zdict string :=
  zdict_set
    (zdict_set
       (zdict_set (zdict_set [] house_azimuth "front")
          ((house_azimuth + 90) mod 360) "right")
       ((house_azimuth + 180) mod 360) "back")
    ((house_azimuth + 270) mod 360) "left".

(** The loop over the air infiltration measurements: the last blower door
    test in CFM50, else the first in ACH50; and the last estimate. *)
Fixpoint infiltration_loop (ms : list AirInfiltrationMeasurement)
    (blower_door : option AirInfiltrationMeasurement)
    (air_infilt_est : option AirInfiltrationMeasurement)
  : option AirInfiltrationMeasurement * option AirInfiltrationMeasurement :=
  match ms with
  | [] => (blower_door, air_infilt_est)
  | m :: r =>
      if opt_str_eqb (type_of_infiltration_measurement m) (Some "blower door") then
        let at_50 := match house_pressure m with Some p => p =? 50 | None => false end in
        let cfm := opt_str_eqb (unit_of_measure m) (Some "CFM") in
        let ach := opt_str_eqb (unit_of_measure m) (Some "ACH") in
        let unset := match blower_door with None => true | Some _ => false end in
        if (at_50 && (cfm || (ach && unset)))%bool
        then infiltration_loop r (Some m) air_infilt_est
        else infiltration_loop r blower_door air_infilt_est
      else if opt_str_eqb (type_of_infiltration_measurement m) (Some "estimate") then
        infiltration_loop r blower_door (Some m)
      else infiltration_loop r blower_door air_infilt_est
  end.

Definition _get_building_about (today : Z * Z * Z) (b : Building)
  : result (about * zdict string) :=
  let date := match project_status_date b with Some d => d | None => today end in
  shape <-
    match dict_item_opt shape_map (residential_facility_type b) with
    | Ok (Some sh) => Ok sh
    | Ok None =>
        Raise (TranslationError
                 ("Cannot translate HPXML ResidentialFacilityType of " ++
                  str_opt (residential_facility_type b) ++ " into HEScore building shape"))
    | Raise (KeyError _) =>
        Raise (TranslationError "ResidentialFacilityType is required in the HPXML document")
    | Raise e => Raise e
    end ;;
  walls <-
    (if shape =s? "town_house" then
       match dict_item_opt town_house_walls_map (surroundings b) with
       | Ok (Some w) => Ok (Some w)
       | Ok None =>
           Raise (TranslationError
                    ("Cannot translate HPXML Site/Surroundings element value of " ++
                     str_opt (surroundings b) ++ " into HEScore town_house_walls"))
       | Raise (KeyError _) =>
           Raise (TranslationError
                    "Site/Surroundings element is required in the HPXML document for town houses")
       | Raise e => Raise e
       end
     else Ok None) ;;
  year <- int_opt (hpxml_year_built b) ;;
  nbedrooms <- int_opt (number_of_bedrooms b) ;;
  let nbedrooms := if 10 <? nbedrooms then 10 else nbedrooms in
  floors <- float_opt (number_of_conditioned_floors_above_grade b) ;;
  avg_ceiling_ht <-
    match average_ceiling_height b with
    | None =>
        volume <- float_opt (conditioned_building_volume b) ;;
        cfa <- float_opt (hpxml_conditioned_floor_area b) ;;
        py_div volume cfa
    | Some h => Ok h
    end ;;
  cfa <- float_opt (hpxml_conditioned_floor_area b) ;;
  house_azimuth <-
    get_nearest_azimuth (azimuth_of_front_of_home b) (orientation_of_front_of_home b) ;;
  orientation <- zdict_item orientation_names house_azimuth ;;
  let height := py_round avg_ceiling_ht in
  let area := py_round cfa in
  let '(blower_door, air_infilt_est) :=
    infiltration_loop (air_infiltration_measurements b) None None in
  '(test, leakage, sealing) <-
    match blower_door with
    | Some m =>
        if opt_str_eqb (unit_of_measure m) (Some "CFM") then
          l <- float_opt (air_leakage m) ;;
          Ok (true, Some (PFloat l), None)
        else if opt_str_eqb (unit_of_measure m) (Some "ACH") then
          l <- float_opt (air_leakage m) ;;
          Ok (true,
              Some (PInt (py_round (inject_Z height * inject_Z area * l / 60)%Q)),
              None)
        else Raise AssertionError
    | None =>
        let tight :=
          match air_infilt_est with
          | Some m =>
              match leakiness_description m with
              | Some dsc => str_in dsc ["tight"; "very tight"]
              | None => false
              end
          | None => false
          end in
        Ok (false, None, Some (has_air_sealing b || tight)%bool)
    end ;;
  Ok (mkAbout date shape walls year nbedrooms (Qceiling floors) height area orientation
        test leakage sealing,
      make_sidemap house_azimuth).

(* ===================================================================== *)
(** ** Windows on the shared walls of a town house                        *)
(* ===================================================================== *)

(** An entry of [hpxmlwindows[side]]. *)
Record windowd : Type := mkWindowd {
  wd_area : Q;
  wd_uvalue : option Q;
  wd_shgc : option Q;
  wd_window_code : option string
}.

(** [set(a) - set(b)], in the order of [a]. *)
Definition set_diff (a b : list string) : list string :=
  filter (fun x => negb (str_in x b)) (set_of a).

Fixpoint any_window (hpxmlwindows : dict (list windowd)) (sides : list string)
  : result bool :=
  match sides with
  | [] => Ok false
  | s :: r =>
      windows <- dict_item hpxmlwindows s ;;
      if Nat.ltb 0 (List.length windows) then Ok true else any_window hpxmlwindows r
  end.

(** The closure [windows_are_on_shared_walls]. *)
Definition windows_are_on_shared_walls (sidemap : zdict string)
    (hpxmlwindows : dict (list windowd)) (bldg_about : about) : result bool :=
  match town_house_walls bldg_about with
  | None => Raise (KeyError "town_house_walls")
  | Some walls =>
      let shared_wall_sides := set_diff (map snd sidemap) (py_split "_" walls) in
      any_window hpxmlwindows shared_wall_sides
  end.

Definition set_town_house_walls (a : about) (w : string) : about :=
  mkAbout (assessment_date a) (shape a) (Some w) (year_built a) (number_bedrooms a)
    (num_floor_above_grade a) (floor_to_ceiling_height a) (conditioned_floor_area a)
    (orientation a) (blower_door_test a) (envelope_leakage a) (air_sealing_present a).

(** Lines 1217-1224; returns [bldg_about], which the check may update. *)
Definition check_shared_walls (sidemap : zdict string)
    (hpxmlwindows : dict (list windowd)) (bldg_about : about) : result about :=
  if shape bldg_about =s? "town_house" then
    window_on_shared_wall_fail <-
      windows_are_on_shared_walls sidemap hpxmlwindows bldg_about ;;
    '(bldg_about, window_on_shared_wall_fail) <-
      (if window_on_shared_wall_fail : bool then
         if opt_str_eqb (town_house_walls bldg_about) (Some "back_right_front") then
           let bldg_about := set_town_house_walls bldg_about "back_front_left" in
           again <- windows_are_on_shared_walls sidemap hpxmlwindows bldg_about ;;
           Ok (bldg_about, again)
         else Ok (bldg_about, true)
       else Ok (bldg_about, false)) ;;
    if window_on_shared_wall_fail : bool then
      Raise (TranslationError "The house has windows on shared walls.")
    else Ok bldg_about
  else Ok bldg_about.

(* ===================================================================== *)
(** ** Bounds validation: [_validate_hescore_inputs]                      *)
(* ===================================================================== *)

Definition date_ltb (a b : Z * Z * Z) : bool :=
  let '(y1, m1, d1') := a in
  let '(y2, m2, d2') := b in
  ((y1 <? y2) || ((y1 =? y2) && ((m1 <? m2) || ((m1 =? m2) && (d1' <? d2')))))%bool.

(** [a < b] on the values the validator compares: numbers with numbers,
    dates with dates.  The translator never hands it any other pair. *)
Definition py_lt (a b : pyval) : result bool :=
  match a, b with
  | PInt x, PInt y => Ok (x <? y)
  | PInt x, PFloat y => Ok (Qltb (inject_Z x) y)
  | PFloat x, PInt y => Ok (Qltb x (inject_Z y))
  | PFloat x, PFloat y => Ok (Qltb x y)
  | PDate y1 m1 dd1, PDate y2 m2 dd2 => Ok (date_ltb (y1, m1, dd1) (y2, m2, dd2))
  | _, _ => Raise TypeError
  end.

Definition do_bounds_check (fieldname : string) (value minincl maxincl : pyval)
  : result unit :=
  below <- py_lt value minincl ;;
  if below : bool then Raise (InputOutOfBounds fieldname value)
  else
    above <- py_lt maxincl value ;;
    if above : bool then Raise (InputOutOfBounds fieldname value)
    else Ok tt.

(** [zone_skylight] of a roof zone and [zone_window] of a wall. *)
Record zone_skylight : Type := mkZoneSkylight {
  skylight_area : Q;
  skylight_method : option string;
  skylight_u_value : option Q;
  skylight_shgc : option Q
}.

Record zone_window : Type := mkZoneWindow {
  window_area : Q;
  window_method : option string;
  window_u_value : option Q;
  window_shgc : option Q
}.

(** The parts of [hescore_inputs] that the validator reads. *)
Record hescore_inputs : Type := mkInputs {
  hi_about : about;
  hi_zone_roof : list zone_skylight;
  hi_foundation_insulation_level : Z;
  hi_zone_wall : list zone_window;
  hi_heating : dict pyval;
  hi_cooling : dict pyval;
  hi_hvac_distribution : option (list hvacd);
  hi_domestic_hot_water : dict pyval
}.

(** [d[k]] for an optional key of a record. *)
Definition key_opt {A : Type} (k : string) (x : option A) : result A :=
  match x with Some v => Ok v | None => Raise (KeyError k) end.

Definition is_str (v : pyval) (s : string) : bool :=
  match v with PStr t => t =s? s | _ => false end.

Definition pdate (d : Z * Z * Z) : pyval :=
  let '(y, m, dd) := d in PDate y m dd.

Definition validate_skylight (z : zone_skylight) : result unit :=
  _ <- do_bounds_check "skylight_area" (PFloat (skylight_area z)) (PInt 0) (PInt 300) ;;
  if Qltb 0 (skylight_area z) then
    method <- key_opt "skylight_method" (skylight_method z) ;;
    if method =s? "custom" then
      u <- key_opt "skylight_u_value" (skylight_u_value z) ;;
      _ <- do_bounds_check "skylight_u_value" (PFloat u) (PFloat (d2 1)) (PInt 5) ;;
      g <- key_opt "skylight_shgc" (skylight_shgc z) ;;
      do_bounds_check "skylight_shgc" (PFloat g) (PInt 0) (PInt 1)
    else Ok tt
  else Ok tt.

Definition validate_window (z : zone_window) : result unit :=
  _ <- do_bounds_check "window_area" (PFloat (window_area z)) (PInt 0) (PInt 999) ;;
  if Qltb 0 (window_area z) then
    method <- key_opt "window_method" (window_method z) ;;
    if method =s? "custom" then
      u <- key_opt "window_u_value" (window_u_value z) ;;
      _ <- do_bounds_check "window_u_value" (PFloat u) (PFloat (d2 1)) (PInt 5) ;;
      g <- key_opt "window_shgc" (window_shgc z) ;;
      do_bounds_check "window_shgc" (PFloat g) (PInt 0) (PInt 1)
    else Ok tt
  else Ok tt.

Fixpoint for_each {A : Type} (body : A -> result unit) (l : list A) : result unit :=
  match l with
  | [] => Ok tt
  | x :: r => _ <- body x ;; for_each body r
  end.

Definition validate_system (sys : dict pyval) (eff_field year_field : string)
    (eff_min eff_max : pyval) (year_min this_year : Z) : result unit :=
  method <- dict_item sys "efficiency_method" ;;
  if is_str method "user" then
    e <- dict_item sys "efficiency" ;;
    do_bounds_check eff_field e eff_min eff_max
  else if is_str method "shipment_weighted" then
    y <- dict_item sys "year" ;;
    do_bounds_check year_field y (PInt year_min) (PInt this_year)
  else Raise AssertionError.

Definition validate_dhw (dhw : dict pyval) (this_year : Z) : result unit :=
  type <- dict_item dhw "type" ;;
  if (is_str type "storage" || is_str type "heat_pump")%bool then
    method <- dict_item dhw "efficiency_method" ;;
    if is_str method "user" then
      e <- dict_item dhw "energy_factor" ;;
      do_bounds_check "domestic_hot_water_energy_factor" e (PFloat (d1 1)) (PFloat (inject_Z 3))
    else if is_str method "shipment_weighted" then
      y <- dict_item dhw "year" ;;
      do_bounds_check "domestic_hot_water_year" y (PInt 1972) (PInt this_year)
    else Raise AssertionError
  else Ok tt.

Definition _validate_hescore_inputs (today : Z * Z * Z) (inputs : hescore_inputs)
  : result unit :=
  let this_year := fst (fst today) in
  let a := hi_about inputs in
  _ <- do_bounds_check "assessment_date" (pdate (assessment_date a))
         (PDate 2010 1 1) (pdate today) ;;
  _ <- do_bounds_check "year_built" (PInt (year_built a)) (PInt 1600) (PInt this_year) ;;
  _ <- do_bounds_check "number_bedrooms" (PInt (number_bedrooms a)) (PInt 1) (PInt 10) ;;
  _ <- do_bounds_check "num_floor_above_grade" (PInt (num_floor_above_grade a))
         (PInt 1) (PInt 4) ;;
  _ <- do_bounds_check "floor_to_ceiling_height" (PInt (floor_to_ceiling_height a))
         (PInt 6) (PInt 12) ;;
  _ <- do_bounds_check "conditioned_floor_area" (PInt (conditioned_floor_area a))
         (PInt 250) (PInt 25000) ;;
  _ <- (if blower_door_test a then
          leakage <- key_opt "envelope_leakage" (envelope_leakage a) ;;
          do_bounds_check "envelope_leakage" leakage (PInt 0) (PInt 25000)
        else Ok tt) ;;
  _ <- for_each validate_skylight (hi_zone_roof inputs) ;;
  _ <- do_bounds_check "foundation_insulation_level"
         (PInt (hi_foundation_insulation_level inputs)) (PInt 0) (PInt 19) ;;
  _ <- for_each validate_window (hi_zone_wall inputs) ;;
  _ <- validate_system (hi_heating inputs) "heating_efficiency" "heating_year"
         (PFloat (d1 1)) (PInt 20) 1970 this_year ;;
  _ <- validate_system (hi_cooling inputs) "cooling_efficiency" "cooling_year"
         (PFloat (d1 1)) (PInt 30) 1970 this_year ;;
  ducts <- key_opt "hvac_distribution" (hi_hvac_distribution inputs) ;;
  _ <- for_each (fun h => do_bounds_check "hvac_distribution_fraction"
                            (PInt (fraction h)) (PInt 0) (PInt 100)) ducts ;;
  validate_dhw (hi_domestic_hot_water inputs) this_year.

(** *** The validator as a list of checks

    The same function, laid out as the sequence of its steps: a step is a
    bounds check, or the exception raised on the way to one. *)
Record check : Type := mkCheck {
  ck_name : string;
  ck_value : pyval;
  ck_min : pyval;
  ck_max : pyval
}.

Definition run_check (c : check) : result unit :=
  do_bounds_check (ck_name c) (ck_value c) (ck_min c) (ck_max c).

Fixpoint run_plan (plan : list (result check)) : result unit :=
  match plan with
  | [] => Ok tt
  | Raise e :: _ => Raise e
  | Ok c :: r => _ <- run_check c ;; run_plan r
  end.

Definition keyed_check {A : Type} (k : string) (x : option A) (f : A -> check)
  : result check :=
  match x with Some v => Ok (f v) | None => Raise (KeyError k) end.

Definition skylight_plan (z : zone_skylight) : list (result check) :=
  (Ok (mkCheck "skylight_area" (PFloat (skylight_area z)) (PInt 0) (PInt 300))
   :: if Qltb 0 (skylight_area z) then
        match skylight_method z with
        | None => [Raise (KeyError "skylight_method")]
        | Some method =>
            if method =s? "custom" then
              [keyed_check "skylight_u_value" (skylight_u_value z)
                 (fun u => mkCheck "skylight_u_value" (PFloat u) (PFloat (d2 1)) (PInt 5));
               keyed_check "skylight_shgc" (skylight_shgc z)
                 (fun g => mkCheck "skylight_shgc" (PFloat g) (PInt 0) (PInt 1))]
            else []
        end
      else [])%list.

Definition window_plan (z : zone_window) : list (result check) :=
  (Ok (mkCheck "window_area" (PFloat (window_area z)) (PInt 0) (PInt 999))
   :: if Qltb 0 (window_area z) then
        match window_method z with
        | None => [Raise (KeyError "window_method")]
        | Some method =>
            if method =s? "custom" then
              [keyed_check "window_u_value" (window_u_value z)
                 (fun u => mkCheck "window_u_value" (PFloat u) (PFloat (d2 1)) (PInt 5));
               keyed_check "window_shgc" (window_shgc z)
                 (fun g => mkCheck "window_shgc" (PFloat g) (PInt 0) (PInt 1))]
            else []
        end
      else [])%list.

Definition item_check (sys : dict pyval) (k : string) (f : pyval -> check) : result check :=
  match dict_get sys k with Some v => Ok (f v) | None => Raise (KeyError k) end.

Definition system_plan (sys : dict pyval) (eff_field year_field : string)
    (eff_min eff_max : pyval) (year_min this_year : Z) : list (result check) :=
  match dict_get sys "efficiency_method" with
  | None => [Raise (KeyError "efficiency_method")]
  | Some method =>
      if is_str method "user" then
        [item_check sys "efficiency" (fun e => mkCheck eff_field e eff_min eff_max)]
      else if is_str method "shipment_weighted" then
        [item_check sys "year"
           (fun y => mkCheck year_field y (PInt year_min) (PInt this_year))]
      else [Raise AssertionError]
  end.

Definition dhw_plan (dhw : dict pyval) (this_year : Z) : list (result check) :=
  match dict_get dhw "type" with
  | None => [Raise (KeyError "type")]
  | Some type =>
      if (is_str type "storage" || is_str type "heat_pump")%bool then
        match dict_get dhw "efficiency_method" with
        | None => [Raise (KeyError "efficiency_method")]
        | Some method =>
            if is_str method "user" then
              [item_check dhw "energy_factor"
                 (fun e => mkCheck "domestic_hot_water_energy_factor" e
                             (PFloat (d1 1)) (PFloat (inject_Z 3)))]
            else if is_str method "shipment_weighted" then
              [item_check dhw "year"
                 (fun y => mkCheck "domestic_hot_water_year" y (PInt 1972) (PInt this_year))]
            else [Raise AssertionError]
        end
      else []
  end.

(** The six checks on [building.about] that open the validation. *)
Definition about_checks (today : Z * Z * Z) (a : about) : list check :=
  [mkCheck "assessment_date" (pdate (assessment_date a)) (PDate 2010 1 1) (pdate today);
   mkCheck "year_built" (PInt (year_built a)) (PInt 1600) (PInt (fst (fst today)));
   mkCheck "number_bedrooms" (PInt (number_bedrooms a)) (PInt 1) (PInt 10);
   mkCheck "num_floor_above_grade" (PInt (num_floor_above_grade a)) (PInt 1) (PInt 4);
   mkCheck "floor_to_ceiling_height" (PInt (floor_to_ceiling_height a)) (PInt 6) (PInt 12);
   mkCheck "conditioned_floor_area" (PInt (conditioned_floor_area a))
     (PInt 250) (PInt 25000)].

Definition validation_plan (today : Z * Z * Z) (inputs : hescore_inputs)
  : list (result check) :=
  let this_year := fst (fst today) in
  let a := hi_about inputs in
  (map Ok (about_checks today a)
   ++ (if blower_door_test a then
         [keyed_check "envelope_leakage" (envelope_leakage a)
            (fun l => mkCheck "envelope_leakage" l (PInt 0) (PInt 25000))]
       else [])
   ++ flat_map skylight_plan (hi_zone_roof inputs)
   ++ [Ok (mkCheck "foundation_insulation_level"
             (PInt (hi_foundation_insulation_level inputs)) (PInt 0) (PInt 19))]
   ++ flat_map window_plan (hi_zone_wall inputs)
   ++ system_plan (hi_heating inputs) "heating_efficiency" "heating_year"
        (PFloat (d1 1)) (PInt 20) 1970 this_year
   ++ system_plan (hi_cooling inputs) "cooling_efficiency" "cooling_year"
        (PFloat (d1 1)) (PInt 30) 1970 this_year
   ++ match hi_hvac_distribution inputs with
      | None => [Raise (KeyError "hvac_distribution")]
      | Some ducts =>
          map (fun h => Ok (mkCheck "hvac_distribution_fraction"
                              (PInt (fraction h)) (PInt 0) (PInt 100))) ducts
          ++ dhw_plan (hi_domestic_hot_water inputs) this_year
      end)%list.

(** A check is violated when running it raises the out-of-bounds error
    that carries its field name and its value. *)
Definition violated (c : check) : Prop :=
  run_check c = Raise (InputOutOfBounds (ck_name c) (ck_value c)).

(** What stands in a validation plan: exceptions that are not
    out-of-bounds errors, and checks of which only the third, on the
    bedrooms of [building.about], is named number_bedrooms. *)
Definition plan_item_ok (inputs : hescore_inputs) (x : result check) : Prop :=
  match x with
  | Raise e => forall f v, e <> InputOutOfBounds f v
  | Ok c =>
      ck_name c = "number_bedrooms" ->
      c = mkCheck "number_bedrooms" (PInt (number_bedrooms (hi_about inputs)))
            (PInt 1) (PInt 10)
  end.

(* ===================================================================== *)
(** ** [unspin_azimuth]                                                   *)
(* ===================================================================== *)

(** [while azimuth >= 360: azimuth -= 360], run for at most [fuel] turns. *)
Fixpoint unspin_down (fuel : nat) (azimuth : Z) : option Z :=
  if 360 <=? azimuth then
    match fuel with
    | O => None
    | S n => unspin_down n (azimuth - 360)
    end
  else Some azimuth.

(** [while azimuth < 0: azimuth += 360], run for at most [fuel] turns. *)
Fixpoint unspin_up (fuel : nat) (azimuth : Z) : option Z :=
  if azimuth <? 0 then
    match fuel with
    | O => None
    | S n => unspin_up n (azimuth + 360)
    end
  else Some azimuth.

Definition unspin_azimuth_within (fuel : nat) (azimuth : Z) : option Z :=
  match unspin_down fuel azimuth with
  | Some a => unspin_up fuel a
  | None => None
  end.

(** The two loops, given as many turns as the azimuth has full circles. *)
Definition unspin_azimuth (azimuth : Z) : Z :=
  match unspin_azimuth_within (Z.to_nat (Z.abs azimuth / 360 + 1)) azimuth with
  | Some a => a
  | None => azimuth
  end.

(* ===================================================================== *)
(** ** Windows and skylights: [get_window_code]                           *)
(* ===================================================================== *)

(** What [get_window_code] reads from a [Window] or [Skylight] element. *)
Record Glazing : Type := mkGlazing {
  frame_type : string;                 (* name(FrameType/ * ) *)
  thermal_break : option string;       (* FrameType/ * /ThermalBreak/text() *)
  glass_layers : option string;        (* GlassLayers/text() *)
  glass_type : option string;          (* GlassType/text() *)
  gas_fill : option string             (* GasFill/text() *)
}.

(** [x in (...)] and [x.startswith(p)] for an optional text node that is
    known not to be [None] where the source tests it. *)
Definition opt_in (x : option string) (l : list string) : bool :=
  match x with Some s => str_in s l | None => false end.

Definition opt_startswith (x : option string) (p : string) : bool :=
  match x with Some s => String.prefix p s | None => false end.

Definition double_like : list string :=
  ["double-pane"; "single-paned with storms"; "single-paned with low-e storms"].

Definition get_window_code (window : Glazing) : result string :=
  let frame := frame_type window in
  let layers := glass_layers window in
  let gtype := glass_type window in
  let gas := gas_fill window in
  window_code <-
    (if str_in frame ["Aluminum"; "Metal"] then
       tb <- tobool (thermal_break window) ;;
       if truthy tb then
         if opt_in layers double_like then
           if (opt_str_eqb layers (Some "double-pane") &&
               opt_str_eqb gtype (Some "low-e") &&
               opt_str_eqb gas (Some "argon"))%bool then Ok (Some "dpeaab")
           else if opt_str_eqb gtype (Some "reflective") then Ok (Some "dseab")
           else if opt_startswith gtype "tinted" then Ok (Some "dtab")
           else Ok (Some "dcab")
         else Ok None
       else
         if opt_str_eqb layers (Some "single-pane") then
           if opt_in gtype ["tinted"; "low-e"; "tinted/reflective"] then Ok (Some "stna")
           else Ok (Some "scna")
         else if opt_in layers double_like then
           if opt_in gtype ["reflective"; "tinted/reflective"] then Ok (Some "dseaa")
           else if opt_str_eqb gtype (Some "tinted") then Ok (Some "dtaa")
           else Ok (Some "dcaa")
         else Ok None
     else if str_in frame ["Vinyl"; "Wood"; "Fiberglass"; "Composite"] then
       if opt_str_eqb layers (Some "single-pane") then
         if opt_in gtype ["tinted"; "low-e"; "tinted/reflective"] then Ok (Some "stnw")
         else Ok (Some "scnw")
       else if opt_in layers double_like then
         if ((opt_str_eqb layers (Some "double-pane") && opt_str_eqb gtype (Some "low-e"))
             || opt_str_eqb layers (Some "single-paned with low-e storms"))%bool then
           if (opt_str_eqb gas (Some "argon") && opt_str_eqb layers (Some "double-pane"))%bool
           then Ok (Some "dpeaaw") else Ok (Some "dpeaw")
         else if opt_str_eqb gtype (Some "reflective") then
           if (opt_str_eqb gas (Some "argon") && opt_str_eqb layers (Some "double-pane"))%bool
           then Ok (Some "dseaaw") else Ok (Some "dseaw")
         else if opt_startswith gtype "tinted" then Ok (Some "dtaw")
         else Ok (Some "dcaw")
       else if opt_str_eqb layers (Some "triple-pane") then Ok (Some "thmabw")
       else Ok None
     else Ok None) ;;
  match window_code with
  | Some code => Ok code
  | None => Raise (TranslationError "Cannot translate window type.")
  end.

(** Every code [get_window_code] can return. *)
Definition window_codes : list string :=
  ["dpeaab"; "dseab"; "dtab"; "dcab"; "stna"; "scna"; "dseaa"; "dtaa"; "dcaa";
   "stnw"; "scnw"; "dpeaaw"; "dpeaw"; "dseaaw"; "dseaw"; "dtaw"; "dcaw"; "thmabw"].

(* ===================================================================== *)
(** ** [_get_footprint_area]                                              *)
(* ===================================================================== *)

(** [int(floor_area / stories)] on two integers: the floor division of
    Python 2. *)
Definition _get_footprint_area (bldg_about : about) (foundation_type : string)
  : result Z :=
  let floor_area := conditioned_floor_area bldg_about in
  let stories := num_floor_above_grade bldg_about in
  let stories := if foundation_type =s? "cond_basement" then stories + 1 else stories in
  if stories =? 0 then Raise ZeroDivisionError else Ok (floor_area / stories).

(** Every (construction type, nominal R-value, siding) that
    [get_wall_assembly_code] can put into a code. *)
Definition classified_walls : list (string * Z * string) :=
  let sidings := ["wo"; "st"; "vi"; "al"; "br"] in
  let triples ct rvalues finishes :=
    flat_map (fun rv : Z => map (fun fin : string => (ct, rv, fin)) finishes) rvalues in
  (triples "wf" [0; 3; 7; 11; 13; 15; 19; 21] sidings
   ++ triples "ps" [0; 3; 7; 11; 13; 15; 19; 21] sidings
   ++ triples "ov" [19; 21; 27; 33; 38] sidings
   ++ triples "br" [0; 5; 10] ["nn"]
   ++ triples "cb" [0; 3; 6] ["st"; "br"; "nn"]
   ++ triples "sb" [0] ["st"])%list.

(** The code of a classified wall reads back as its three parts, the parts
    are known categories, and the effective R-value table has an entry for
    them unless they are insulated sheathing (ps) below nominal 11. *)
Definition wall_code_reads_back (t : string * Z * string) : bool :=
  let '(ct, rv, fin) := t in
  let code := wall_code ct rv fin in
  (Nat.eqb (String.length code) 8
   && (slice 2 4 code =s? ct)
   && match int_of_str (slice 4 6 code) with Ok z => z =? rv | Raise _ => false end
   && (slice 6 8 code =s? fin)
   && str_in ct wall_const_types
   && str_in fin wall_ext_finish_types
   && Bool.eqb (match wall_eff_lookup ct fin rv with Ok _ => true | Raise _ => false end)
               (negb ((ct =s? "ps") && (rv <? 11))))%bool.

(* ===================================================================== *)
(** ** Walls and windows by side: [_get_building_zone_wall]               *)
(* ===================================================================== *)

(** A [Wall] element with its direction, and a [Window] element. *)
Record WallEl : Type := mkWallEl {
  we_wall : Wall;
  we_azimuth : option Q;               (* Azimuth/text() *)
  we_orientation : option string       (* Orientation/text() *)
}.

Record WindowEl : Type := mkWindowEl {
  wn_glazing : Glazing;
  wn_area : option Q;                  (* Area/text() *)
  wn_quantity : option Z;              (* Quantity/text() *)
  wn_ufactor : option Q;               (* UFactor/text() *)
  wn_shgc : option Q;                  (* SHGC/text() *)
  wn_attached_to_wall : option string; (* AttachedToWall/@idref *)
  wn_azimuth : option Q;
  wn_orientation : option string
}.

(** [d[k].append(x)] *)
Definition dict_append {A : Type} (d : dict (list A)) (k : string) (x : A)
  : result (dict (list A)) :=
  l <- dict_item d k ;;
  Ok (dict_set d k (l ++ [x])%list).

(** [dict([(side, []) for side in sidemap.values()])] *)
Definition empty_sides {A : Type} (sidemap : zdict string) : dict (list A) :=
  fold_left (fun d s => dict_set d s []) (map snd sidemap) [].

(** The body of [for wall in ...]: the wall goes to its side, to the two
    neighbouring sides with half its area each when its direction falls
    between sides, or to [noside] when it has no direction. *)
Definition assign_wall (sidemap : zdict string) (hpxmlwalls : dict (list walld))
    (wall : WallEl) : result (dict (list walld)) :=
  code <- get_wall_assembly_code (we_wall wall) ;;
  let wd := mkWalld code (wall_area (we_wall wall)) (wall_id (we_wall wall)) in
  match get_nearest_azimuth (we_azimuth wall) (we_orientation wall) with
  | Raise (TranslationError _) => dict_append hpxmlwalls "noside" wd
  | Raise e => Raise e
  | Ok wall_azimuth =>
      match zdict_item sidemap wall_azimuth with
      | Ok wall_side => dict_append hpxmlwalls wall_side wd
      | Raise (KeyError _) =>
          a <- float_opt (area wd) ;;
          let half := mkWalld code (Some (a / 2)%Q) (id wd) in
          side1 <- zdict_item sidemap (unspin_azimuth (wall_azimuth + 45)) ;;
          hpxmlwalls <- dict_append hpxmlwalls side1 half ;;
          side2 <- zdict_item sidemap (unspin_azimuth (wall_azimuth - 45)) ;;
          dict_append hpxmlwalls side2 half
      | Raise e => Raise e
      end
  end.

Fixpoint assign_walls (sidemap : zdict string) (hpxmlwalls : dict (list walld))
    (walls : list WallEl) : result (dict (list walld)) :=
  match walls with
  | [] => Ok hpxmlwalls
  | wall :: r =>
      hpxmlwalls <- assign_wall sidemap hpxmlwalls wall ;;
      assign_walls sidemap hpxmlwalls r
  end.

(** [map(len, [hpxmlwalls[key] for key in sidemap.values()]) == [0] * 4] *)
Definition four_empty_sides (sidemap : zdict string) (hpxmlwalls : dict (list walld))
  : result bool :=
  lens <- (fix go (sides : list string) : result (list nat) :=
             match sides with
             | [] => Ok []
             | s :: r => l <- dict_item hpxmlwalls s ;; rest <- go r ;;
                         Ok (List.length l :: rest)
             end) (map snd sidemap) ;;
  Ok (match lens with
      | [O; O; O; O] => true
      | _ => false
      end).

(** Lines 1075-1084: walls without direction are copied to every side when
    no wall has a direction, and are an error otherwise. *)
Definition spread_noside (sidemap : zdict string) (hpxmlwalls : dict (list walld))
  : result (dict (list walld)) :=
  noside <- dict_item hpxmlwalls "noside" ;;
  empty <- (if Nat.ltb 0 (List.length noside) then four_empty_sides sidemap hpxmlwalls
            else Ok false) ;;
  if empty : bool then
    py_del (fold_left (fun d s => dict_set d s noside) (map snd sidemap) hpxmlwalls) "noside"
  else if Nat.ltb 0 (List.length noside) then
    Raise (TranslationError
             "Some of the HPXML walls have orientation information and others do not.")
  else Ok hpxmlwalls.

(** [hpxmlwalls] as it stands when the windows are read. *)
Definition walls_by_side (sidemap : zdict string) (walls : list WallEl)
  : result (dict (list walld)) :=
  hpxmlwalls <- assign_walls sidemap (dict_set (empty_sides sidemap) "noside" []) walls ;;
  spread_noside sidemap hpxmlwalls.

Fixpoint build_heswalls (hpxmlwalls : dict (list walld)) (sides : list string)
  : result (list heswall) :=
  match sides with
  | [] => Ok []
  | s :: r =>
      walls <- dict_item hpxmlwalls s ;;
      h <- build_heswall s walls ;;
      rest <- build_heswalls hpxmlwalls r ;;
      Ok (h :: rest)
  end.

(** The sides on which a window lies. *)
Definition window_sides_of (sidemap : zdict string) (hpxmlwalls : dict (list walld))
    (w : WindowEl) : result (list string) :=
  match wn_attached_to_wall w with
  | Some attached_to_wall_id =>
      Ok (map fst
            (filter (fun sw : string * list walld =>
                       existsb (fun wall => attached_to_wall_id =s? id wall) (snd sw))
                    hpxmlwalls))
  | None =>
      match get_nearest_azimuth (wn_azimuth w) (wn_orientation w) with
      | Raise (TranslationError _) =>
          Raise (TranslationError
                   "All windows need to have either an AttachedToWall, Orientation, or Azimuth sub element.")
      | Raise e => Raise e
      | Ok wndw_azimuth =>
          _ <- zdict_item sidemap wndw_azimuth ;;
          match zdict_item sidemap wndw_azimuth with
          | Ok s => Ok [s]
          | Raise (KeyError _) =>
              s1 <- zdict_item sidemap (unspin_azimuth (wndw_azimuth + -45)) ;;
              s2 <- zdict_item sidemap (unspin_azimuth (wndw_azimuth + 45)) ;;
              Ok [s1; s2]
          | Raise e => Raise e
          end
      end
  end.

(** [for window_side in window_sides]: the area kept in [windowd] is
    divided anew at every turn. *)
Fixpoint place_window (n : nat) (sides : list string) (wd : windowd)
    (hpxmlwindows : dict (list windowd)) : result (dict (list windowd)) :=
  match sides with
  | [] => Ok hpxmlwindows
  | s :: r =>
      let wd := mkWindowd (wd_area wd / inject_Z (Z.of_nat n))%Q (wd_uvalue wd)
                  (wd_shgc wd) (wd_window_code wd) in
      hpxmlwindows <- dict_append hpxmlwindows s wd ;;
      place_window n r wd hpxmlwindows
  end.

(** The body of [for hpxmlwndw in ...]. *)
Definition assign_window (sidemap : zdict string) (hpxmlwalls : dict (list walld))
    (hpxmlwindows : dict (list windowd)) (w : WindowEl) : result (dict (list windowd)) :=
  a <- match wn_area w with
       | Some a => Ok a
       | None => Raise (TranslationError "All windows need an area.")
       end ;;
  let a := match wn_quantity w with
           | Some qty => (a * inject_Z qty)%Q
           | None => a
           end in
  code <- match wn_ufactor w, wn_shgc w with
          | Some _, Some _ => Ok None
          | _, _ => c <- get_window_code (wn_glazing w) ;; Ok (Some c)
          end ;;
  let wd := mkWindowd a (wn_ufactor w) (wn_shgc w) code in
  window_sides <- window_sides_of sidemap hpxmlwalls w ;;
  place_window (List.length window_sides) window_sides wd hpxmlwindows.

Fixpoint assign_windows (sidemap : zdict string) (hpxmlwalls : dict (list walld))
    (hpxmlwindows : dict (list windowd)) (ws : list WindowEl)
  : result (dict (list windowd)) :=
  match ws with
  | [] => Ok hpxmlwindows
  | w :: r =>
      hpxmlwindows <- assign_window sidemap hpxmlwalls hpxmlwindows w ;;
      assign_windows sidemap hpxmlwalls hpxmlwindows r
  end.

(** The dictionary [zone_window]. *)
Record hes_zone_window : Type := mkHesZoneWindow {
  zw_area : Q;
  zw_method : string;
  zw_code : option string;
  zw_u_value : option Q;
  zw_shgc : option Q
}.

(** [max(d.items(), key=lambda x: x[1])[0]] *)
Definition largest_code (d : dict Q) : result string :=
  kv <- py_max (fun kv : string * Q => snd kv) d ;;
  Ok (fst kv).

Fixpoint code_areas (windows : list windowd) (d : dict Q) : result (dict Q) :=
  match windows with
  | [] => Ok d
  | w :: r =>
      match wd_window_code w with
      | None => Raise AssertionError
      | Some c => code_areas r (dict_accum d c (wd_area w))
      end
  end.

(** The windows whose U-value and SHGC are both set. *)
Definition rated (windows : list windowd) : list (Q * Q * Q) :=
  flat_map (fun w => match wd_uvalue w, wd_shgc w with
                     | Some u, Some g => [(u, g, wd_area w)]
                     | _, _ => []
                     end) windows.

(** The body of [for side, windows in hpxmlwindows.items()]. *)
Definition make_zone_window (windows : list windowd) : result hes_zone_window :=
  match windows with
  | [] => Ok (mkHesZoneWindow 0 "code" (Some "scna") None None)
  | _ :: _ =>
      let total := Qsum (map wd_area windows) in
      match rated windows with
      | (_ :: _) as kept =>
          let areas := Qsum (map (fun x => snd x) kept) in
          u <- py_div (Qsum (map (fun x => (fst (fst x) * snd x)%Q) kept)) areas ;;
          g <- py_div (Qsum (map (fun x => (snd (fst x) * snd x)%Q) kept)) areas ;;
          Ok (mkHesZoneWindow total "custom" None (Some u) (Some g))
      | [] =>
          d <- code_areas windows [] ;;
          c <- largest_code d ;;
          Ok (mkHesZoneWindow total "code" (Some c) None None)
      end
  end.

Fixpoint make_zone_windows (hpxmlwindows : dict (list windowd))
  : result (dict hes_zone_window) :=
  match hpxmlwindows with
  | [] => Ok []
  | (s, windows) :: r =>
      z <- make_zone_window windows ;;
      rest <- make_zone_windows r ;;
      Ok ((s, z) :: rest)
  end.

(** An entry of [zone_wall], complete. *)
Record zone_wall_item : Type := mkZoneWallItem {
  zwi_side : string;
  zwi_wall_assembly_code : string;
  zwi_zone_window : option hes_zone_window
}.

Definition _get_building_zone_wall (walls : list WallEl) (windows : list WindowEl)
    (sidemap : zdict string) (bldg_about : about)
  : result (list zone_wall_item * about) :=
  hpxmlwalls <- walls_by_side sidemap walls ;;
  zone_wall <- build_heswalls hpxmlwalls (map snd sidemap) ;;
  hpxmlwindows <- assign_windows sidemap hpxmlwalls (empty_sides sidemap) windows ;;
  bldg_about <- check_shared_walls sidemap hpxmlwindows bldg_about ;;
  zone_windows <- make_zone_windows hpxmlwindows ;;
  Ok (map (fun h => mkZoneWallItem (side h) (wall_assembly_code h)
                      (dict_get zone_windows (side h))) zone_wall,
      bldg_about).

(** The four sides, in the order in which [make_sidemap] names them. *)
Definition four_sides : list string := ["front"; "right"; "back"; "left"].

(** A wall has a direction when it has an azimuth or an orientation. *)
Definition has_direction (w : WallEl) : bool :=
  match we_azimuth w, we_orientation w with
  | None, None => false
  | _, _ => true
  end.

Definition walld_area (w : walld) : Q :=
  match area w with Some a => a | None => 0%Q end.

(** The wall area held by a dictionary of walls by side. *)
Definition sides_area (d : dict (list walld)) : Q :=
  Qsum (map (fun kv : string * list walld => Qsum (map walld_area (snd kv))) d).

(** One of the sides holds a wall. *)
Definition some_side_holds (sidemap : zdict string) (d : dict (list walld)) : Prop :=
  exists s x l, In s (map snd sidemap) /\ dict_get d s = Some (x :: l).



(* ===================================================================== *)
(** ** Float arithmetic with its rounding                                 *)
(* ===================================================================== *)

(** In the definitions above a float operation is the exact operation on
    rationals.  The area-weighted means of U-values and SHGCs are computed
    in floats and can leave the range of their inputs by the rounding: for
    them each float operation is followed by [rnd], the rounding of its
    result.  The exact model is the case where [rnd] changes nothing, and
    [round53] is the rounding of binary64 floats away from underflow and
    overflow. *)

(** [sum(l)] on floats: from 0, one rounded addition for each element. *)
Definition fl_sum (rnd : Q -> Q) (l : list Q) : Q :=
  fold_left (fun acc x => rnd (acc + x)%Q) l 0%Q.

(** [x / y] on floats. *)
Definition fl_div (rnd : Q -> Q) (x y : Q) : result Q :=
  if Qeq_bool y 0%Q then Raise ZeroDivisionError else Ok (rnd (x / y)%Q).

(** [sum([v * a for (v, a) in zip(vs, areas)]) / sum(areas)], over the
    triples (U-value, SHGC, area) kept, with [val] picking the U-value or
    the SHGC. *)
Definition fl_weighted_mean (rnd : Q -> Q) (val : Q * Q * Q -> Q)
    (kept : list (Q * Q * Q)) : result Q :=
  fl_div rnd (fl_sum rnd (map (fun x => rnd (val x * snd x)%Q) kept))
    (fl_sum rnd (map (fun x => snd x) kept)).

(** [d[k] += v], or [d[k] = v] for a new key. *)
Definition fl_dict_accum (rnd : Q -> Q) (d : dict Q) (k : string) (v : Q) : dict Q :=
  match dict_get d k with
  | Some old => dict_set d k (rnd (old + v)%Q)
  | None => dict_set d k v
  end.

(** The loop that fills [window_code_areas]. *)
Fixpoint fl_code_areas (rnd : Q -> Q) (windows : list windowd) (d : dict Q)
  : result (dict Q) :=
  match windows with
  | [] => Ok d
  | w :: r =>
      match wd_window_code w with
      | None => Raise AssertionError
      | Some c => fl_code_areas rnd r (fl_dict_accum rnd d c (wd_area w))
      end
  end.

(** The body of [for side, windows in hpxmlwindows.items()], as
    [make_zone_window], with the rounding of its float operations. *)
Definition make_zone_window_fl (rnd : Q -> Q) (windows : list windowd)
  : result hes_zone_window :=
  match windows with
  | [] => Ok (mkHesZoneWindow 0 "code" (Some "scna") None None)
  | _ :: _ =>
      let total := fl_sum rnd (map wd_area windows) in
      match rated windows with
      | (_ :: _) as kept =>
          u <- fl_weighted_mean rnd (fun x => fst (fst x)) kept ;;
          g <- fl_weighted_mean rnd (fun x => snd (fst x)) kept ;;
          Ok (mkHesZoneWindow total "custom" None (Some u) (Some g))
      | [] =>
          d <- fl_code_areas rnd windows [] ;;
          c <- largest_code d ;;
          Ok (mkHesZoneWindow total "code" (Some c) None None)
      end
  end.

(** [x ^ n] *)
Fixpoint Qpow (x : Q) (n : nat) : Q :=
  match n with
  | O => 1%Q
  | S m => (x * Qpow x m)%Q
  end.

(** [2 ^ e] for an integer exponent. *)
Definition pow2 (e : Z) : Q :=
  if 0 <=? e then inject_Z (2 ^ e) else (1 / inject_Z (2 ^ (- e)))%Q.

(** The nearest integer, a half going to the even one. *)
Definition round_half_even (y : Q) : Z :=
  let p := Qnum y in
  let q := Zpos (Qden y) in
  let f := p / q in
  let r := p mod q in
  if 2 * r <? q then f
  else if q <? 2 * r then f + 1
  else if Z.even f then f
  else f + 1.

(** The exponent [e] for which a positive [x] has [x / 2^e] in
    [2^52, 2^53). *)
Definition binade (x : Q) : Z :=
  let e0 := Z.log2 (Qnum x) - Z.log2 (Zpos (Qden x)) - 52 in
  if Qle_bool (inject_Z (2 ^ 52)) (x / pow2 e0)%Q then e0 else e0 - 1.

(** Rounding to a float of 53 significant bits, the exponent unbounded: a
    positive [x] is scaled into [2^52, 2^53), rounded to the nearest
    integer and scaled back.  The test always succeeds for a positive [x];
    zero is its own rounding. *)
Definition round53_pos (x : Q) : Q :=
  let s := pow2 (binade x) in
  let y := (x / s)%Q in
  if Qle_bool (inject_Z (2 ^ 52)) y then (inject_Z (round_half_even y) * s)%Q else x.

Definition round53 (x : Q) : Q :=
  if Qle_bool 0 x then round53_pos x else (- round53_pos (- x))%Q.

(** The unit roundoff of binary64, [2^-53]. *)
Definition unit_roundoff : Q := (1 / inject_Z (2 ^ 53))%Q.

(** The float nearest to a decimal literal. *)
Definition float_of (x : Q) : Q := round53 x.

(* ===================================================================== *)
(** ** Skylights                                                          *)
(* ===================================================================== *)

(** A [Skylight] element: its glazing, and the texts of [UFactor], [SHGC]
    and [Area]. *)
Record Skylight : Type := mkSkylight {
  sk_glazing : Glazing;
  sk_ufactor : option Q;
  sk_shgc : option Q;
  sk_area : option Q
}.

(** The dictionary [zone_skylight] that [_get_skylights] returns. *)
Record hes_zone_skylight : Type := mkHesZoneSkylight {
  zs_area : Q;
  zs_method : option string;
  zs_code : option string;
  zs_u_value : option Q;
  zs_shgc : option Q
}.

(** The skylights whose U-factor and SHGC are both set, with their area. *)
Definition rated_skylights (skylights : list Skylight) : list (Q * Q * Q) :=
  flat_map (fun s => match sk_ufactor s, sk_shgc s, sk_area s with
                     | Some u, Some g, Some a => [(u, g, a)]
                     | _, _, _ => []
                     end) skylights.

(** The loop that fills [skylight_type_areas]. *)
Fixpoint skylight_type_areas (rnd : Q -> Q) (skylights : list Skylight) (d : dict Q)
  : result (dict Q) :=
  match skylights with
  | [] => Ok d
  | skylight :: r =>
      let area := sk_area skylight in
      skylight_code <- get_window_code (sk_glazing skylight) ;;
      area <- float_opt area ;;
      skylight_type_areas rnd r (fl_dict_accum rnd d skylight_code area)
  end.

(** The areas of the skylights, once every skylight is known to have one. *)
Definition skylight_areas (skylights : list Skylight) : list Q :=
  flat_map (fun s => match sk_area s with
                     | Some a => [a]
                     | None => []
                     end) skylights.

(** [_get_skylights]; [rnd] is the rounding of the result of a float
    operation. *)
Definition _get_skylights (rnd : Q -> Q) (skylights : list Skylight)
  : result hes_zone_skylight :=
  match skylights with
  | [] => Ok (mkHesZoneSkylight 0 None None None None)
  | _ :: _ =>
      if existsb (fun s => match sk_area s with None => true | Some _ => false end) skylights
      then Raise (TranslationError "Every skylight needs an area.")
      else
        let total := fl_sum rnd (skylight_areas skylights) in
        match rated_skylights skylights with
        | (_ :: _) as kept =>
            u <- fl_weighted_mean rnd (fun x => fst (fst x)) kept ;;
            g <- fl_weighted_mean rnd (fun x => snd (fst x)) kept ;;
            Ok (mkHesZoneSkylight total (Some "custom") None (Some u) (Some g))
        | [] =>
            d <- skylight_type_areas rnd skylights [] ;;
            c <- largest_code d ;;
            Ok (mkHesZoneSkylight total (Some "code") (Some c) None None)
        end
  end.

(** The keys of [zone_skylight] that the validator reads. *)
Definition skylight_inputs (z : hes_zone_skylight) : zone_skylight :=
  mkZoneSkylight (zs_area z) (zs_method z) (zs_u_value z) (zs_shgc z).

(* ===================================================================== *)
(** ** Foundation and floor                                               *)
(* ===================================================================== *)

(** A [FoundationWall]: the texts of [Area], [Length] and [Height], and
    the XPath sum of the nominal R-values of its insulation layers. *)
Record FoundationWall : Type := mkFoundationWall {
  fw_area : option Q;
  fw_length : option Q;
  fw_height : option Q;
  fw_rvalue : Q
}.

Record Slab : Type := mkSlab {
  slab_area : option Q;
  slab_exposed_perimeter : option Q;
  slab_rvalue : Q
}.

Record FrameFloor : Type := mkFrameFloor {
  ff_area : option Q;
  ff_rvalue : Q
}.

(** A [Foundation]: the name of the child of [FoundationType], whether
    [Basement/Conditioned] and [Crawlspace/Vented] are the text [true], and
    its walls, slabs and frame floors. *)
Record Foundation : Type := mkFoundation {
  foundation_type_name : string;
  basement_conditioned : bool;
  crawlspace_vented : bool;
  foundation_walls : list FoundationWall;
  foundation_slabs : list Slab;
  foundation_frame_floors : list FrameFloor
}.

Record zone_floor : Type := mkZoneFloor {
  foundation_type : string;
  foundation_insulation_level : Z;
  floor_assembly_code : string
}.

(** The XPath [sum] of the [Area] children that exist. *)
Definition area_sum (areas : list (option Q)) : Q :=
  Qsum (flat_map (fun a => match a with Some q => [q] | None => [] end) areas).

(** [max([slab area, frame floor area])] of a foundation. *)
Definition foundation_area (fnd : Foundation) : Q :=
  let slab := area_sum (map slab_area (foundation_slabs fnd)) in
  let floor := area_sum (map ff_area (foundation_frame_floors fnd)) in
  if Qltb slab floor then floor else slab.

Definition hes_foundation_type (foundation : Foundation) : result string :=
  let hpxml_foundation_type := foundation_type_name foundation in
  if hpxml_foundation_type =s? "Basement" then
    Ok (if basement_conditioned foundation then "cond_basement" else "uncond_basement")
  else if hpxml_foundation_type =s? "Crawlspace" then
    Ok (if crawlspace_vented foundation then "vented_crawl" else "unvented_crawl")
  else if hpxml_foundation_type =s? "SlabOnGrade" then Ok "slab_on_grade"
  else if hpxml_foundation_type =s? "Garage" then Ok "unvented_crawl"
  else if hpxml_foundation_type =s? "Ambient" then Ok "vented_crawl"
  else Raise (TranslationError
                ("HEScore does not have a foundation type analogous to: "
                 ++ hpxml_foundation_type)).

Definition fw_eff_rvalues : zdict Q :=
  [(0, inject_Z 4); (5, d1 79); (11, d1 116); (19, d1 196)].

Definition floor_eff_rvalues : zdict Q :=
  [(0, inject_Z 4); (11, d1 158); (13, d1 178); (15, d1 198); (19, d1 238);
   (21, d1 258); (25, d1 318); (30, d1 378); (38, d1 428)].

(** [del d[k]] for a key that [d] holds. *)
Definition zdict_del {V : Type} (d : zdict V) (k : Z) : zdict V :=
  filter (fun kv => negb (fst kv =? k)) d.

(** [d[min(d.keys(), key=lambda x: abs(v - x))]] *)
Definition nearest_eff_rvalue (d : zdict Q) (v : Q) : result Q :=
  k <- round_to_nearest v (map fst d) ;;
  zdict_item d k.

(** The area of a foundation wall, from [Area] or from length and height. *)
Definition fwall_area (n : nat) (fwall : FoundationWall) : result Q :=
  match fw_area fwall with
  | Some fwarea => Ok fwarea
  | None =>
      match fw_length fwall, fw_height fwall with
      | Some fwlength, Some fwheight => Ok (fwlength * fwheight)%Q
      | _, _ =>
          if Nat.eqb n 1 then Ok 1%Q
          else Raise (TranslationError
                        "If there is more than one FoundationWall, an Area is required for each.")
      end
  end.

Fixpoint fwall_loop (n : nat) (eff : zdict Q) (foundationwalls : list FoundationWall)
    (fwra fwtotalarea : Q) : result (Q * Q) :=
  match foundationwalls with
  | [] => Ok (fwra, fwtotalarea)
  | fwall :: r =>
      fwarea <- fwall_area n fwall ;;
      fweffrvalue <- nearest_eff_rvalue eff (fw_rvalue fwall) ;;
      fwall_loop n eff r (fwra + fweffrvalue * fwarea)%Q (fwtotalarea + fwarea)%Q
  end.

Fixpoint slab_loop (n : nat) (eff : zdict Q) (slabs : list Slab)
    (slabra slabtotalperimeter : Q) : result (Q * Q) :=
  match slabs with
  | [] => Ok (slabra, slabtotalperimeter)
  | slab :: r =>
      exp_perimeter <-
        match slab_exposed_perimeter slab with
        | Some p => Ok p
        | None =>
            if Nat.eqb n 1 then Ok 1%Q
            else Raise (TranslationError
                          "If there is more than one Slab, an ExposedPerimeter is required for each.")
        end ;;
      slabeffrvalue <- nearest_eff_rvalue eff (slab_rvalue slab) ;;
      slab_loop n eff r (slabra + slabeffrvalue * exp_perimeter)%Q
        (slabtotalperimeter + exp_perimeter)%Q
  end.

Fixpoint framefloor_loop (n : nat) (framefloors : list FrameFloor) (ffra fftotalarea : Q)
  : result (Q * Q) :=
  match framefloors with
  | [] => Ok (ffra, fftotalarea)
  | framefloor :: r =>
      ffarea <-
        match ff_area framefloor with
        | Some a => Ok a
        | None =>
            if Nat.eqb n 1 then Ok 1%Q
            else Raise (TranslationError
                          "If there is more than one FrameFloor, an Area is required for each.")
        end ;;
      ffeffrvalue <- nearest_eff_rvalue floor_eff_rvalues (ff_rvalue framefloor) ;;
      framefloor_loop n r (ffra + ffarea * ffeffrvalue)%Q (fftotalarea + ffarea)%Q
  end.

(** Lines 962-1013: the foundation insulation level. *)
Definition get_foundation_insulation_level (foundation : Foundation) (type : string)
  : result Z :=
  let foundationwalls := foundation_walls foundation in
  '(eff, level) <-
    match foundationwalls with
    | _ :: _ =>
        if type =s? "slab_on_grade" then
          Raise (TranslationError
                   "The house is a slab on grade foundation, but has foundation walls.")
        else
          let eff := zdict_del fw_eff_rvalues 5 in
          '(fwra, fwtotalarea) <-
            fwall_loop (List.length foundationwalls) eff foundationwalls 0 0 ;;
          mean <- py_div fwra fwtotalarea ;;
          Ok (eff, (mean - inject_Z 4)%Q)
    | [] =>
        if type =s? "slab_on_grade" then
          let eff := zdict_del (zdict_del fw_eff_rvalues 11) 19 in
          let slabs := foundation_slabs foundation in
          '(slabra, slabtotalperimeter) <- slab_loop (List.length slabs) eff slabs 0 0 ;;
          mean <- py_div slabra slabtotalperimeter ;;
          Ok (eff, (mean - inject_Z 4)%Q)
        else Ok (fw_eff_rvalues, 0%Q)
    end ;;
  round_to_nearest level (map fst eff).

(** Lines 1015-1037: the floor assembly code. *)
Definition get_floor_assembly_code (foundation : Foundation) : result string :=
  let framefloors := foundation_frame_floors foundation in
  match framefloors with
  | _ :: _ =>
      '(ffra, fftotalarea) <- framefloor_loop (List.length framefloors) framefloors 0 0 ;;
      mean <- py_div ffra fftotalarea ;;
      let ffrvalue := (mean - inject_Z 4)%Q in
      k <- round_to_nearest ffrvalue (map fst floor_eff_rvalues) ;;
      Ok ("efwf" ++ fmt_02d k ++ "ca")
  | [] => Ok "efwf00ca"
  end.

Definition _get_building_zone_floor (foundations : list Foundation) : result zone_floor :=
  foundation <- py_max foundation_area foundations ;;
  type <- hes_foundation_type foundation ;;
  level <- get_foundation_insulation_level foundation type ;;
  code <- get_floor_assembly_code foundation ;;
  Ok (mkZoneFloor type level code).

(* ===================================================================== *)
(** ** Domestic hot water                                                 *)
(* ===================================================================== *)

(** A [WaterHeatingSystem]: the texts that [_get_systems_dhw] reads; the
    year is the first of [YearInstalled] and [ModelYear]. *)
Record WaterHeater : Type := mkWaterHeater {
  water_heater_type : option string;
  wh_fuel_type : option string;
  fraction_dhw_load_served : option Q;
  wh_energy_factor : option Q;
  wh_year : option Z
}.

(** Lines 1542-1554: the primary water heater. *)
Definition primary_dhw (water_heating_systems : list WaterHeater) : result WaterHeater :=
  match water_heating_systems with
  | [] => Raise (TranslationError "No water heating systems found.")
  | [primarydhw] => Ok primarydhw
  | first :: _ =>
      if existsb (fun x => match fraction_dhw_load_served x with
                           | None => true
                           | Some _ => false
                           end) water_heating_systems
      then Ok first
      else py_max (fun x => match fraction_dhw_load_served x with
                            | Some f => f
                            | None => 0%Q
                            end) water_heating_systems
  end.

Definition require_boiler (sys_heating : dict pyval) (msg : string) : result unit :=
  type <- dict_item sys_heating "type" ;;
  if is_str type "boiler" then Ok tt else Raise (TranslationError msg).

Definition _get_systems_dhw (water_heating_systems : list WaterHeater)
    (sys_heating : dict pyval) : result (dict pyval) :=
  primarydhw <- primary_dhw water_heating_systems ;;
  let water_heater_type := water_heater_type primarydhw in
  sys_dhw <-
    (if opt_in water_heater_type ["storage water heater"; "instantaneous water heater"] then
       fuel <- dict_item_opt fuel_type_mapping (wh_fuel_type primarydhw) ;;
       Ok [("category", PStr "unit"); ("type", PStr "storage"); ("fuel_primary", PStr fuel)]
     else if opt_str_eqb water_heater_type (Some "space-heating boiler with storage tank") then
       _ <- require_boiler sys_heating
              "Cannot have an indirect water heater if the primary heating system is not a boiler." ;;
       Ok [("category", PStr "combined"); ("type", PStr "indirect")]
     else if opt_str_eqb water_heater_type (Some "space-heating boiler with tankless coil") then
       _ <- require_boiler sys_heating
              "Cannot have a tankless coil water heater if the primary heating system is not a boiler." ;;
       Ok [("category", PStr "combined"); ("type", PStr "tankless_coil")]
     else if opt_str_eqb water_heater_type (Some "heat pump water heater") then
       Ok [("category", PStr "unit"); ("type", PStr "heat_pump");
           ("fuel_primary", PStr "electric")]
     else Raise (TranslationError
                   ("HEScore cannot model the water heater type: "
                    ++ match water_heater_type with Some t => t | None => "None" end))) ;;
  category <- dict_item sys_dhw "category" ;;
  if negb (is_str category "combined") then
    match wh_energy_factor primarydhw with
    | Some energyfactor =>
        Ok (dict_set (dict_set sys_dhw "efficiency_method" (PStr "user"))
              "energy_factor" (PFloat (py_round2 energyfactor)))
    | None =>
        dhwyear <- int_opt (wh_year primarydhw) ;;
        let dhwyear := if dhwyear <? 1972 then 1972 else dhwyear in
        Ok (dict_set (dict_set sys_dhw "efficiency_method" (PStr "shipment_weighted"))
              "year" (PInt dhwyear))
    end
  else Ok sys_dhw.

(** Inputs that the validator accepts on 3 November 2026, and the same
    with the heating of a house that has no heating unit. *)
Definition sample_inputs (heating : dict pyval) : hescore_inputs :=
  mkInputs
    (mkAbout (2014, 3, 4) "rectangle" None 1990 3 2 8 2000 "north" false None (Some true))
    [mkZoneSkylight (inject_Z 12) (Some "custom") (Some (d1 5)) (Some (d1 4))]
    11
    [mkZoneWindow (inject_Z 40) (Some "code") None None]
    heating
    [("type", PStr "split_dx"); ("efficiency_method", PStr "user");
     ("efficiency", PFloat (inject_Z 13))]
    (Some [mkHvacd "duct1" "cond_space" 100 false false])
    [("category", PStr "unit"); ("type", PStr "storage");
     ("fuel_primary", PStr "natural_gas");
     ("efficiency_method", PStr "shipment_weighted"); ("year", PInt 1995)].

(* ===================================================================== *)
(** ** Hidden keys                                                        *)
(* ===================================================================== *)

(** The nested value that [hpxml_to_hescore_dict] builds: dictionaries,
    lists (or tuples) and leaves. *)
Unset Elimination Schemes.
Inductive pytree : Type :=
  | TLeaf (v : pyval)
  | TDict (items : list (string * pytree))
  | TList (items : list pytree).
Set Elimination Schemes.

(** [_remove_hidden_keys(d)]: the source deletes in place; the value left
    in [d] is returned here. *)
Fixpoint _remove_hidden_keys (d : pytree) : pytree :=
  match d with
  | TDict items =>
      TDict ((fix go (l : list (string * pytree)) : list (string * pytree) :=
                match l with
                | [] => []
                | (key, value) :: r =>
                    if String.prefix "_" key then go r
                    else (key, _remove_hidden_keys value) :: go r
                end) items)
  | TList items => TList (map _remove_hidden_keys items)
  | TLeaf v => TLeaf v
  end.

(** Some dictionary of [d], at any depth, has a key that starts with an
    underscore. *)
Fixpoint has_hidden_key (d : pytree) : bool :=
  match d with
  | TDict items =>
      (fix go (l : list (string * pytree)) : bool :=
         match l with
         | [] => false
         | (key, value) :: r => (String.prefix "_" key || has_hidden_key value || go r)%bool
         end) items
  | TList items =>
      (fix go (l : list pytree) : bool :=
         match l with
         | [] => false
         | x :: r => (has_hidden_key x || go r)%bool
         end) items
  | TLeaf _ => false
  end.

(** [d[k1][k2]...] through nested dictionaries. *)
Fixpoint tree_path (d : pytree) (path : list string) : option pytree :=
  match path with
  | [] => Some d
  | k :: r =>
      match d with
      | TDict items =>
          match dict_get items k with
          | Some v => tree_path v r
          | None => None
          end
      | _ => None
      end
  end.


(* ===================================================================== *)
(** * Properties                                                          *)
(* ===================================================================== *)

(** ** Rounding *)

Lemma py_round_45 (x : Z) : py_round (inject_Z x / 45)%Q = (2 * x + 45) / 90.
Proof.
  unfold py_round, inject_Z, Qdiv, Qmult, Qinv; simpl Qnum; simpl Qden.
  replace (x * 1) with x by lia.
  change (Z.pos (1 * 45)) with 45.
  destruct (Z.leb_spec 0 x) as [Hx | Hx].
  - f_equal; lia.
  - replace (2 * 45) with 90 by reflexivity.
    Z.to_euclidean_division_equations; lia.
Qed.

(** ** Azimuth canonicalization *)

(** C6: canonicalizing an integer azimuth is idempotent, and it is
    360-periodic: shifting the azimuth by any multiple of 360 does not
    change the bin. *)
Theorem canonicalize_idempotent_periodic (x : Z) :
  (exists a, canonicalize x = Ok a /\ canonicalize a = Ok a) /\
  (forall k : Z, canonicalize (x + 360 * k) = canonicalize x).
Proof.
  unfold canonicalize, get_nearest_azimuth; split.
  - eexists; split; [reflexivity |].
    f_equal. rewrite !py_round_45.
    set (m := ((2 * x + 45) / 90) mod 8).
    assert (Hm : 0 <= m < 8) by (apply Z.mod_pos_bound; lia).
    replace (2 * (m * 45) + 45) with (45 + m * 90) by lia.
    rewrite Z.div_add by lia.
    change (45 / 90) with 0. rewrite Z.add_0_l.
    rewrite Z.mod_small by lia. reflexivity.
  - intros k. f_equal. rewrite !py_round_45.
    replace (2 * (x + 360 * k) + 45) with (2 * x + 45 + (8 * k) * 90) by lia.
    rewrite Z.div_add by lia.
    replace ((2 * x + 45) / 90 + 8 * k) with ((2 * x + 45) / 90 + k * 8) by lia.
    rewrite Z.mod_add by lia. reflexivity.
Qed.

(** ** Wall assembly codes *)

(** C8: a wood-stud wall with one non-continuous layer of nominal R-value 13
    and one continuous rigid layer, sided with vinyl, gets the code
    [ewps13vi], whatever the order of the two layers. *)
Theorem wood_stud_rigid_vinyl_code
  (wid : string) (inst : option string) (rigid1 : bool) (rigid_rvalue : option Q)
  (eps ove : option string) (area : option Q) (layers : list Layer)
  (Hinst : inst <> Some "continuous")
  (Heps : exists b, tobool eps = Ok b)
  (Hlayers :
     let cavity := mkLayer inst rigid1 (Some (inject_Z 13)) in
     let sheathing := mkLayer (Some "continuous") true rigid_rvalue in
     layers = [cavity; sheathing] \/ layers = [sheathing; cavity]) :
  get_wall_assembly_code
    (mkWall wid "WoodStud" layers eps ove (Some "vinyl siding") area)
  = Ok "ewps13vi".
Proof.
  destruct Heps as [b Hb].
  assert (Hnc : (rigid1 && match inst with
                           | Some t => t =s? "continuous"
                           | None => false
                           end)%bool = false).
  { destruct inst as [t |]; [| now rewrite andb_false_r].
    destruct (String.eqb_spec t "continuous") as [-> | _];
      [congruence | now rewrite andb_false_r]. }
  unfold get_wall_assembly_code; simpl.
  destruct Hlayers as [-> | ->]; simpl; rewrite Hnc; simpl; rewrite Hb; simpl;
    rewrite orb_true_r; reflexivity.
Qed.

Lemma wood_stud_rigid_vinyl_code_witness :
  get_wall_assembly_code
    (mkWall "wall1" "WoodStud"
       [mkLayer (Some "cavity") false (Some (inject_Z 13));
        mkLayer (Some "continuous") true (Some (inject_Z 5))]
       None None (Some "vinyl siding") (Some (inject_Z 100)))
  = Ok "ewps13vi".
Proof.
  apply (wood_stud_rigid_vinyl_code "wall1" (Some "cavity") false (Some (inject_Z 5))
           None None (Some (inject_Z 100))).
  - discriminate.
  - exists None; reflexivity.
  - left; reflexivity.
Defined.

(** ** Facts about [min], [max] and dictionaries *)

Lemma Qltb_lt (a b : Q) : Qltb a b = true <-> (a < b)%Q.
Proof.
  unfold Qltb. rewrite negb_true_iff. split; intros H.
  - apply Qnot_le_lt. intros Hle. apply Qle_bool_iff in Hle. congruence.
  - destruct (Qle_bool b a) eqn:E; [| reflexivity].
    apply Qle_bool_iff in E. exfalso. exact (Qlt_not_le _ _ H E).
Qed.

Lemma Qltb_ext (a a' b b' : Q) : (a == a')%Q -> (b == b')%Q -> Qltb a b = Qltb a' b'.
Proof. intros Ha Hb. unfold Qltb. now rewrite Ha, Hb. Qed.

Section MinMax.
Context {A : Type} (eq_dec : forall a b : A, {a = b} + {a <> b}).

Lemma py_min_from_ext (key1 key2 : A -> Q) :
  (forall y, (key1 y == key2 y)%Q) ->
  forall l best, py_min_from key1 best l = py_min_from key2 best l.
Proof.
  intros H; induction l as [| x r IH]; intros best; simpl; [reflexivity |].
  rewrite (Qltb_ext _ _ _ _ (H x) (H best)).
  destruct (Qltb (key2 x) (key2 best)); apply IH.
Qed.

Lemma py_min_ext (key1 key2 : A -> Q) (l : list A) :
  (forall y, (key1 y == key2 y)%Q) -> py_min key1 l = py_min key2 l.
Proof.
  intros H; destruct l; simpl; [reflexivity |].
  now rewrite (py_min_from_ext _ _ H).
Qed.

(** A strict maximum is returned wherever it stands in the list. *)
Lemma py_max_from_unique (key : A -> Q) (x : A) :
  forall l best,
    (best = x \/ In x l) ->
    (forall y, (y = best \/ In y l) -> y <> x -> (key y < key x)%Q) ->
    py_max_from key best l = x.
Proof.
  induction l as [| a r IH]; intros best Hin Hlt; simpl.
  - destruct Hin as [H | []]; exact H.
  - destruct (Qltb (key best) (key a)) eqn:E.
    + apply Qltb_lt in E. apply IH.
      * destruct (eq_dec a x) as [Hax | Hax]; [now left |].
        destruct Hin as [-> | [H | H]]; [| contradiction | now right].
        exfalso. apply (Qlt_irrefl (key x)).
        apply Qlt_trans with (key a); [exact E |].
        apply Hlt; [right; now left | exact Hax].
      * intros y [-> | Hy] Hyx; apply Hlt; auto; right; [now left | now right].
    + apply IH.
      * destruct Hin as [H | [H | H]]; [now left | | now right].
        subst a. destruct (eq_dec best x) as [Hb | Hb]; [now left |].
        exfalso. assert (Hl : (key best < key x)%Q) by (apply Hlt; auto).
        apply Qltb_lt in Hl. congruence.
      * intros y [-> | Hy] Hyx; apply Hlt; auto; right; now right.
Qed.

Lemma py_max_unique (key : A -> Q) (x : A) (l : list A) :
  In x l ->
  (forall y, In y l -> y <> x -> (key y < key x)%Q) ->
  py_max key l = Ok x.
Proof.
  destruct l as [| a r]; [intros [] |]; intros Hin Hlt; simpl.
  f_equal. apply py_max_from_unique.
  - destruct Hin; auto.
  - intros y Hy; apply Hlt. destruct Hy; [left | right]; auto.
Qed.
End MinMax.

Section DictFacts.
Context {V : Type}.

Lemma dict_get_In (d : dict V) (k : string) (v : V) :
  dict_get d k = Some v -> In (k, v) d.
Proof.
  induction d as [| [k' v'] r IH]; simpl; [discriminate |].
  destruct (String.eqb_spec k k') as [-> | _]; intros H.
  - injection H as ->; now left.
  - right; auto.
Qed.

Lemma dict_get_set_eq (d : dict V) (k : string) (v : V) :
  dict_get (dict_set d k v) k = Some v.
Proof.
  induction d as [| [k' v'] r IH]; simpl.
  - now rewrite String.eqb_refl.
  - destruct (String.eqb_spec k k') as [-> | Hne]; simpl.
    + now rewrite String.eqb_refl.
    + destruct (String.eqb_spec k k'); [contradiction | exact IH].
Qed.

Lemma dict_get_set_neq (d : dict V) (k k' : string) (v : V) :
  k' <> k -> dict_get (dict_set d k v) k' = dict_get d k'.
Proof.
  intros Hne; induction d as [| [k0 v0] r IH]; simpl.
  - destruct (String.eqb_spec k' k); [contradiction | reflexivity].
  - destruct (String.eqb_spec k k0) as [-> | Hk]; simpl.
    + destruct (String.eqb_spec k' k0); [contradiction | reflexivity].
    + destruct (String.eqb_spec k' k0); [reflexivity | exact IH].
Qed.

Lemma dict_keys_set_in (d : dict V) (k : string) (v : V) :
  In k (dict_keys d) -> dict_keys (dict_set d k v) = dict_keys d.
Proof.
  induction d as [| [k0 v0] r IH]; simpl; [intros [] |].
  destruct (String.eqb_spec k k0) as [-> | Hk]; simpl; [reflexivity |].
  intros [H | H]; [congruence | now rewrite IH].
Qed.

Lemma dict_get_keys (d : dict V) (k : string) :
  In k (dict_keys d) -> exists v, dict_get d k = Some v.
Proof.
  induction d as [| [k0 v0] r IH]; simpl; [intros [] |].
  destruct (String.eqb_spec k k0) as [-> | Hk]; [eauto |].
  intros [H | H]; [congruence | auto].
Qed.
End DictFacts.

Lemma zdict_get_In {V : Type} (d : zdict V) (k : Z) (v : V) :
  zdict_get d k = Some v -> In (k, v) d.
Proof.
  induction d as [| [k' v'] r IH]; simpl; [discriminate |].
  destruct (Z.eqb_spec k k') as [-> | _]; intros H.
  - injection H as ->; now left.
  - right; auto.
Qed.

(** Adding a positive area to one key of an all-zero dictionary makes that
    key the dominant one. *)
Lemma dominant_add_single (d : dict Q) (k : string) (q : Q) :
  (forall k', In k' (dict_keys d) -> dict_get d k' = Some 0%Q) ->
  In k (dict_keys d) -> (0 < q)%Q ->
  exists d', dict_add d k q = Ok d' /\ dominant d' = Ok k.
Proof.
  intros Hzero Hin Hq.
  exists (dict_set d k (0 + q)%Q). split.
  - unfold dict_add, dict_item. now rewrite (Hzero k Hin).
  - unfold dominant. rewrite dict_keys_set_in by exact Hin.
    apply (py_max_unique string_dec); [exact Hin |].
    intros y Hy Hne.
    rewrite dict_get_set_neq by exact Hne.
    rewrite dict_get_set_eq, (Hzero y Hy).
    now rewrite Qplus_0_l.
Qed.

(** ** R-value normalization on a wall side *)

Lemma wall_lookup_entries (ct fin : string) (rv : Z) (eff : Q) :
  wall_eff_lookup ct fin rv = Ok eff -> In (ct, fin, rv) wall_entries.
Proof.
  unfold wall_eff_lookup, dict_item, zdict_item.
  destruct (dict_get wall_eff_rvalues ct) as [bf |] eqn:E1; [| discriminate].
  cbn [bind].
  destruct (dict_get bf fin) as [br |] eqn:E2; [| discriminate].
  cbn [bind].
  destruct (zdict_get br rv) as [e |] eqn:E3; [| discriminate].
  intros _. unfold wall_entries.
  apply in_flat_map. exists (ct, bf). split; [now apply dict_get_In |].
  apply in_flat_map. exists (fin, br). split; [now apply dict_get_In |].
  apply in_map_iff. exists (rv, e). split; [reflexivity | now apply zdict_get_In].
Qed.

Lemma wall_const_type_areas0_zero (k : string) :
  In k (dict_keys (wall_const_type_areas wall_acc0)) ->
  dict_get (wall_const_type_areas wall_acc0) k = Some 0%Q.
Proof. simpl. intuition (subst; reflexivity). Qed.

Lemma wall_ext_finish_areas0_zero (k : string) :
  In k (dict_keys (wall_ext_finish_areas wall_acc0)) ->
  dict_get (wall_ext_finish_areas wall_acc0) k = Some 0%Q.
Proof. simpl. intuition (subst; reflexivity). Qed.

(** A side holding one wall of positive area: the dominant categories are
    the wall's own, and the mean effective R-value is the wall's. *)
Lemma build_heswall_single
  (side code wid : string) (q : Q) (ct fin : string) (rv : Z)
  (eff roffset : Q) (catalog : list Z) :
  slice 2 4 code = ct -> slice 6 8 code = fin ->
  int_of_str (slice 4 6 code) = Ok rv ->
  wall_eff_lookup ct fin rv = Ok eff ->
  In ct wall_const_types -> In fin wall_ext_finish_types ->
  wall_roffset ct fin = Ok roffset -> wall_catalog ct fin = Ok catalog ->
  (0 < q)%Q ->
  build_heswall side [mkWalld code (Some q) wid] =
    (comb_rvalue <- py_min (fun x => Qabs (eff - roffset - inject_Z x)%Q) catalog ;;
     Ok (mkHeswall side (wall_code ct comb_rvalue fin))).
Proof.
  intros Hct Hfin Hrv Heff Hinct Hinfin Hroff Hcat Hq.
  destruct (dominant_add_single (wall_const_type_areas wall_acc0) ct q
              wall_const_type_areas0_zero Hinct Hq) as [cta [Hcta Hdct]].
  destruct (dominant_add_single (wall_ext_finish_areas wall_acc0) fin q
              wall_ext_finish_areas0_zero Hinfin Hq) as [efa [Hefa Hdfin]].
  unfold build_heswall.
  change (side_wall_areas side [mkWalld code (Some q) wid])
    with (Ok [(mkWalld code (Some q) wid, q)]).
  cbn [bind wall_loop]. unfold wall_step. cbn [assembly_code].
  rewrite Hct, Hfin, Hrv. cbn [bind].
  rewrite Heff. cbn [bind].
  rewrite Hcta. cbn [bind]. rewrite Hefa.
  cbn [bind wall_const_type_areas wall_ext_finish_areas wallra walltotalarea].
  rewrite Hdct. cbn [bind]. rewrite Hdfin. cbn [bind].
  rewrite Hroff. cbn [bind].
  unfold py_div. cbn [wallra walltotalarea wall_acc0].
  assert (Hnz : ~ (0 + q == 0)%Q).
  { rewrite Qplus_0_l. intros E. rewrite E in Hq. exact (Qlt_irrefl _ Hq). }
  destruct (Qeq_bool (0 + q) 0) eqn:E; [apply Qeq_bool_iff in E; contradiction |].
  cbn [bind]. rewrite Hcat. cbn [bind].
  rewrite (py_min_ext
             (fun x => Qabs ((0 + q * eff) / (0 + q) - roffset - inject_Z x)%Q)
             (fun x => Qabs (eff - roffset - inject_Z x)%Q)); [reflexivity |].
  intros y. apply Qabs_wd.
  assert (Hq0 : ~ (q == 0)%Q) by (intros E'; apply Hnz; now rewrite E', Qplus_0_l).
  field. exact Hq0.
Qed.

Ltac solve_roundtrip ct fin rv :=
  let eff := eval vm_compute in (wall_eff_lookup ct fin rv) in
  let ro := eval vm_compute in (wall_roffset ct fin) in
  let cat := eval vm_compute in (wall_catalog ct fin) in
  match constr:((eff, ro, cat)) with
  | (Ok ?e, Ok ?r, Ok ?c) =>
      intros side wid [q |] Ha;
      [ rewrite (build_heswall_single side (wall_code ct rv fin) wid q ct fin rv e r c);
        [ vm_compute; reflexivity
        | reflexivity | reflexivity | reflexivity
        | vm_compute; reflexivity
        | simpl; tauto | simpl; tauto
        | vm_compute; reflexivity | vm_compute; reflexivity
        | exact Ha ]
      | vm_compute; reflexivity ]
  end.

Lemma roundtrip_all_entries :
  Forall (fun e : string * string * Z =>
            let '(ct, fin, rv) := e in roundtrip_at ct fin rv)
         wall_entries.
Proof.
  let l := eval vm_compute in wall_entries in change wall_entries with l.
  repeat
    match goal with
    | |- Forall _ [] => constructor
    | |- Forall _ ((?ct, ?fin, ?rv) :: _) =>
        constructor; [ cbv beta iota; solve_roundtrip ct fin rv | ]
    end.
Qed.

(** C1 (amended): on a side holding one wall whose construction type,
    finish and nominal R-value are a key of the effective R-value table,
    and whose area is positive or absent, the combined code is the wall's
    own code with its nominal R-value unchanged, unless the wall is masonry
    (cb) with nominal R-value 6, which comes back as 3. *)
Theorem single_wall_rvalue_roundtrip
  (ct fin : string) (rv : Z) (eff : Q) (side wid : string) (a : option Q) :
  wall_eff_lookup ct fin rv = Ok eff ->
  match a with Some q => (0 < q)%Q | None => True end ->
  build_heswall side [mkWalld (wall_code ct rv fin) a wid]
  = Ok (mkHeswall side (wall_code ct (single_wall_rvalue ct rv) fin)) /\
  (~ (ct = "cb" /\ rv = 6) -> single_wall_rvalue ct rv = rv).
Proof.
  intros Heff Ha. split.
  - apply wall_lookup_entries in Heff.
    pose proof (proj1 (Forall_forall _ _) roundtrip_all_entries _ Heff) as H.
    exact (H side wid a Ha).
  - intros Hne. unfold single_wall_rvalue.
    destruct (String.eqb_spec ct "cb") as [-> | _]; [| reflexivity].
    destruct (Z.eqb_spec rv 6) as [-> | _]; [| reflexivity].
    exfalso; apply Hne; split; reflexivity.
Qed.

Lemma single_wall_rvalue_roundtrip_witness :
  build_heswall "front" [mkWalld (wall_code "wf" 13 "wo") (Some (inject_Z 100)) "wall1"]
  = Ok (mkHeswall "front" (wall_code "wf" (single_wall_rvalue "wf" 13) "wo")) /\
  (~ ("wf" = "cb" /\ 13 = 6) -> single_wall_rvalue "wf" 13 = 13).
Proof.
  apply (single_wall_rvalue_roundtrip "wf" "wo" 13 (d1 157) "front" "wall1"
           (Some (inject_Z 100))).
  - reflexivity.
  - reflexivity.
Defined.

(** C1 as stated fails: a concrete-masonry wall insulated to R-6 with a
    stucco finish classifies to [ewcb06st], 6 being a key of the table for
    masonry with stucco, yet alone on its side it is emitted as
    [ewcb03st]. *)
Lemma masonry_r6_drifts_to_r3 :
  get_wall_assembly_code
    (mkWall "wall1" "ConcreteMasonryUnit" [mkLayer None false (Some (inject_Z 6))]
       None None (Some "stucco") (Some (inject_Z 120)))
  = Ok "ewcb06st" /\
  wall_eff_lookup "cb" "st" 6 = Ok (d1 85) /\
  build_heswall "front" [mkWalld "ewcb06st" (Some (inject_Z 120)) "wall1"]
  = Ok (mkHeswall "front" "ewcb03st") /\
  "ewcb03st" <> "ewcb06st".
Proof.
  repeat split; try (vm_compute; reflexivity). discriminate.
Qed.

(** ** Duct consolidation *)

Lemma Zsum_from (l : list Z) (a : Z) : fold_left Z.add l a = a + Zsum l.
Proof.
  unfold Zsum. revert a. induction l as [| x r IH]; intros a; simpl; [lia |].
  rewrite IH, (IH x). lia.
Qed.

Lemma Zsum_cons (x : Z) (l : list Z) : Zsum (x :: l) = x + Zsum l.
Proof. unfold Zsum at 1; simpl. now rewrite Zsum_from. Qed.

Lemma Zsum_perm (l l' : list Z) : Permutation l l' -> Zsum l = Zsum l'.
Proof.
  induction 1 as [| x l l' _ IH | x y l | l l' l'' _ IH1 _ IH2].
  - reflexivity.
  - now rewrite !Zsum_cons, IH.
  - rewrite !Zsum_cons. lia.
  - congruence.
Qed.

Lemma str_in_In (s : string) (l : list string) : str_in s l = true <-> In s l.
Proof.
  unfold str_in. rewrite existsb_exists. split.
  - intros [x [Hx E]]. apply String.eqb_eq in E. now subst.
  - intros H. exists s. split; [exact H | apply String.eqb_refl].
Qed.

Lemma filter_filter_and {A : Type} (f g : A -> bool) (l : list A) :
  filter f (filter g l) = filter (fun x => (g x && f x)%bool) l.
Proof.
  induction l as [| x r IH]; simpl; [reflexivity |].
  destruct (g x); simpl; [destruct (f x) |]; now rewrite IH.
Qed.

Lemma filter_all {A : Type} (f : A -> bool) (l : list A) :
  (forall x, In x l -> f x = true) -> filter f l = l.
Proof.
  induction l as [| x r IH]; simpl; intros H; [reflexivity |].
  rewrite (H x) by now left. f_equal. apply IH. intros y Hy. apply H. now right.
Qed.

Lemma filter_none {A : Type} (f : A -> bool) (l : list A) :
  (forall x, In x l -> f x = false) -> filter f l = [].
Proof.
  induction l as [| x r IH]; simpl; intros H; [reflexivity |].
  rewrite (H x) by now left. apply IH. intros y Hy. apply H. now right.
Qed.

Lemma filter_ext_in_list {A : Type} (f g : A -> bool) (l : list A) :
  (forall x, In x l -> f x = g x) -> filter f l = filter g l.
Proof.
  induction l as [| x r IH]; simpl; intros H; [reflexivity |].
  rewrite (H x) by now left. rewrite IH; [reflexivity |].
  intros y Hy. apply H. now right.
Qed.

Section DictKeys.
Context {V : Type}.

Lemma dict_keys_del (d : dict V) (k : string) :
  dict_keys (dict_del d k) = filter (fun k' => negb (k' =s? k)) (dict_keys d).
Proof.
  unfold dict_del, dict_keys.
  induction d as [| [k0 v0] r IH]; simpl; [reflexivity |].
  destruct (negb (k0 =s? k)); simpl; now rewrite IH.
Qed.

Lemma dict_keys_set (d : dict V) (k : string) (v : V) :
  dict_keys (dict_set d k v) =
  if str_in k (dict_keys d) then dict_keys d else (dict_keys d ++ [k])%list.
Proof.
  induction d as [| [k0 v0] r IH]; simpl; [reflexivity |].
  destruct (String.eqb_spec k k0) as [-> | Hne]; simpl; [reflexivity |].
  rewrite IH. unfold str_in. now destruct (existsb (String.eqb k) (dict_keys r)).
Qed.

Lemma dict_set_nodup (d : dict V) (k : string) (v : V) :
  NoDup (dict_keys d) -> NoDup (dict_keys (dict_set d k v)).
Proof.
  intros H. rewrite dict_keys_set.
  destruct (str_in k (dict_keys d)) eqn:E; [exact H |].
  apply NoDup_app; [exact H | repeat constructor; intros [] |].
  intros x Hx [<- | []].
  apply str_in_In in Hx. congruence.
Qed.

Lemma dict_get_not_in (d : dict V) (k : string) :
  ~ In k (dict_keys d) -> dict_get d k = None.
Proof.
  induction d as [| [k0 v0] r IH]; simpl; [reflexivity |].
  intros H. destruct (String.eqb_spec k k0) as [-> | _].
  - exfalso; apply H; now left.
  - apply IH. intros Hin; apply H; now right.
Qed.

(** Looking up the keys of a dictionary, in order, yields its values. *)
Lemma dict_get_own_keys (d : dict V) :
  NoDup (dict_keys d) -> map (dict_get d) (dict_keys d) = map Some (dict_values d).
Proof.
  induction d as [| [k0 v0] r IH]; simpl; [reflexivity |].
  intros H. inversion H as [| ? ? Hnotin Hnd]; subst.
  rewrite String.eqb_refl. f_equal.
  rewrite <- IH by exact Hnd.
  apply map_ext_in. intros k Hk.
  destruct (String.eqb_spec k k0) as [-> | _]; [contradiction | reflexivity].
Qed.
End DictKeys.

Lemma dict_accum_nodup (d : dict Q) (k : string) (v : Q) :
  NoDup (dict_keys d) -> NoDup (dict_keys (dict_accum d k v)).
Proof. unfold dict_accum. destruct (dict_get d k); apply dict_set_nodup. Qed.

Lemma combine_all_nodup (l : list (dict Q)) (sl : list bool) :
  NoDup (dict_keys (fst (combine_all l sl))).
Proof.
  unfold combine_all.
  assert (Hgen : forall ps acc,
             NoDup (dict_keys (fst acc)) ->
             NoDup (dict_keys (fst (fold_left
               (fun acc (p : dict Q * bool) =>
                  fold_left (combine_one (snd p)) (fst p) acc) ps acc)))).
  { induction ps as [| p ps IH]; intros acc Hacc; simpl; [exact Hacc |].
    apply IH. generalize (fst p). intros kvs. revert acc Hacc.
    induction kvs as [| [k v] kvs IHk]; intros [df isf] Hacc; simpl; [exact Hacc |].
    apply IHk. simpl. now apply dict_accum_nodup. }
  apply Hgen. constructor.
Qed.

(** Replacing the value of a key shifts the total by the difference. *)
Lemma Zsum_dict_set (d : dict Z) (k : string) (old v : Z) :
  NoDup (dict_keys d) -> dict_get d k = Some old ->
  Zsum (dict_values (dict_set d k v)) = Zsum (dict_values d) - old + v.
Proof.
  unfold dict_values.
  induction d as [| [k0 v0] r IH]; simpl; [discriminate |].
  intros Hnd Hget. inversion Hnd as [| ? ? _ Hnd']; subst.
  destruct (String.eqb_spec k k0) as [-> | Hne]; simpl.
  - injection Hget as ->. rewrite !Zsum_cons. lia.
  - rewrite !Zsum_cons. rewrite IH by assumption. lia.
Qed.

Lemma lookup_sum_perm (d : dict Z) (l : list string) (vs : list Z) :
  NoDup (dict_keys d) -> Permutation l (dict_keys d) ->
  map (dict_get d) l = map Some vs ->
  Zsum vs = Zsum (dict_values d).
Proof.
  intros Hnd Hperm Hmap.
  apply Zsum_perm.
  apply (Permutation_map (dict_get d)) in Hperm.
  rewrite Hmap, dict_get_own_keys in Hperm by exact Hnd.
  apply Permutation_map_inv in Hperm as [l3 [E P]].
  assert (l3 = vs).
  { clear - E. revert vs E. induction l3 as [| x r IH]; intros [| y vs] E;
      simpl in E; try discriminate; [reflexivity |].
    injection E as E1 E2. f_equal; [congruence | now apply IH]. }
  subst l3. now symmetry.
Qed.

Lemma insert_desc_perm {A : Type} (key : A -> Q) (x : A) (l : list A) :
  Permutation (insert_desc key x l) (x :: l).
Proof.
  induction l as [| y r IH]; simpl; [reflexivity |].
  destruct (Qltb (key x) (key y)); [| reflexivity].
  rewrite IH. apply perm_swap.
Qed.

Lemma sorted_desc_perm {A : Type} (key : A -> Q) (l : list A) :
  Permutation (sorted_desc key l) l.
Proof.
  induction l as [| x r IH]; simpl; [reflexivity |].
  rewrite insert_desc_perm. now constructor.
Qed.

Lemma prune_keys (top3 : list string) :
  forall (ks : list string) (df : dict Q) (hi : dict bool) (isf : dict Q) df' hi' isf',
    prune top3 ks (df, hi, isf) = Ok (df', hi', isf') ->
    dict_keys df' =
    filter (fun k => (str_in k top3 || negb (str_in k ks))%bool) (dict_keys df).
Proof.
  induction ks as [| loc r IH]; intros df hi isf df' hi' isf' H; simpl in H.
  - injection H as <- _ _. symmetry. apply filter_all.
    intros x _. simpl. apply orb_true_r.
  - destruct (str_in loc top3) eqn:E.
    + rewrite (IH _ _ _ _ _ _ H). apply filter_ext. intros k. simpl.
      destruct (String.eqb_spec k loc) as [-> | _]; [| reflexivity].
      now rewrite E.
    + unfold py_del in H.
      destruct (dict_get df loc); [| discriminate]. cbn [bind] in H.
      destruct (dict_get hi loc); [| discriminate]. cbn [bind] in H.
      destruct (dict_get isf loc); [| discriminate]. cbn [bind] in H.
      rewrite (IH _ _ _ _ _ _ H), dict_keys_del, filter_filter_and.
      apply filter_ext. intros k. simpl.
      destruct (String.eqb_spec k loc) as [-> | _]; simpl; [| reflexivity].
      now rewrite E.
Qed.

Lemma percentages_keys (d : dict Q) (denom : Q) (d' : dict Z) :
  percentages d denom = Ok d' -> dict_keys d' = dict_keys d.
Proof.
  revert d'. induction d as [| [k v] r IH]; intros d' H; simpl in H.
  - injection H as <-. reflexivity.
  - destruct (py_div v denom); [| discriminate]. cbn [bind] in H.
    destruct (percentages r denom) as [r' |]; [| discriminate]. cbn [bind] in H.
    injection H as <-. simpl. f_equal. now apply IH.
Qed.

Lemma emit_ducts_spec (locs : list string) (d : dict Z) (hi isf : dict bool) :
  forall (i : Z) (r : list hvacd),
    emit_ducts i locs d hi isf = Ok r ->
    List.length r = List.length locs /\
    map (dict_get d) locs = map Some (map fraction r).
Proof.
  induction locs as [| loc rest IH]; intros i r H; simpl in H.
  - injection H as <-. split; reflexivity.
  - unfold dict_item in H.
    destruct (dict_get d loc) as [f |] eqn:Ef; [| discriminate]. cbn [bind] in H.
    destruct (dict_get hi loc); [| discriminate]. cbn [bind] in H.
    destruct (dict_get isf loc); [| discriminate]. cbn [bind] in H.
    destruct (emit_ducts (i + 1) rest d hi isf) as [r' |] eqn:Er; [| discriminate].
    cbn [bind] in H. injection H as <-.
    destruct (IH _ _ Er) as [Hl Hm]. simpl. split; [now rewrite Hl |].
    now rewrite Ef, Hm.
Qed.

Lemma NoDup_firstn {A : Type} (n : nat) (l : list A) : NoDup l -> NoDup (firstn n l).
Proof.
  intros H. rewrite <- (firstn_skipn n l) in H.
  now apply NoDup_app_remove_r in H.
Qed.

Lemma In_firstn {A : Type} (n : nat) (l : list A) (x : A) : In x (firstn n l) -> In x l.
Proof.
  intros H. rewrite <- (firstn_skipn n l). apply in_or_app. now left.
Qed.

(** The consolidation step: at most three buckets, and percentages that
    add up to 100 as soon as there is a bucket. *)
Lemma consolidate_ducts_sum (df : dict Q) (hi : dict bool) (isf : dict Q) (r : list hvacd) :
  NoDup (dict_keys df) ->
  consolidate_ducts df hi isf = Ok r ->
  (List.length r <= 3)%nat /\
  Zsum (map fraction r) = match r with [] => 0 | _ :: _ => 100 end.
Proof.
  intros Hnd. unfold consolidate_ducts.
  set (top3 := firstn 3 (sorted_desc (getq df) (dict_keys df))).
  assert (Hnd3 : NoDup top3).
  { apply NoDup_firstn.
    apply (Permutation_NoDup (l := dict_keys df)); [| exact Hnd].
    symmetry. apply sorted_desc_perm. }
  assert (Hsub : forall x, In x top3 -> In x (dict_keys df)).
  { intros x Hx. apply In_firstn in Hx.
    apply (Permutation_in _ (sorted_desc_perm (getq df) (dict_keys df))). exact Hx. }
  destruct (prune top3 (dict_keys df) (df, hi, isf)) as [[[df1 hi1] isf1] |] eqn:Ep;
    [| discriminate].
  cbn [bind].
  destruct (sealed_majority isf1 df1) as [isf2 |]; [| discriminate]. cbn [bind].
  destruct (percentages df1 (Qsum (dict_values df1))) as [pct |] eqn:Epct;
    [| discriminate].
  cbn [bind].
  assert (Hkeys : dict_keys pct = filter (fun k => str_in k top3) (dict_keys df)).
  { rewrite (percentages_keys _ _ _ Epct), (prune_keys _ _ _ _ _ _ _ _ Ep).
    apply filter_ext_in_list. intros k Hk.
    apply str_in_In in Hk. rewrite Hk. simpl. apply orb_false_r. }
  assert (Hndp : NoDup (dict_keys pct)).
  { rewrite Hkeys. now apply NoDup_filter. }
  assert (Hperm : Permutation top3 (dict_keys pct)).
  { apply NoDup_Permutation; [exact Hnd3 | exact Hndp |].
    intros x. rewrite Hkeys, filter_In, str_in_In. split; [| tauto].
    intros Hx. split; [now apply Hsub | exact Hx]. }
  assert (Hlen : (List.length top3 <= 3)%nat) by apply firstn_le_length.
  destruct top3 as [| first rest] eqn:Etop.
  - intros H. simpl in H. injection H as <-. split; [simpl; lia | reflexivity].
  - unfold dict_item at 1.
    destruct (dict_get pct first) as [old |] eqn:Eold; [| discriminate].
    cbn [bind]. intros H.
    set (adj := dict_set pct first (old + (100 - Zsum (dict_values pct)))) in H.
    destruct (emit_ducts_spec _ _ _ _ _ _ H) as [Hl Hm].
    split; [rewrite Hl; exact Hlen |].
    assert (Hin : In first (dict_keys pct)).
    { apply (Permutation_in _ Hperm). now left. }
    assert (Hka : dict_keys adj = dict_keys pct).
    { unfold adj. now apply dict_keys_set_in. }
    rewrite (lookup_sum_perm adj (first :: rest) (map fraction r)).
    + unfold adj. rewrite (Zsum_dict_set pct first old) by assumption.
      destruct r; [discriminate Hl | lia].
    + rewrite Hka. exact Hndp.
    + rewrite Hka. exact Hperm.
    + exact Hm.
Qed.

(** C2 (amended): a successful [_get_systems_hvac_distribution] returns at
    most three duct buckets; their integer fractions add up to exactly 100
    when there is at least one bucket, and the list is empty (sum 0) when
    the building has no duct at all. *)
Theorem hvac_distribution_buckets (systems : list AirDistribution) (r : list hvacd) :
  _get_systems_hvac_distribution systems = Ok r ->
  (List.length r <= 3)%nat /\
  Zsum (map fraction r) = match r with [] => 0 | _ :: _ => 100 end.
Proof.
  unfold _get_systems_hvac_distribution.
  destruct (airdistsys_loop duct_state0 systems) as [st |]; [| discriminate].
  cbn [bind].
  match goal with |- context [if ?c then _ else _] => destruct c end; [| discriminate].
  pose proof (combine_all_nodup (airdistsystems_ductfracs st) (airdistsys_issealed st)) as Hnd.
  destruct (combine_all (airdistsystems_ductfracs st) (airdistsys_issealed st))
    as [ductfracs issealedfracs].
  apply consolidate_ducts_sum. exact Hnd.
Qed.

Lemma hvac_distribution_buckets_witness :
  let systems :=
    [mkAirDistribution true
       [mkDucts (Some (d1 6)) (Some "conditioned space") true;
        mkDucts (Some (d1 4)) (Some "unconditioned basement") false] None] in
  let r := [mkHvacd "duct1" "cond_space" 60 true true;
            mkHvacd "duct2" "uncond_basement" 40 false true] in
  (List.length r <= 3)%nat /\
  Zsum (map fraction r) = match r with [] => 0 | _ :: _ => 100 end.
Proof.
  intros systems r.
  apply (hvac_distribution_buckets systems r).
  vm_compute. reflexivity.
Defined.

(** C2 as stated fails on a building that is heated or cooled without any
    air distribution system: the list is produced, it is empty, and its
    fractions add up to 0, not 100. *)
Lemma hvac_distribution_empty_sum :
  _get_systems_hvac_distribution [] = Ok [] /\
  Zsum (map fraction (@nil hvacd)) <> 100.
Proof. split; [reflexivity | discriminate]. Qed.

(** ** Roof zones *)

Lemma py_max_from_in {A : Type} (key : A -> Q) (l : list A) :
  forall best, py_max_from key best l = best \/ In (py_max_from key best l) l.
Proof.
  induction l as [| x r IH]; intros best; simpl; [now left |].
  destruct (Qltb (key best) (key x)).
  - destruct (IH x) as [-> | H]; auto.
  - destruct (IH best) as [-> | H]; auto.
Qed.

Lemma py_max_in {A : Type} (key : A -> Q) (l : list A) (x : A) :
  py_max key l = Ok x -> In x l.
Proof.
  destruct l as [| a r]; simpl; [discriminate |].
  intros H; injection H as <-.
  destruct (py_max_from_in key r a) as [-> | H]; auto.
Qed.



Section DictMore.
Context {V : Type}.

Lemma dict_get_some_keys (d : dict V) (k : string) (v : V) :
  dict_get d k = Some v -> In k (dict_keys d).
Proof.
  intros H. apply dict_get_In in H.
  apply (in_map fst) in H. exact H.
Qed.

Lemma dict_keys_set_iff (d : dict V) (k k' : string) (v : V) :
  In k' (dict_keys (dict_set d k v)) <-> In k' (dict_keys d) \/ k' = k.
Proof.
  rewrite dict_keys_set.
  destruct (str_in k (dict_keys d)) eqn:E.
  - apply str_in_In in E. split; [auto |]. intros [H | ->]; auto.
  - rewrite in_app_iff. simpl. intuition.
Qed.

End DictMore.




(** ** Heating and cooling: the collection of units *)

Lemma classify_units_tolerant (classify : HVACUnit -> result sysd) :
  forall (units : list HVACUnit) (systems : list sysd) (ex : option exn),
    Forall (tolerable classify) units ->
    classify_units classify units systems ex
    = Ok ((systems ++ successes classify units)%list, last_failure classify units ex).
Proof.
  induction units as [| u r IH]; intros systems ex Hall; simpl.
  - now rewrite app_nil_r.
  - inversion Hall as [| ? ? Hu Hr]; subst. unfold tolerable in Hu.
    destruct (classify u) as [d | e].
    + rewrite IH by exact Hr. simpl. now rewrite <- app_assoc.
    + destruct e; try discriminate. now rewrite IH by exact Hr.
Qed.

(** With no primary system, failures that are [TranslationError]s are
    skipped as soon as one unit classifies. *)
Lemma collect_systems_tolerates (classify : HVACUnit -> result sysd)
    (units : list HVACUnit) :
  Forall (tolerable classify) units ->
  successes classify units <> [] ->
  collect_systems classify None units = Ok (successes classify units).
Proof.
  intros Hall Hne. unfold collect_systems.
  rewrite classify_units_tolerant by exact Hall. cbn [bind app].
  destruct (successes classify units); [contradiction |].
  now destruct (last_failure classify units None).
Qed.

(** When every unit fails with a [TranslationError], the one raised last is
    the one that leaves the function. *)
Lemma collect_systems_all_fail (classify : HVACUnit -> result sysd)
    (units : list HVACUnit) (u : HVACUnit) (msg : string) :
  Forall (fun v => exists m, classify v = Raise (TranslationError m)) (units ++ [u])%list ->
  classify u = Raise (TranslationError msg) ->
  collect_systems classify None (units ++ [u])%list = Raise (TranslationError msg).
Proof.
  intros Hall Hu. unfold collect_systems.
  rewrite classify_units_tolerant.
  - assert (Hs : successes classify (units ++ [u])%list = []).
    { unfold successes. clear Hu. induction (units ++ [u])%list as [| v r IH];
        [reflexivity |].
      inversion Hall as [| ? ? [m Hm] Hr]; subst. simpl. rewrite Hm. now apply IH. }
    rewrite Hs. cbn [bind app].
    unfold last_failure. rewrite fold_left_app. simpl. now rewrite Hu.
  - eapply Forall_impl; [| exact Hall].
    intros v [m Hm]. unfold tolerable. now rewrite Hm.
Qed.

Lemma dict_item_raise {V : Type} (d : dict V) (k : string) (e : exn) :
  dict_item d k = Raise e -> e = KeyError k.
Proof.
  unfold dict_item. destruct (dict_get d k); [discriminate |].
  intros H; now injection H.
Qed.

Lemma dict_item_opt_raise {V : Type} (d : dict V) (k : option string) (e : exn) :
  dict_item_opt d k = Raise e -> is_translation_error e = false.
Proof.
  destruct k as [s |]; simpl.
  - intros H. apply dict_item_raise in H. now subst.
  - intros H. injection H as <-. reflexivity.
Qed.

(** No failure of [get_cooling_system_type] is a [TranslationError]. *)
Lemma cooling_failure_never_translation_error (u : HVACUnit) (e : exn) :
  get_cooling_system_type u = Raise e -> is_translation_error e = false.
Proof.
  unfold get_cooling_system_type.
  destruct (endswith (tag u) "HeatPump").
  - destruct (heat_pump_type u) as [t |]; cbn [bind].
    + destruct (dict_item heat_pump_type_map t) as [ty |] eqn:E; cbn [bind].
      * destruct (dict_item _ ty) as [units |] eqn:E2; cbn [bind].
        -- destruct (match units with Some _ => _ | None => _ end).
           ++ unfold first_year. destruct (years u); cbn [bind]; [| discriminate].
              intros H; injection H as <-; reflexivity.
           ++ discriminate.
        -- intros H; injection H as <-. apply dict_item_raise in E2. now subst.
      * intros H; injection H as <-. apply dict_item_raise in E. now subst.
    + cbn. destruct (eff_els (cooling_efficiencies u) "SEER").
      * unfold first_year. destruct (years u); cbn [bind]; [| discriminate].
        intros H; injection H as <-; reflexivity.
      * discriminate.
  - destruct (endswith (tag u) "CoolingSystem"); cbn [bind].
    + destruct (dict_item_opt _ (hpxml_cooling_type u)) as [ty |] eqn:E; cbn [bind].
      * destruct (dict_item _ ty) as [units |] eqn:E2; cbn [bind].
        -- destruct (match units with Some _ => _ | None => _ end).
           ++ unfold first_year. destruct (years u); cbn [bind]; [| discriminate].
              intros H; injection H as <-; reflexivity.
           ++ discriminate.
        -- intros H; injection H as <-. apply dict_item_raise in E2. now subst.
      * intros H; injection H as <-. now apply dict_item_opt_raise in E.
    + intros H; injection H as <-; reflexivity.
Qed.

(** C4, at the input where the code departs from it: a central air
    conditioner that classifies, followed by an evaporative cooler, for
    which the type table has no entry.  The failure is a [KeyError], which
    the loop does not catch, so it leaves [_get_systems_cooling] although
    one unit classified; and since no failure of the cooling classifier is
    a [TranslationError], the loop never skips a cooling unit. *)
Theorem cooling_unit_failure_not_tolerated :
  let central :=
    mkHVACUnit "CoolingSystem" None None "" [] (Some "central air conditioning")
      [("SEER", inject_Z 13)] [2005] None (Some (inject_Z 36000)) in
  let evaporative :=
    mkHVACUnit "CoolingSystem" None None "" [] (Some "evaporative cooler")
      [] [2005] None (Some (inject_Z 12000)) in
  get_cooling_system_type central
  = Ok (mkSysd "split_dx" None (Some "user") None (Some (inject_Z 13))
          (Some (inject_Z 36000))) /\
  get_cooling_system_type evaporative = Raise (KeyError "evaporative cooler") /\
  _get_systems_cooling None [central; evaporative]
  = Raise (KeyError "evaporative cooler") /\
  (forall u e, get_cooling_system_type u = Raise e -> is_translation_error e = false).
Proof.
  cbv zeta. repeat split; try (vm_compute; reflexivity).
  exact cooling_failure_never_translation_error.
Qed.

(** ** Heating: two units of one group *)

(** C7 (amended): two heating units of the same type and fuel, both with
    the user efficiency method, of capacities 50000 and 30000 and
    efficiencies 0.95 and 0.90, form one group of total capacity 80000; the
    heating system returned has efficiency 0.93, or 0.9 when the type is
    heat_pump or gchp, and has neither a capacity nor a totalcapacity key. *)
Theorem two_unit_heating_average (u1 u2 : HVACUnit) (ty fuel : string) :
  let s1 := mkSysd ty (Some fuel) (Some "user") None (Some (d2 95))
              (Some (inject_Z 50000)) in
  let s2 := mkSysd ty (Some fuel) (Some "user") None (Some (d2 90))
              (Some (inject_Z 30000)) in
  get_heating_system_type u1 = Ok s1 ->
  get_heating_system_type u2 = Ok s2 ->
  (exists c,
     group_loop group_htgsys [] [(s1, inject_Z 50000); (s2, inject_Z 30000)]
     = Ok [(htgsys_key s1, c)] /\
     totalcapacity c = inject_Z 80000) /\
  exists out,
    _get_systems_heating None [u1; u2] = Ok out /\
    dict_get out "type" = Some (PStr ty) /\
    dict_get out "fuel_primary" = Some (PStr fuel) /\
    dict_get out "efficiency_method" = Some (PStr "user") /\
    dict_get out "efficiency"
    = Some (PFloat (if str_in ty ["heat_pump"; "gchp"] then d1 9 else d2 93)) /\
    dict_get out "capacity" = None /\
    dict_get out "totalcapacity" = None.
Proof.
  intros s1 s2 H1 H2. subst s1 s2. split.
  - cbn. rewrite !String.eqb_refl. cbn. eexists. split; reflexivity.
  - unfold _get_systems_heating, collect_systems.
    cbn [classify_units bind]. rewrite H1. cbn [classify_units bind app]. rewrite H2.
    cbn. rewrite !String.eqb_refl. cbn.
    eexists. split; [reflexivity |]. cbn.
    destruct ((ty =s? "heat_pump") || ((ty =s? "gchp") || false))%bool;
      repeat split.
Qed.

Lemma two_unit_heating_average_witness :
  exists out,
    _get_systems_heating None
      [mkHVACUnit "HeatingSystem" None (Some "natural gas") "Furnace"
         [("AFUE", d2 95)] None [] [] (Some (inject_Z 50000)) None;
       mkHVACUnit "HeatingSystem" None (Some "natural gas") "Furnace"
         [("AFUE", d2 90)] None [] [] (Some (inject_Z 30000)) None] = Ok out /\
    dict_get out "type" = Some (PStr "central_furnace") /\
    dict_get out "fuel_primary" = Some (PStr "natural_gas") /\
    dict_get out "efficiency_method" = Some (PStr "user") /\
    dict_get out "efficiency"
    = Some (PFloat (if str_in "central_furnace" ["heat_pump"; "gchp"]
                    then d1 9 else d2 93)) /\
    dict_get out "capacity" = None /\
    dict_get out "totalcapacity" = None.
Proof.
  apply (two_unit_heating_average
           (mkHVACUnit "HeatingSystem" None (Some "natural gas") "Furnace"
              [("AFUE", d2 95)] None [] [] (Some (inject_Z 50000)) None)
           (mkHVACUnit "HeatingSystem" None (Some "natural gas") "Furnace"
              [("AFUE", d2 90)] None [] [] (Some (inject_Z 30000)) None)
           "central_furnace" "natural_gas"); reflexivity.
Defined.

(** C7 as stated fails: for two air-source heat pumps with these capacities
    and efficiencies the efficiency reported is 0.9, not 0.93, and the
    record returned has no capacity. *)
Lemma heat_pump_pair_reports_0_9_and_no_capacity :
  let hp capacity hspf :=
    mkHVACUnit "HeatPump" (Some "air-to-air") None "" [("HSPF", hspf)] None [] []
      (Some capacity) None in
  _get_systems_heating None [hp (inject_Z 50000) (d2 95); hp (inject_Z 30000) (d2 90)]
  = Ok [("type", PStr "heat_pump"); ("fuel_primary", PStr "electric");
        ("efficiency_method", PStr "user"); ("efficiency", PFloat (d1 9))] /\
  ~ (d1 9 == d2 93)%Q /\
  dict_get [("type", PStr "heat_pump"); ("fuel_primary", PStr "electric");
            ("efficiency_method", PStr "user"); ("efficiency", PFloat (d1 9))]
           "capacity" = None.
Proof.
  cbv zeta. split; [vm_compute; reflexivity |]. split; [| reflexivity].
  intros H. vm_compute in H. discriminate.
Qed.

(** ** Bounds validation *)

Lemma bind_congr {A B : Type} (c : result A) (f g : A -> result B) :
  (forall x, f x = g x) -> bind c f = bind c g.
Proof. intros H. destruct c; simpl; [apply H | reflexivity]. Qed.

Lemma run_plan_app (p1 p2 : list (result check)) :
  run_plan (p1 ++ p2)%list = (_ <- run_plan p1 ;; run_plan p2).
Proof.
  induction p1 as [| [c | e] r IH]; simpl; [reflexivity | | reflexivity].
  destruct (run_check c); simpl; [exact IH | reflexivity].
Qed.

Lemma for_each_plan {A : Type} (body : A -> result unit) (plan : A -> list (result check))
    (l : list A) :
  (forall x, body x = run_plan (plan x)) ->
  for_each body l = run_plan (flat_map plan l).
Proof.
  intros H. induction l as [| x r IH]; simpl; [reflexivity |].
  now rewrite run_plan_app, H, IH.
Qed.

Lemma validate_skylight_plan (z : zone_skylight) :
  validate_skylight z = run_plan (skylight_plan z).
Proof.
  unfold validate_skylight, skylight_plan. cbn [run_plan]. unfold run_check at 1.
  cbn [ck_name ck_value ck_min ck_max].
  apply bind_congr. intros [].
  destruct (Qltb 0 (skylight_area z)); [| reflexivity].
  destruct (skylight_method z) as [m |]; [| reflexivity]. cbn [key_opt bind].
  destruct (m =s? "custom"); [| reflexivity].
  destruct (skylight_u_value z) as [u |]; [| reflexivity]. cbn [key_opt keyed_check bind run_plan].
  unfold run_check at 1. cbn [ck_name ck_value ck_min ck_max].
  apply bind_congr. intros [].
  destruct (skylight_shgc z) as [g |]; [| reflexivity]. cbn [key_opt keyed_check bind run_plan].
  unfold run_check. cbn [ck_name ck_value ck_min ck_max].
  now destruct (do_bounds_check _ _ _ _) as [[] |].
Qed.

Lemma validate_window_plan (z : zone_window) :
  validate_window z = run_plan (window_plan z).
Proof.
  unfold validate_window, window_plan. cbn [run_plan]. unfold run_check at 1.
  cbn [ck_name ck_value ck_min ck_max].
  apply bind_congr. intros [].
  destruct (Qltb 0 (window_area z)); [| reflexivity].
  destruct (window_method z) as [m |]; [| reflexivity]. cbn [key_opt bind].
  destruct (m =s? "custom"); [| reflexivity].
  destruct (window_u_value z) as [u |]; [| reflexivity]. cbn [key_opt keyed_check bind run_plan].
  unfold run_check at 1. cbn [ck_name ck_value ck_min ck_max].
  apply bind_congr. intros [].
  destruct (window_shgc z) as [g |]; [| reflexivity]. cbn [key_opt keyed_check bind run_plan].
  unfold run_check. cbn [ck_name ck_value ck_min ck_max].
  now destruct (do_bounds_check _ _ _ _) as [[] |].
Qed.

Lemma run_single (c : check) : run_plan [Ok c] = run_check c.
Proof. simpl. now destruct (run_check c) as [[] |]. Qed.

Lemma validate_system_plan (sys : dict pyval) (ef yf : string) (emin emax : pyval)
    (ymin ty : Z) :
  validate_system sys ef yf emin emax ymin ty
  = run_plan (system_plan sys ef yf emin emax ymin ty).
Proof.
  unfold validate_system, system_plan, dict_item, item_check.
  destruct (dict_get sys "efficiency_method") as [m |]; [| reflexivity]. cbn [bind].
  destruct (is_str m "user").
  - destruct (dict_get sys "efficiency"); [| reflexivity].
    cbn [bind]. now rewrite run_single.
  - destruct (is_str m "shipment_weighted"); [| reflexivity].
    destruct (dict_get sys "year"); [| reflexivity].
    cbn [bind]. now rewrite run_single.
Qed.

Lemma validate_dhw_plan (dhw : dict pyval) (ty : Z) :
  validate_dhw dhw ty = run_plan (dhw_plan dhw ty).
Proof.
  unfold validate_dhw, dhw_plan, dict_item, item_check.
  destruct (dict_get dhw "type") as [t |]; [| reflexivity]. cbn [bind].
  destruct (is_str t "storage" || is_str t "heat_pump")%bool; [| reflexivity].
  destruct (dict_get dhw "efficiency_method") as [m |]; [| reflexivity]. cbn [bind].
  destruct (is_str m "user").
  - destruct (dict_get dhw "energy_factor"); [| reflexivity].
    cbn [bind]. now rewrite run_single.
  - destruct (is_str m "shipment_weighted"); [| reflexivity].
    destruct (dict_get dhw "year"); [| reflexivity].
    cbn [bind]. now rewrite run_single.
Qed.

(** The validator runs the steps of its plan in order. *)
Lemma validate_runs_plan (today : Z * Z * Z) (inputs : hescore_inputs) :
  _validate_hescore_inputs today inputs = run_plan (validation_plan today inputs).
Proof.
  unfold _validate_hescore_inputs, validation_plan, about_checks.
  cbn [map app run_plan]. unfold run_check.
  cbn [ck_name ck_value ck_min ck_max].
  do 6 (apply bind_congr; intros []).
  rewrite run_plan_app.
  replace (run_plan (if blower_door_test (hi_about inputs)
                     then [keyed_check "envelope_leakage" (envelope_leakage (hi_about inputs))
                             (fun l => mkCheck "envelope_leakage" l (PInt 0) (PInt 25000))]
                     else []))
    with (if blower_door_test (hi_about inputs)
          then leakage <- key_opt "envelope_leakage" (envelope_leakage (hi_about inputs)) ;;
               do_bounds_check "envelope_leakage" leakage (PInt 0) (PInt 25000)
          else Ok tt).
  2:{ destruct (blower_door_test (hi_about inputs)); [| reflexivity].
      destruct (envelope_leakage (hi_about inputs)); [| reflexivity].
      cbn [key_opt keyed_check bind]. now rewrite run_single. }
  apply bind_congr; intros [].
  rewrite run_plan_app, <- (for_each_plan _ _ _ validate_skylight_plan).
  apply bind_congr; intros [].
  cbn [run_plan]. unfold run_check. cbn [ck_name ck_value ck_min ck_max].
  apply bind_congr; intros [].
  rewrite run_plan_app, <- (for_each_plan _ _ _ validate_window_plan).
  apply bind_congr; intros [].
  rewrite run_plan_app, <- validate_system_plan.
  apply bind_congr; intros [].
  rewrite run_plan_app, <- validate_system_plan.
  apply bind_congr; intros [].
  destruct (hi_hvac_distribution inputs) as [ducts |]; [| reflexivity].
  cbn [key_opt bind].
  rewrite run_plan_app, <- validate_dhw_plan.
  f_equal.
  induction ducts as [| h r IH]; simpl; [reflexivity |].
  unfold run_check. cbn [ck_name ck_value ck_min ck_max]. now rewrite IH.
Qed.

Lemma run_plan_first_violation (pre : list check) (c : check) (post : list (result check)) :
  Forall (fun p => run_check p = Ok tt) pre -> violated c ->
  run_plan (map Ok pre ++ Ok c :: post)%list
  = Raise (InputOutOfBounds (ck_name c) (ck_value c)).
Proof.
  intros Hpre Hc. induction Hpre as [| p r Hp _ IH]; simpl.
  - unfold violated in Hc. now rewrite Hc.
  - now rewrite Hp.
Qed.

Lemma int_check_passes (f : string) (v lo hi : Z) :
  lo <= v <= hi -> do_bounds_check f (PInt v) (PInt lo) (PInt hi) = Ok tt.
Proof.
  intros [H1 H2]. unfold do_bounds_check. cbn [py_lt bind].
  destruct (Z.ltb_spec v lo); [lia |]. cbn [bind].
  destruct (Z.ltb_spec hi v); [lia | reflexivity].
Qed.

Lemma int_check_below (f : string) (v lo hi : Z) :
  v < lo -> do_bounds_check f (PInt v) (PInt lo) (PInt hi) = Raise (InputOutOfBounds f (PInt v)).
Proof.
  intros H. unfold do_bounds_check. cbn [py_lt bind].
  destruct (Z.ltb_spec v lo); [reflexivity | lia].
Qed.

(** C5: the validator reports the first violated check of its plan, with
    the field name and the value of that check, and nothing later; so a
    record whose assessment date, year built, bedrooms, floors and ceiling
    height are in range and whose conditioned floor area is 100 is refused
    with the out-of-bounds error for conditioned_floor_area and 100. *)
Theorem validation_reports_first_violation (today : Z * Z * Z) (inputs : hescore_inputs) :
  (forall (pre : list check) (c : check) (post : list (result check)),
      validation_plan today inputs = (map Ok pre ++ Ok c :: post)%list ->
      Forall (fun p => run_check p = Ok tt) pre ->
      violated c ->
      _validate_hescore_inputs today inputs
      = Raise (InputOutOfBounds (ck_name c) (ck_value c))) /\
  (let a := hi_about inputs in
   date_ltb (assessment_date a) (2010, 1, 1) = false ->
   date_ltb today (assessment_date a) = false ->
   1600 <= year_built a <= fst (fst today) ->
   1 <= number_bedrooms a <= 10 ->
   1 <= num_floor_above_grade a <= 4 ->
   6 <= floor_to_ceiling_height a <= 12 ->
   conditioned_floor_area a = 100 ->
   _validate_hescore_inputs today inputs
   = Raise (InputOutOfBounds "conditioned_floor_area" (PInt 100))).
Proof.
  assert (Hgen : forall pre c post,
             validation_plan today inputs = (map Ok pre ++ Ok c :: post)%list ->
             Forall (fun p => run_check p = Ok tt) pre ->
             violated c ->
             _validate_hescore_inputs today inputs
             = Raise (InputOutOfBounds (ck_name c) (ck_value c))).
  { intros pre c post Hplan Hpre Hc.
    rewrite validate_runs_plan, Hplan. now apply run_plan_first_violation. }
  split; [exact Hgen |].
  intros a Hd1 Hd2 Hy Hb Hf Hh Hcfa.
  specialize (Hgen (firstn 5 (about_checks today a))
                (mkCheck "conditioned_floor_area" (PInt 100) (PInt 250) (PInt 25000))).
  cbn [ck_name ck_value] in Hgen. eapply Hgen.
  - unfold validation_plan. fold a. unfold about_checks. rewrite Hcfa.
    cbn [map firstn app]. reflexivity.
  - unfold about_checks. cbn [firstn].
    repeat constructor; unfold run_check; cbn [ck_name ck_value ck_min ck_max];
      try (apply int_check_passes; assumption).
    unfold do_bounds_check, pdate.
    destruct (assessment_date a) as [[y m] d]. destruct today as [[ty tm] td].
    cbn [py_lt bind]. rewrite Hd1. cbn [bind]. now rewrite Hd2.
  - unfold violated, run_check. cbn [ck_name ck_value ck_min ck_max].
    apply int_check_below. lia.
Qed.

Lemma validation_reports_first_violation_witness :
  _validate_hescore_inputs (2026, 11, 3)
    (mkInputs
       (mkAbout (2014, 3, 4) "rectangle" None 1995 3 2 8 100 "north" false None (Some false))
       [] 0 [] [] [] None [])
  = Raise (InputOutOfBounds "conditioned_floor_area" (PInt 100)).
Proof.
  apply (proj2 (validation_reports_first_violation (2026, 11, 3)
                  (mkInputs
                     (mkAbout (2014, 3, 4) "rectangle" None 1995 3 2 8 100 "north"
                        false None (Some false))
                     [] 0 [] [] [] None []))); simpl; try reflexivity; lia.
Defined.

(** ** Bedrooms *)

Lemma run_check_raise (c : check) (f : string) (v : pyval) :
  run_check c = Raise (InputOutOfBounds f v) -> f = ck_name c /\ v = ck_value c.
Proof.
  unfold run_check, do_bounds_check.
  destruct (py_lt (ck_value c) (ck_min c)) as [[] |] eqn:E1; cbn [bind].
  - intros H; injection H as <- <-; auto.
  - destruct (py_lt (ck_max c) (ck_value c)) as [[] |] eqn:E2; cbn [bind].
    + intros H; injection H as <- <-; auto.
    + discriminate.
    + intros H; injection H as ->.
      destruct (ck_max c), (ck_value c); discriminate.
  - intros H; injection H as ->.
    destruct (ck_value c), (ck_min c); discriminate.
Qed.

(** An out-of-bounds error comes from a check of the plan, or stands in
    the plan itself. *)
Lemma run_plan_raise (plan : list (result check)) (f : string) (v : pyval) :
  run_plan plan = Raise (InputOutOfBounds f v) ->
  (exists c, In (Ok c) plan /\ run_check c = Raise (InputOutOfBounds f v)) \/
  In (Raise (InputOutOfBounds f v)) plan.
Proof.
  induction plan as [| [c | e] r IH]; simpl; [discriminate | |].
  - destruct (run_check c) as [[] | e] eqn:E; cbn [bind].
    + intros H. destruct (IH H) as [[c' [Hin Hc']] | Hin]; [left | right]; eauto.
    + intros H; injection H as ->. left; eauto.
  - intros H; injection H as ->. right; now left.
Qed.

Ltac plan_item :=
  match goal with
  | H : In _ [] |- _ => destruct H
  | H : In _ (_ :: _) |- _ => destruct H as [<- | H]
  | |- plan_item_ok _ (Ok _) => unfold plan_item_ok; cbn [ck_name]; intros Hn; try discriminate Hn
  | |- plan_item_ok _ (Raise _) => unfold plan_item_ok; intros ? ?; discriminate
  | |- plan_item_ok _ (keyed_check _ ?x _) => destruct x; cbn [keyed_check]
  | |- plan_item_ok _ (item_check ?s ?k _) => unfold item_check; destruct (dict_get s k)
  end.

Lemma system_plan_items (inputs : hescore_inputs) (sys : dict pyval) (ef yf : string)
    (emin emax : pyval) (ymin ty : Z) (x : result check) :
  ef <> "number_bedrooms" -> yf <> "number_bedrooms" ->
  In x (system_plan sys ef yf emin emax ymin ty) -> plan_item_ok inputs x.
Proof.
  intros Hef Hyf. unfold system_plan.
  destruct (dict_get sys "efficiency_method") as [m |]; [| intros H; repeat plan_item].
  destruct (is_str m "user").
  - intros H. repeat plan_item. contradiction.
  - destruct (is_str m "shipment_weighted"); intros H; repeat plan_item. contradiction.
Qed.

Lemma validation_plan_items (today : Z * Z * Z) (inputs : hescore_inputs) :
  Forall (plan_item_ok inputs) (validation_plan today inputs).
Proof.
  apply Forall_forall. intros x. unfold validation_plan.
  rewrite !in_app_iff.
  intros [H | [H | [H | [H | [H | [H | [H | H]]]]]]].
  - unfold about_checks in H. cbn [map] in H. repeat plan_item. reflexivity.
  - destruct (blower_door_test (hi_about inputs)); repeat plan_item.
  - apply in_flat_map in H as [z [_ H]]. unfold skylight_plan in H.
    destruct H as [<- | H]; [repeat plan_item |].
    destruct (Qltb 0 (skylight_area z)); [| destruct H].
    destruct (skylight_method z) as [m |]; [| repeat plan_item].
    destruct (m =s? "custom"); repeat plan_item.
  - repeat plan_item.
  - apply in_flat_map in H as [z [_ H]]. unfold window_plan in H.
    destruct H as [<- | H]; [repeat plan_item |].
    destruct (Qltb 0 (window_area z)); [| destruct H].
    destruct (window_method z) as [m |]; [| repeat plan_item].
    destruct (m =s? "custom"); repeat plan_item.
  - eapply system_plan_items; [| | exact H]; discriminate.
  - eapply system_plan_items; [| | exact H]; discriminate.
  - destruct (hi_hvac_distribution inputs) as [ds |]; [| repeat plan_item].
    apply in_app_or in H as [H | H].
    + apply in_map_iff in H as [h [<- _]]. repeat plan_item.
    + unfold dhw_plan in H.
      destruct (dict_get (hi_domestic_hot_water inputs) "type") as [t |];
        [| repeat plan_item].
      destruct (is_str t "storage" || is_str t "heat_pump")%bool; [| destruct H].
      destruct (dict_get (hi_domestic_hot_water inputs) "efficiency_method") as [m |];
        [| repeat plan_item].
      destruct (is_str m "user"); [repeat plan_item |].
      destruct (is_str m "shipment_weighted"); repeat plan_item.
Qed.

Ltac bind_inv H :=
  match type of H with
  | bind ?c _ = Ok _ =>
      let E := fresh "E" in
      destruct c eqn:E; cbn [bind] in H; [| discriminate H]
  end.

(** C9: on a successful [_get_building_about] the bedrooms of the record
    are those of the document capped at 10, and for a document with at
    least one bedroom the validator never reports number_bedrooms out of
    bounds, however many bedrooms the document has. *)
Theorem bedrooms_capped_at_10
  (today : Z * Z * Z) (b : Building) (a : about) (sidemap : zdict string) :
  _get_building_about today b = Ok (a, sidemap) ->
  exists n,
    number_of_bedrooms b = Some n /\
    number_bedrooms a = Z.min n 10 /\
    (1 <= n ->
     forall (now : Z * Z * Z) (inputs : hescore_inputs) (v : pyval),
       hi_about inputs = a ->
       _validate_hescore_inputs now inputs <> Raise (InputOutOfBounds "number_bedrooms" v)).
Proof.
  intros H. unfold _get_building_about in H.
  bind_inv H. bind_inv H. bind_inv H. bind_inv H.
  destruct (number_of_bedrooms b) as [n |] eqn:En; [| discriminate].
  injection E2 as <-.
  bind_inv H. bind_inv H. bind_inv H. bind_inv H. bind_inv H.
  destruct (infiltration_loop _ _ _) as [bd est].
  bind_inv H.
  match type of H with
  | context [match ?x with pair _ _ => _ end] => destruct x as [[test leakage] sealing]
  end.
  injection H as <- _.
  exists n. split; [reflexivity |]. cbn [number_bedrooms].
  assert (Hmin : (if 10 <? n then 10 else n) = Z.min n 10).
  { destruct (Z.ltb_spec 10 n); lia. }
  split; [exact Hmin |].
  intros Hn now inputs v Ha Hraise.
  rewrite validate_runs_plan in Hraise.
  pose proof (validation_plan_items now inputs) as Hitems.
  rewrite Forall_forall in Hitems.
  apply run_plan_raise in Hraise as [[c [Hin Hc]] | Hin].
  - destruct (run_check_raise _ _ _ Hc) as [Hname _].
    pose proof (Hitems _ Hin (eq_sym Hname)) as ->.
    rewrite Ha in Hc. cbn [number_bedrooms] in Hc.
    unfold run_check in Hc. cbn [ck_name ck_value ck_min ck_max] in Hc.
    rewrite int_check_passes in Hc by lia. discriminate.
  - exact (Hitems _ Hin _ _ eq_refl).
Qed.

Lemma bedrooms_capped_at_10_witness :
  exists n,
    Some 14 = Some n /\
    10 = Z.min n 10 /\
    (1 <= n ->
     forall (now : Z * Z * Z) (inputs : hescore_inputs) (v : pyval),
       hi_about inputs
       = mkAbout (2014, 3, 4) "rectangle" None 1990 10 2 8 2000 "south" false None
           (Some true) ->
       _validate_hescore_inputs now inputs <> Raise (InputOutOfBounds "number_bedrooms" v)).
Proof.
  apply (bedrooms_capped_at_10 (2026, 11, 3)
           (mkBuilding (Some (2014, 3, 4)) (Some "single-family detached") None
              (Some 1990) (Some 14) (Some (3 # 2)%Q) (Some (inject_Z 8)) None
              (Some (inject_Z 2000)) (Some (inject_Z 170)) None [] true)
           (mkAbout (2014, 3, 4) "rectangle" None 1990 10 2 8 2000 "south" false None
              (Some true))
           (make_sidemap 180)).
  vm_compute. reflexivity.
Defined.

(** ** Windows on shared walls *)

Lemma make_sidemap_values (az : Z) :
  0 <= az < 360 -> map snd (make_sidemap az) = ["front"; "right"; "back"; "left"].
Proof.
  intros Haz. unfold make_sidemap.
  assert (H90 : (az + 90) mod 360 <> az) by (Z.to_euclidean_division_equations; lia).
  assert (H180 : (az + 180) mod 360 <> az) by (Z.to_euclidean_division_equations; lia).
  assert (H270 : (az + 270) mod 360 <> az) by (Z.to_euclidean_division_equations; lia).
  assert (H1 : (az + 180) mod 360 <> (az + 90) mod 360)
    by (Z.to_euclidean_division_equations; lia).
  assert (H2 : (az + 270) mod 360 <> (az + 90) mod 360)
    by (Z.to_euclidean_division_equations; lia).
  assert (H3 : (az + 270) mod 360 <> (az + 180) mod 360)
    by (Z.to_euclidean_division_equations; lia).
  simpl.
  repeat match goal with
         | |- context [?x =? ?y] => destruct (Z.eqb_spec x y); [contradiction |]; simpl
         end.
  reflexivity.
Qed.

(** C10: for a town house attached on one side (walls back_right_front),
    windows on the left make the translator switch the walls to
    back_front_left and look again, and the error is raised exactly when
    there are windows on the right as well; for any other initial value
    the error is raised as soon as a window is on a shared side. *)
Theorem town_house_shared_wall_windows
  (sidemap : zdict string) (hpxmlwindows : dict (list windowd)) (bldg_about : about)
  (on_left on_right : list windowd) :
  shape bldg_about = "town_house" ->
  map snd sidemap = ["front"; "right"; "back"; "left"] ->
  dict_get hpxmlwindows "left" = Some on_left ->
  dict_get hpxmlwindows "right" = Some on_right ->
  (town_house_walls bldg_about = Some "back_right_front" ->
   check_shared_walls sidemap hpxmlwindows bldg_about =
   match on_left, on_right with
   | [], _ => Ok bldg_about
   | _ :: _, [] => Ok (set_town_house_walls bldg_about "back_front_left")
   | _ :: _, _ :: _ => Raise (TranslationError "The house has windows on shared walls.")
   end) /\
  (forall walls fail,
     town_house_walls bldg_about = Some walls ->
     walls <> "back_right_front" ->
     windows_are_on_shared_walls sidemap hpxmlwindows bldg_about = Ok fail ->
     check_shared_walls sidemap hpxmlwindows bldg_about =
     if fail then Raise (TranslationError "The house has windows on shared walls.")
     else Ok bldg_about).
Proof.
  intros Hshape Hsides Hleft Hright. split.
  - intros Hwalls. unfold check_shared_walls, windows_are_on_shared_walls.
    rewrite Hshape, Hwalls, Hsides. cbn.
    unfold dict_item. rewrite Hleft. cbn [bind].
    destruct on_left as [| w1 l1]; [reflexivity |].
    cbn. unfold dict_item. rewrite Hright. cbn [bind].
    destruct on_right as [| w2 l2]; reflexivity.
  - intros walls fail Hwalls Hne Hfail. unfold check_shared_walls.
    rewrite Hshape, Hfail. cbn [String.eqb Ascii.eqb Bool.eqb bind].
    destruct fail; [| reflexivity].
    rewrite Hwalls. cbn [opt_str_eqb].
    destruct (String.eqb_spec walls "back_right_front"); [contradiction | reflexivity].
Qed.

Lemma town_house_shared_wall_windows_witness :
  check_shared_walls (make_sidemap 180)
    [("front", []); ("right", []); ("back", []);
     ("left", [mkWindowd (inject_Z 12) None None (Some "dcaw")])]
    (mkAbout (2014, 3, 4) "town_house" (Some "back_right_front") 1990 3 2 8 2000
       "south" false None (Some true))
  = Ok (set_town_house_walls
          (mkAbout (2014, 3, 4) "town_house" (Some "back_right_front") 1990 3 2 8 2000
             "south" false None (Some true))
          "back_front_left").
Proof.
  apply (proj1 (town_house_shared_wall_windows (make_sidemap 180)
                  [("front", []); ("right", []); ("back", []);
                   ("left", [mkWindowd (inject_Z 12) None None (Some "dcaw")])]
                  (mkAbout (2014, 3, 4) "town_house" (Some "back_right_front") 1990 3 2 8
                     2000 "south" false None (Some true))
                  [mkWindowd (inject_Z 12) None None (Some "dcaw")] []
                  eq_refl eq_refl eq_refl eq_refl)).
  reflexivity.
Defined.

(* ===================================================================== *)
(** * Further properties of the translator                                *)
(* ===================================================================== *)

(** ** [round_to_nearest] *)

Lemma Qltb_false_le (a b : Q) : Qltb a b = false -> (b <= a)%Q.
Proof.
  intros H. apply Qnot_lt_le. intros Hlt. apply Qltb_lt in Hlt. congruence.
Qed.

Lemma py_min_from_least {A : Type} (key : A -> Q) (l : list A) :
  forall best,
    let r := py_min_from key best l in
    (r = best \/ In r l) /\ (key r <= key best)%Q /\
    (forall y, In y l -> (key r <= key y)%Q).
Proof.
  induction l as [| x rest IH]; intros best; simpl.
  - split; [now left |]. split; [apply Qle_refl | intros y []].
  - destruct (Qltb (key x) (key best)) eqn:E.
    + destruct (IH x) as [Hin [Hle Hall]]. apply Qltb_lt in E.
      split; [destruct Hin as [-> | Hin]; auto |].
      split; [apply Qle_trans with (key x); [exact Hle | now apply Qlt_le_weak] |].
      intros y [<- | Hy]; [exact Hle | now apply Hall].
    + destruct (IH best) as [Hin [Hle Hall]]. apply Qltb_false_le in E.
      split; [destruct Hin as [-> | Hin]; auto |].
      split; [exact Hle |].
      intros y [<- | Hy]; [now apply Qle_trans with (key best) | now apply Hall].
Qed.

Lemma py_min_least {A : Type} (key : A -> Q) (l : list A) (r : A) :
  py_min key l = Ok r -> In r l /\ forall y, In y l -> (key r <= key y)%Q.
Proof.
  destruct l as [| x rest]; simpl; [discriminate |].
  intros H; injection H as <-.
  destruct (py_min_from_least key rest x) as [Hin [Hle Hall]].
  split; [destruct Hin as [-> | Hin]; auto |].
  intros y [<- | Hy]; [exact Hle | now apply Hall].
Qed.

(** X1: [round_to_nearest] fails only on an empty catalog, and otherwise
    returns a catalog value than which no other is nearer to [x]. *)
Theorem round_to_nearest_is_nearest (x : Q) (vals : list Z) :
  match round_to_nearest x vals with
  | Ok r =>
      In r vals /\
      forall y, In y vals -> (Qabs (x - inject_Z r) <= Qabs (x - inject_Z y))%Q
  | Raise e => vals = [] /\ e = ValueError
  end.
Proof.
  unfold round_to_nearest.
  destruct (py_min _ vals) as [r | e] eqn:E.
  - exact (py_min_least _ _ _ E).
  - destruct vals; [injection E as <-; auto | discriminate].
Qed.

(** ** [unspin_azimuth] *)

Lemma unspin_down_enough (n : nat) :
  forall az, az < 360 * (Z.of_nat n + 1) ->
             unspin_down n az = Some (if az <? 360 then az else az mod 360).
Proof.
  induction n as [| n IH]; intros az Haz; simpl unspin_down.
  - destruct (Z.leb_spec 360 az); [lia |].
    destruct (Z.ltb_spec az 360); [reflexivity | lia].
  - destruct (Z.leb_spec 360 az) as [Hge | Hlt].
    + rewrite IH by lia.
      destruct (Z.ltb_spec az 360); [lia |].
      replace (az mod 360) with ((az - 360) mod 360)
        by (rewrite <- (Z.mod_add (az - 360) 1 360) by lia; f_equal; lia).
      destruct (Z.ltb_spec (az - 360) 360); [| reflexivity].
      rewrite Z.mod_small by lia. reflexivity.
    + destruct (Z.ltb_spec az 360); [reflexivity | lia].
Qed.

Lemma unspin_up_enough (n : nat) :
  forall az, - (360 * (Z.of_nat n)) <= az ->
             unspin_up n az = Some (if az <? 0 then az mod 360 else az).
Proof.
  induction n as [| n IH]; intros az Haz; simpl unspin_up.
  - destruct (Z.ltb_spec az 0); [lia | reflexivity].
  - destruct (Z.ltb_spec az 0) as [Hneg | Hpos]; [| reflexivity].
    rewrite IH by lia.
    replace (az mod 360) with ((az + 360) mod 360)
      by (rewrite <- (Z.mod_add az 1 360) by lia; f_equal; lia).
    destruct (Z.ltb_spec (az + 360) 0); [reflexivity |].
    rewrite Z.mod_small by lia. reflexivity.
Qed.

(** X2: the two loops of [unspin_azimuth] end, within one turn per full
    circle of the argument, on the azimuth reduced modulo 360. *)
Theorem unspin_azimuth_mod_360 (azimuth : Z) :
  unspin_azimuth azimuth = azimuth mod 360 /\
  0 <= unspin_azimuth azimuth < 360.
Proof.
  assert (H : unspin_azimuth azimuth = azimuth mod 360).
  { unfold unspin_azimuth, unspin_azimuth_within.
    set (n := Z.to_nat (Z.abs azimuth / 360 + 1)).
    assert (Hn : Z.of_nat n = Z.abs azimuth / 360 + 1).
    { unfold n. rewrite Z2Nat.id; [reflexivity |].
      assert (0 <= Z.abs azimuth / 360) by (apply Z.div_pos; lia). lia. }
    assert (Hq : Z.abs azimuth < 360 * (Z.abs azimuth / 360 + 1)).
    { pose proof (Z.mod_pos_bound (Z.abs azimuth) 360 ltac:(lia)).
      pose proof (Z.div_mod (Z.abs azimuth) 360 ltac:(lia)). lia. }
    rewrite unspin_down_enough by lia.
    destruct (Z.ltb_spec azimuth 360) as [Hlt | Hge].
    - rewrite unspin_up_enough by lia.
      destruct (Z.ltb_spec azimuth 0); [reflexivity |].
      now rewrite Z.mod_small by lia.
    - pose proof (Z.mod_pos_bound azimuth 360 ltac:(lia)).
      rewrite unspin_up_enough by lia.
      destruct (Z.ltb_spec (azimuth mod 360) 0); [lia | reflexivity]. }
  split; [exact H |]. rewrite H. apply Z.mod_pos_bound. lia.
Qed.

(** ** [get_nearest_azimuth] on any azimuth *)

Lemma py_round_near (q : Q) : (Qabs (q - inject_Z (py_round q)) <= 1 # 2)%Q.
Proof.
  apply Qabs_Qle_condition.
  destruct q as [n d]. unfold py_round. cbn [Qnum Qden].
  unfold Qle, Qminus, Qplus, Qopp, inject_Z. cbn [Qnum Qden].
  assert (Hd : 0 < Z.pos d) by lia.
  destruct (Z.leb_spec 0 n) as [Hn | Hn].
  - pose proof (Z.div_mod (2 * n + Z.pos d) (2 * Z.pos d) ltac:(lia)) as Hdm.
    pose proof (Z.mod_pos_bound (2 * n + Z.pos d) (2 * Z.pos d) ltac:(lia)) as Hb.
    set (r := (2 * n + Z.pos d) / (2 * Z.pos d)) in *.
    set (m := (2 * n + Z.pos d) mod (2 * Z.pos d)) in *.
    rewrite !Pos2Z.inj_mul. split; nia.
  - pose proof (Z.div_mod (2 * - n + Z.pos d) (2 * Z.pos d) ltac:(lia)) as Hdm.
    pose proof (Z.mod_pos_bound (2 * - n + Z.pos d) (2 * Z.pos d) ltac:(lia)) as Hb.
    set (r := (2 * - n + Z.pos d) / (2 * Z.pos d)) in *.
    set (m := (2 * - n + Z.pos d) mod (2 * Z.pos d)) in *.
    rewrite !Pos2Z.inj_mul. split; nia.
Qed.

(** X3: whatever the azimuth read, [get_nearest_azimuth] returns one of
    the eight bins 0, 45, ..., 315, and the azimuth is within 22.5 degrees
    of that bin up to full circles; the orientation is not looked at. *)
Theorem nearest_azimuth_bin (azimuth : Q) (orientation : option string) :
  exists k m : Z,
    0 <= k < 8 /\
    get_nearest_azimuth (Some azimuth) orientation = Ok (45 * k) /\
    (Qabs (azimuth - inject_Z (45 * k + 360 * m)) <= 45 # 2)%Q.
Proof.
  set (r := py_round (azimuth / 45)%Q).
  exists (r mod 8), (r / 8).
  assert (Hk : 0 <= r mod 8 < 8) by (apply Z.mod_pos_bound; lia).
  split; [exact Hk |]. split.
  - unfold get_nearest_azimuth. fold r. f_equal. lia.
  - replace (45 * (r mod 8) + 360 * (r / 8)) with (45 * r)
      by (pose proof (Z.div_mod r 8 ltac:(lia)); lia).
    pose proof (py_round_near (azimuth / 45)%Q) as Hnear. fold r in Hnear.
    assert (E : (azimuth - inject_Z (45 * r) == 45 * (azimuth / 45 - inject_Z r))%Q).
    { rewrite inject_Z_mult. field. }
    rewrite E, Qabs_Qmult.
    change (Qabs 45) with (45 : Q).
    setoid_replace (45 # 2)%Q with (45 * (1 # 2))%Q by reflexivity.
    apply Qmult_le_l; [reflexivity | exact Hnear].
Qed.

(** ** Wall assembly codes: what can come out *)

Lemma round_to_nearest_in (x : Q) (vals : list Z) (r : Z) :
  round_to_nearest x vals = Ok r -> In r vals.
Proof.
  intros H. unfold round_to_nearest in H. exact (proj1 (py_min_least _ _ _ H)).
Qed.

Lemma sidingmap_values (s : option string) (st : string) :
  dict_item_opt sidingmap s = Ok (Some st) -> In st ["wo"; "st"; "vi"; "al"; "br"].
Proof.
  destruct s as [s |]; [| discriminate]. unfold dict_item_opt, dict_item.
  destruct (dict_get sidingmap s) as [v |] eqn:E; [| discriminate].
  intros H; injection H as ->. apply dict_get_In in E.
  simpl in E.
  repeat (destruct E as [E | E];
          [first [discriminate E | injection E as _ <-; simpl; tauto] |]).
  destruct E.
Qed.

Lemma triples_in (ct : string) (rvalues : list Z) (finishes : list string)
    (rv : Z) (fin : string) :
  In rv rvalues -> In fin finishes ->
  In (ct, rv, fin)
     (flat_map (fun rv : Z => map (fun fin : string => (ct, rv, fin)) finishes) rvalues).
Proof.
  intros Hrv Hfin. apply in_flat_map. exists rv. split; [exact Hrv |].
  apply in_map_iff. exists fin. auto.
Qed.

Lemma wall_classification_in (w : Wall) (code : string) :
  get_wall_assembly_code w = Ok code ->
  exists ct rv fin, code = wall_code ct rv fin /\ In (ct, rv, fin) classified_walls.
Proof.
  unfold get_wall_assembly_code, classified_walls. cbv zeta.
  destruct (wall_type w =s? "WoodStud").
  - destruct (woodstud_layers _ _ _) as [[has_rigid cavity] |]; [| discriminate].
    cbn [bind]. destruct (tobool (wall_eps w)) as [eps |]; [| discriminate]. cbn [bind].
    destruct (truthy eps || has_rigid)%bool.
    + destruct (round_to_nearest cavity _) as [rv |] eqn:Er; [| discriminate]. cbn [bind].
      destruct (dict_item_opt sidingmap (wall_siding w)) as [[st |] | e] eqn:Es;
        [| discriminate | destruct e; discriminate].
      intros H; injection H as <-. exists "ps", rv, st. split; [reflexivity |].
      rewrite !in_app_iff. right; left.
      apply triples_in; [exact (round_to_nearest_in _ _ _ Er) | exact (sidingmap_values _ _ Es)].
    + destruct (tobool (wall_ove w)) as [ove |]; [| discriminate]. cbn [bind].
      destruct (truthy ove).
      * destruct (round_to_nearest cavity _) as [rv |] eqn:Er; [| discriminate]. cbn [bind].
        destruct (dict_item_opt sidingmap (wall_siding w)) as [[st |] | e] eqn:Es;
          [| discriminate | destruct e; discriminate].
        intros H; injection H as <-. exists "ov", rv, st. split; [reflexivity |].
        rewrite !in_app_iff. right; right; left.
        apply triples_in;
          [exact (round_to_nearest_in _ _ _ Er) | exact (sidingmap_values _ _ Es)].
      * destruct (round_to_nearest cavity _) as [rv |] eqn:Er; [| discriminate]. cbn [bind].
        destruct (dict_item_opt sidingmap (wall_siding w)) as [[st |] | e] eqn:Es;
          [| discriminate | destruct e; discriminate].
        intros H; injection H as <-. exists "wf", rv, st. split; [reflexivity |].
        rewrite !in_app_iff. left.
        apply triples_in;
          [exact (round_to_nearest_in _ _ _ Er) | exact (sidingmap_values _ _ Es)].
  - destruct (wall_type w =s? "StructuralBrick").
    + destruct (sum_layers _ _) as [r |]; [| discriminate]. cbn [bind].
      destruct (round_to_nearest r _) as [rv |] eqn:Er; [| discriminate]. cbn [bind].
      intros H; injection H as <-. exists "br", rv, "nn". split; [reflexivity |].
      rewrite !in_app_iff. do 3 right; left.
      apply triples_in; [exact (round_to_nearest_in _ _ _ Er) | now left].
    + destruct (str_in (wall_type w) _).
      * destruct (sum_layers _ _) as [r |]; [| discriminate]. cbn [bind].
        destruct (round_to_nearest r _) as [rv |] eqn:Er; [| discriminate]. cbn [bind].
        assert (Hcb : forall fin, In fin ["st"; "br"; "nn"] ->
                   In ("cb", rv, fin)
                      ((flat_map (fun rv0 : Z => map (fun fin0 : string => ("wf", rv0, fin0))
                                                  ["wo"; "st"; "vi"; "al"; "br"])
                          [0; 3; 7; 11; 13; 15; 19; 21]
                        ++ flat_map (fun rv0 : Z => map (fun fin0 : string => ("ps", rv0, fin0))
                                                      ["wo"; "st"; "vi"; "al"; "br"])
                             [0; 3; 7; 11; 13; 15; 19; 21]
                        ++ flat_map (fun rv0 : Z => map (fun fin0 : string => ("ov", rv0, fin0))
                                                      ["wo"; "st"; "vi"; "al"; "br"])
                             [19; 21; 27; 33; 38]
                        ++ flat_map (fun rv0 : Z => map (fun fin0 : string => ("br", rv0, fin0))
                                                      ["nn"]) [0; 5; 10]
                        ++ flat_map (fun rv0 : Z => map (fun fin0 : string => ("cb", rv0, fin0))
                                                      ["st"; "br"; "nn"]) [0; 3; 6]
                        ++ flat_map (fun rv0 : Z => map (fun fin0 : string => ("sb", rv0, fin0))
                                                      ["st"]) [0])%list)).
        { intros fin Hfin. rewrite !in_app_iff. do 4 right; left.
          apply triples_in; [exact (round_to_nearest_in _ _ _ Er) | exact Hfin]. }
        destruct (wall_siding w) as [s |].
        -- destruct (dict_item sidingmap s) as [[st |] |]; cbn [bind]; try discriminate.
           destruct (str_in st ["st"; "br"]) eqn:Est; [| discriminate].
           intros H; injection H as <-. exists "cb", rv, st. split; [reflexivity |].
           apply Hcb. apply str_in_In in Est. simpl in *. tauto.
        -- intros H; injection H as <-. exists "cb", rv, "nn". split; [reflexivity |].
           apply Hcb. simpl; tauto.
      * destruct (wall_type w =s? "StrawBale"); [| discriminate].
        intros H; injection H as <-. exists "sb", 0, "st". split; [reflexivity |].
        rewrite !in_app_iff. do 5 right. simpl. tauto.
Qed.

Lemma classified_walls_read_back :
  forallb wall_code_reads_back classified_walls = true.
Proof. vm_compute. reflexivity. Qed.

(** X4: a code returned by [get_wall_assembly_code] is eight characters
    that read back, by the slices [_get_building_zone_wall] takes, as a
    known construction type, the nominal R-value and a known finish; and the
    effective R-value table has an entry for them exactly when they are not
    insulated sheathing (ps) with a nominal R-value below 11. *)
Theorem wall_code_reads_back_as_classified (w : Wall) (code : string) :
  get_wall_assembly_code w = Ok code ->
  exists ct rv fin,
    code = wall_code ct rv fin /\
    String.length code = 8%nat /\
    slice 2 4 code = ct /\
    int_of_str (slice 4 6 code) = Ok rv /\
    slice 6 8 code = fin /\
    In ct wall_const_types /\
    In fin wall_ext_finish_types /\
    ((exists eff, wall_eff_lookup ct fin rv = Ok eff) <-> ~ (ct = "ps" /\ rv < 11)).
Proof.
  intros H. apply wall_classification_in in H as [ct [rv [fin [-> Hin]]]].
  exists ct, rv, fin. split; [reflexivity |].
  pose proof classified_walls_read_back as Hall.
  rewrite forallb_forall in Hall. specialize (Hall _ Hin).
  unfold wall_code_reads_back in Hall.
  repeat (apply andb_true_iff in Hall as [Hall ?]).
  apply Nat.eqb_eq in Hall.
  repeat match goal with
         | H : (_ =s? _) = true |- _ => apply String.eqb_eq in H
         | H : str_in _ _ = true |- _ => apply str_in_In in H
         end.
  destruct (int_of_str (slice 4 6 (wall_code ct rv fin))) as [z |] eqn:Ez; [| discriminate].
  match goal with H : (z =? rv) = true |- _ => apply Z.eqb_eq in H; subst z end.
  repeat (split; [assumption || reflexivity |]).
  match goal with H : Bool.eqb _ _ = true |- _ => apply Bool.eqb_prop in H; rename H into Hl end.
  split.
  - intros [eff Heff] [-> Hlt]. rewrite Heff in Hl. simpl in Hl.
    destruct (Z.ltb_spec rv 11); [discriminate | lia].
  - intros Hn. destruct (wall_eff_lookup ct fin rv) as [eff |]; [eauto |].
    exfalso. apply Hn. symmetry in Hl. apply negb_false_iff in Hl.
    apply andb_true_iff in Hl as [Hps Hlow].
    apply String.eqb_eq in Hps. apply Z.ltb_lt in Hlow. auto.
Qed.

Lemma wall_code_reads_back_as_classified_witness :
  exists ct rv fin,
    "ewps13vi" = wall_code ct rv fin /\
    String.length "ewps13vi" = 8%nat /\
    slice 2 4 "ewps13vi" = ct /\
    int_of_str (slice 4 6 "ewps13vi") = Ok rv /\
    slice 6 8 "ewps13vi" = fin /\
    In ct wall_const_types /\
    In fin wall_ext_finish_types /\
    ((exists eff, wall_eff_lookup ct fin rv = Ok eff) <-> ~ (ct = "ps" /\ rv < 11)).
Proof.
  apply (wall_code_reads_back_as_classified
           (mkWall "wall1" "WoodStud"
              [mkLayer (Some "cavity") false (Some (inject_Z 13));
               mkLayer (Some "continuous") true (Some (inject_Z 5))]
              None None (Some "vinyl siding") (Some (inject_Z 100)))).
  vm_compute. reflexivity.
Defined.

(** ** A side with insulated sheathing over a thin cavity *)

Lemma wall_loop_steps (l : list (walld * Q)) :
  forall acc acc',
    wall_loop acc l = Ok acc' ->
    forall wa, In wa l -> exists a0 a1, wall_step a0 wa = Ok a1.
Proof.
  induction l as [| x r IH]; intros acc acc' H wa Hin; [destruct Hin |].
  simpl in H. destruct (wall_step acc x) as [acc1 |] eqn:E; [| discriminate].
  cbn [bind] in H. destruct Hin as [<- | Hin]; [eauto | eapply IH; eauto].
Qed.

Lemma side_wall_areas_walls (side : string) (walls : list walld) (wa : list (walld * Q)) :
  side_wall_areas side walls = Ok wa -> map fst wa = walls.
Proof.
  unfold side_wall_areas.
  destruct walls as [| w [| w2 r]].
  - simpl. intros H; injection H as <-. reflexivity.
  - intros H; injection H as <-. reflexivity.
  - destruct (existsb _ _); [discriminate |].
    intros H; injection H as <-. cbn [map fst]. do 2 f_equal.
    induction r as [| x l IH]; simpl; [reflexivity | now rewrite IH].
Qed.

(** X5: a side that holds a wall classified as insulated sheathing with a
    nominal R-value of 0, 3 or 7 never yields a zone wall: the effective
    R-value table has no entry for it and the lookup raises. *)
Theorem thin_insulated_sheathing_fails_side
  (side : string) (walls : list walld) (w : walld) (rv : Z) (fin : string) :
  In w walls ->
  In rv [0; 3; 7] ->
  In fin ["wo"; "st"; "vi"; "al"; "br"] ->
  assembly_code w = wall_code "ps" rv fin ->
  forall hw, build_heswall side walls <> Ok hw.
Proof.
  intros Hw Hrv Hfin Hcode hw H. unfold build_heswall in H.
  destruct (side_wall_areas side walls) as [wa |] eqn:Ea; [| discriminate].
  cbn [bind] in H.
  destruct (wall_loop wall_acc0 wa) as [acc |] eqn:El; [| discriminate].
  apply side_wall_areas_walls in Ea. subst walls.
  apply in_map_iff in Hw as [[w' a] [Hfst Hin]]. simpl in Hfst. subst w'.
  destruct (wall_loop_steps _ _ _ El _ Hin) as [a0 [a1 Hstep]].
  unfold wall_step in Hstep. rewrite Hcode in Hstep.
  simpl in Hrv, Hfin.
  destruct Hrv as [<- | [<- | [<- | []]]];
    destruct Hfin as [<- | [<- | [<- | [<- | [<- | []]]]]];
    vm_compute in Hstep; discriminate.
Qed.

Lemma thin_insulated_sheathing_fails_side_witness :
  get_wall_assembly_code
    (mkWall "wall1" "WoodStud" [mkLayer (Some "continuous") true (Some (inject_Z 5))]
       None None (Some "vinyl siding") (Some (inject_Z 100)))
  = Ok (wall_code "ps" 0 "vi") /\
  forall hw,
    build_heswall "front" [mkWalld (wall_code "ps" 0 "vi") (Some (inject_Z 100)) "wall1"]
    <> Ok hw.
Proof.
  split; [vm_compute; reflexivity |].
  apply (thin_insulated_sheathing_fails_side "front" _
           (mkWalld (wall_code "ps" 0 "vi") (Some (inject_Z 100)) "wall1") 0 "vi").
  - now left.
  - simpl; tauto.
  - simpl; tauto.
  - reflexivity.
Defined.

(** X6: for a wood-stud wall whose layers and flags read well, the siding
    decides between a code and an error: no siding, or a siding that the
    table does not know, is "Exterior finish information is missing"; the
    siding "other" is "There is no HEScore wall siding equivalent"; any
    other siding of the table gives a code that ends with its two
    letters. *)
Theorem wood_stud_siding_outcomes (w : Wall) (p : bool * Q) (eps ove : option bool) :
  wall_type w = "WoodStud" ->
  woodstud_layers (wall_layers w) false 0%Q = Ok p ->
  tobool (wall_eps w) = Ok eps ->
  tobool (wall_ove w) = Ok ove ->
  match wall_siding w with
  | None =>
      get_wall_assembly_code w
      = Raise (TranslationError
                 ("Wall " ++ wall_id w ++ ": Exterior finish information is missing"))
  | Some s =>
      match dict_get sidingmap s with
      | None =>
          get_wall_assembly_code w
          = Raise (TranslationError
                     ("Wall " ++ wall_id w ++ ": Exterior finish information is missing"))
      | Some None =>
          s = "other" /\
          get_wall_assembly_code w
          = Raise (TranslationError
                     ("Wall " ++ wall_id w ++
                      ": There is no HEScore wall siding equivalent for the HPXML option: other"))
      | Some (Some st) =>
          exists ct rv, get_wall_assembly_code w = Ok (wall_code ct rv st)
      end
  end.
Proof.
  intros Hty Hl He Ho. unfold get_wall_assembly_code.
  rewrite Hty. cbn [String.eqb Ascii.eqb Bool.eqb]. rewrite Hl.
  destruct p as [has_rigid cavity]. cbn [bind]. rewrite He. cbn [bind].
  assert (Hr1 : exists rv, round_to_nearest cavity [0; 3; 7; 11; 13; 15; 19; 21] = Ok rv)
    by (eexists; reflexivity).
  assert (Hr2 : exists rv, round_to_nearest cavity [19; 21; 27; 33; 38] = Ok rv)
    by (eexists; reflexivity).
  destruct Hr1 as [rv1 Hr1], Hr2 as [rv2 Hr2].
  assert (Hpick :
    exists ct rv,
      (if (truthy eps || has_rigid)%bool
       then rvalue <- round_to_nearest cavity [0; 3; 7; 11; 13; 15; 19; 21] ;;
            Ok ("ps", rvalue)
       else ove0 <- tobool (wall_ove w) ;;
            if truthy ove0
            then rvalue <- round_to_nearest cavity [19; 21; 27; 33; 38] ;; Ok ("ov", rvalue)
            else rvalue <- round_to_nearest cavity [0; 3; 7; 11; 13; 15; 19; 21] ;;
                 Ok ("wf", rvalue)) = Ok (ct, rv)).
  { destruct (truthy eps || has_rigid)%bool.
    - rewrite Hr1. eexists _, _. reflexivity.
    - rewrite Ho. cbn [bind]. destruct (truthy ove).
      + rewrite Hr2. eexists _, _. reflexivity.
      + rewrite Hr1. eexists _, _. reflexivity. }
  destruct Hpick as [ct [rv ->]]. cbn [bind].
  destruct (wall_siding w) as [s |]; [| reflexivity].
  cbn [dict_item_opt]. unfold dict_item.
  destruct (dict_get sidingmap s) as [[st |] |] eqn:Es.
  - eexists _, _. reflexivity.
  - apply dict_get_In in Es. simpl in Es.
    repeat (destruct Es as [Es | Es]; [try discriminate Es |]); [| destruct Es].
    injection Es as <-. split; reflexivity.
  - reflexivity.
Qed.

Lemma wood_stud_siding_outcomes_witness :
  get_wall_assembly_code
    (mkWall "wall1" "WoodStud" [mkLayer (Some "cavity") false (Some (inject_Z 13))]
       None None None (Some (inject_Z 100)))
  = Raise (TranslationError "Wall wall1: Exterior finish information is missing").
Proof.
  exact (wood_stud_siding_outcomes
           (mkWall "wall1" "WoodStud" [mkLayer (Some "cavity") false (Some (inject_Z 13))]
              None None None (Some (inject_Z 100)))
           (false, (0 + inject_Z 13)%Q) None None eq_refl eq_refl eq_refl eq_refl).
Defined.

(** ** Window codes *)

Ltac split_ifs :=
  repeat match goal with
         | |- context [if ?b then _ else _] => destruct b eqn:?
         end.

(** X7: a code returned by [get_window_code] is one of the eighteen codes
    of the catalog, and its last letter tells the frame: b for a metal
    frame with a thermal break, a for a metal frame without, w for vinyl,
    wood, fiberglass and composite frames. *)
Theorem window_code_in_catalog (window : Glazing) (code : string) :
  get_window_code window = Ok code ->
  In code window_codes /\
  endswith code
    (if str_in (frame_type window) ["Aluminum"; "Metal"] then
       match tobool (thermal_break window) with
       | Ok (Some true) => "b"
       | _ => "a"
       end
     else "w") = true.
Proof.
  unfold get_window_code.
  destruct (str_in (frame_type window) ["Aluminum"; "Metal"]).
  - destruct (tobool (thermal_break window)) as [[[|] |] |]; cbn [bind truthy];
      try discriminate;
      split_ifs; cbn [bind]; intros H; try discriminate H;
      injection H as <-; (split; [simpl; tauto | reflexivity]).
  - destruct (str_in (frame_type window) ["Vinyl"; "Wood"; "Fiberglass"; "Composite"]);
      split_ifs; cbn [bind]; intros H; try discriminate H;
      injection H as <-; (split; [simpl; tauto | reflexivity]).
Qed.

Lemma window_code_in_catalog_witness :
  In "dpeaaw" window_codes /\
  endswith "dpeaaw"
    (if str_in "Vinyl" ["Aluminum"; "Metal"] then
       match tobool None with
       | Ok (Some true) => "b"
       | _ => "a"
       end
     else "w") = true.
Proof.
  apply (window_code_in_catalog
           (mkGlazing "Vinyl" None (Some "double-pane") (Some "low-e") (Some "argon"))).
  reflexivity.
Defined.

(** X8: what the catalog lacks.  A metal frame with a thermal break
    translates only with double glazing or storm windows, so not with
    single or triple panes; a metal frame without one translates with
    those or with a single pane, so not with triple panes; and a frame
    that is neither metal nor vinyl, wood, fiberglass or composite never
    translates.  Glass type and gas fill make no difference to that. *)
Theorem window_types_without_code (window : Glazing) (tb : option bool) :
  tobool (thermal_break window) = Ok tb ->
  let metal := str_in (frame_type window) ["Aluminum"; "Metal"] in
  let other := str_in (frame_type window) ["Vinyl"; "Wood"; "Fiberglass"; "Composite"] in
  let layers := glass_layers window in
  (metal = true /\ opt_in layers double_like = false /\
   (truthy tb = true \/ opt_str_eqb layers (Some "single-pane") = false))
  \/ (metal = false /\ other = false) ->
  get_window_code window = Raise (TranslationError "Cannot translate window type.").
Proof.
  intros Htb metal other layers. subst metal other layers.
  unfold get_window_code.
  intros [[Hm [Hd Hs]] | [Hm Ho]].
  - rewrite Hm, Htb. cbn [bind]. rewrite Hd.
    destruct (truthy tb); [reflexivity |].
    destruct Hs as [Hs | Hs]; [discriminate |]. now rewrite Hs.
  - now rewrite Hm, Ho.
Qed.

Lemma window_types_without_code_witness :
  get_window_code (mkGlazing "Aluminum" (Some "true") (Some "single-pane") None None)
  = Raise (TranslationError "Cannot translate window type.").
Proof.
  apply (window_types_without_code
           (mkGlazing "Aluminum" (Some "true") (Some "single-pane") None None)
           (Some true) eq_refl).
  left. repeat split. now left.
Defined.

(** ** Walls by side *)

Lemma Qsum_from (l : list Q) (a : Q) : (fold_left Qplus l a == a + Qsum l)%Q.
Proof.
  unfold Qsum. revert a. induction l as [| x r IH]; intros a; simpl.
  - now rewrite Qplus_0_r.
  - rewrite IH, (IH (0 + x)%Q). ring.
Qed.

Lemma Qsum_cons (x : Q) (l : list Q) : (Qsum (x :: l) == x + Qsum l)%Q.
Proof. unfold Qsum at 1. simpl. rewrite Qsum_from. ring. Qed.

Lemma Qsum_app (l1 l2 : list Q) : (Qsum (l1 ++ l2) == Qsum l1 + Qsum l2)%Q.
Proof.
  induction l1 as [| x r IH]; simpl.
  - unfold Qsum at 2. simpl. ring.
  - rewrite !Qsum_cons, IH. ring.
Qed.

Lemma Qsum_nil : Qsum [] = 0%Q.
Proof. reflexivity. Qed.

Section AppendFacts.
Context {A : Type}.

Lemma dict_append_get (d d' : dict (list A)) (k : string) (x : A) :
  dict_append d k x = Ok d' ->
  exists l, dict_get d k = Some l /\ d' = dict_set d k (l ++ [x])%list.
Proof.
  unfold dict_append, dict_item.
  destruct (dict_get d k) as [l |]; [| discriminate].
  cbn [bind]. intros H; injection H as <-. eauto.
Qed.

Lemma dict_append_same (d d' : dict (list A)) (k : string) (x : A) :
  dict_append d k x = Ok d' ->
  exists l, dict_get d k = Some l /\ dict_get d' k = Some (l ++ [x])%list.
Proof.
  intros H. apply dict_append_get in H as [l [Hl ->]].
  exists l. split; [exact Hl | apply dict_get_set_eq].
Qed.

Lemma dict_append_other (d d' : dict (list A)) (k k' : string) (x : A) :
  dict_append d k x = Ok d' -> k' <> k -> dict_get d' k' = dict_get d k'.
Proof.
  intros H Hne. apply dict_append_get in H as [l [Hl ->]].
  now apply dict_get_set_neq.
Qed.

Lemma dict_append_keys (d d' : dict (list A)) (k : string) (x : A) :
  dict_append d k x = Ok d' -> dict_keys d' = dict_keys d.
Proof.
  intros H. apply dict_append_get in H as [l [Hl ->]].
  apply dict_keys_set_in. eapply dict_get_some_keys; eauto.
Qed.

Lemma dict_append_total (d : dict (list A)) (k : string) (x : A) :
  In k (dict_keys d) -> exists d', dict_append d k x = Ok d'.
Proof.
  intros H. apply dict_get_keys in H as [l Hl].
  unfold dict_append, dict_item. rewrite Hl. cbn [bind]. eauto.
Qed.
End AppendFacts.

Lemma sides_area_set (d : dict (list walld)) (k : string) (l : list walld) (x : walld) :
  dict_get d k = Some l ->
  (sides_area (dict_set d k (l ++ [x])%list) == sides_area d + walld_area x)%Q.
Proof.
  unfold sides_area.
  induction d as [| [k0 l0] r IH]; simpl; [discriminate |].
  destruct (String.eqb_spec k k0) as [-> | Hne]; intros H.
  - injection H as ->. cbn [map snd]. rewrite !Qsum_cons.
    rewrite map_app, Qsum_app. cbn [map]. rewrite (Qsum_cons (walld_area x) []).
    change (Qsum []) with 0%Q. ring.
  - cbn [map snd]. rewrite !Qsum_cons. rewrite IH by exact H. ring.
Qed.

Lemma sides_area_append (d d' : dict (list walld)) (k : string) (x : walld) :
  dict_append d k x = Ok d' ->
  (sides_area d' == sides_area d + walld_area x)%Q.
Proof.
  intros H. apply dict_append_get in H as [l [Hl ->]]. now apply sides_area_set.
Qed.

Lemma zdict_item_values {V : Type} (d : zdict V) (k : Z) (v : V) :
  zdict_item d k = Ok v -> In v (map snd d).
Proof.
  unfold zdict_item. destruct (zdict_get d k) as [v' |] eqn:E; [| discriminate].
  intros H; injection H as <-. apply zdict_get_In in E.
  apply (in_map snd) in E. exact E.
Qed.

Lemma nearest_azimuth_direction (w : WallEl) :
  match get_nearest_azimuth (we_azimuth w) (we_orientation w) with
  | Raise (TranslationError _) => has_direction w = false
  | _ => has_direction w = true
  end.
Proof.
  unfold get_nearest_azimuth, has_direction.
  destruct (we_azimuth w); [reflexivity |].
  destruct (we_orientation w) as [o |]; [| reflexivity].
  unfold dict_item. now destruct (dict_get hpxml_orientation_to_azimuth o).
Qed.

(** Where a wall goes: to [noside] without a direction; with one, to a
    side, or in two halves to two sides. *)
Lemma assign_wall_cases (sidemap : zdict string) (d d' : dict (list walld)) (w : WallEl) :
  assign_wall sidemap d w = Ok d' ->
  exists code,
    get_wall_assembly_code (we_wall w) = Ok code /\
    let wd := mkWalld code (wall_area (we_wall w)) (wall_id (we_wall w)) in
    (has_direction w = false /\ dict_append d "noside" wd = Ok d') \/
    (has_direction w = true /\
     exists s, In s (map snd sidemap) /\ dict_append d s wd = Ok d') \/
    (has_direction w = true /\
     exists a s1 s2 d1,
       wall_area (we_wall w) = Some a /\
       In s1 (map snd sidemap) /\ In s2 (map snd sidemap) /\
       let half := mkWalld code (Some (a / 2)%Q) (wall_id (we_wall w)) in
       dict_append d s1 half = Ok d1 /\ dict_append d1 s2 half = Ok d').
Proof.
  unfold assign_wall. intros H.
  destruct (get_wall_assembly_code (we_wall w)) as [code |]; [| discriminate].
  cbn [bind] in H. exists code. split; [reflexivity |]. cbv zeta.
  pose proof (nearest_azimuth_direction w) as Hdir.
  destruct (get_nearest_azimuth (we_azimuth w) (we_orientation w)) as [b | e].
  - right.
    destruct (zdict_item sidemap b) as [s | e] eqn:Es.
    + left. split; [exact Hdir |]. exists s. split; [| exact H].
      exact (zdict_item_values _ _ _ Es).
    + right. split; [exact Hdir |].
      destruct e; try discriminate.
      cbn [area id] in H.
      destruct (wall_area (we_wall w)) as [a |]; [| discriminate]. cbn [float_opt bind] in H.
      destruct (zdict_item sidemap (unspin_azimuth (b + 45))) as [s1 |] eqn:E1;
        [| discriminate].
      cbn [bind] in H.
      destruct (dict_append d s1 _) as [d1 |] eqn:Ed1; [| discriminate]. cbn [bind] in H.
      destruct (zdict_item sidemap (unspin_azimuth (b - 45))) as [s2 |] eqn:E2;
        [| discriminate].
      cbn [bind] in H.
      exists a, s1, s2, d1. split; [reflexivity |].
      split; [exact (zdict_item_values _ _ _ E1) |].
      split; [exact (zdict_item_values _ _ _ E2) |].
      split; assumption.
  - destruct e; try discriminate. left. split; assumption.
Qed.

Lemma assign_walls_area (sidemap : zdict string) (walls : list WallEl) :
  forall d d',
    assign_walls sidemap d walls = Ok d' ->
    (sides_area d' ==
     sides_area d + Qsum (map (fun w => match wall_area (we_wall w) with
                                        | Some a => a
                                        | None => 0
                                        end) walls))%Q.
Proof.
  induction walls as [| w r IH]; intros d d' H; simpl in H.
  - injection H as <-. cbn [map]. rewrite Qsum_nil. ring.
  - destruct (assign_wall sidemap d w) as [d1 |] eqn:E; [| discriminate].
    cbn [bind] in H. rewrite (IH _ _ H). cbn [map]. rewrite Qsum_cons.
    apply assign_wall_cases in E as [code [_ Hc]]. cbv zeta in Hc.
    destruct Hc as [[_ Ha] | [[_ [s [_ Ha]]] | [_ [a [s1 [s2 [d2 [Hw [_ [_ [Ha1 Ha2]]]]]]]]]]].
    + rewrite (sides_area_append _ _ _ _ Ha). unfold walld_area. cbn [area]. ring.
    + rewrite (sides_area_append _ _ _ _ Ha). unfold walld_area. cbn [area]. ring.
    + rewrite (sides_area_append _ _ _ _ Ha2), (sides_area_append _ _ _ _ Ha1).
      unfold walld_area. cbn [area]. rewrite Hw. field.
Qed.

(** The keys and the [noside] entry along the loop over the walls. *)
Lemma assign_walls_noside (sidemap : zdict string) (walls : list WallEl) :
  ~ In "noside" (map snd sidemap) ->
  forall d d' l,
    assign_walls sidemap d walls = Ok d' ->
    dict_get d "noside" = Some l ->
    dict_keys d' = dict_keys d /\
    exists l',
      dict_get d' "noside" = Some (l ++ l')%list /\
      List.length l' = List.length (filter (fun w => negb (has_direction w)) walls).
Proof.
  intros Hns. induction walls as [| w r IH]; intros d d' l H Hl; simpl in H.
  - injection H as <-. split; [reflexivity |]. exists []. now rewrite app_nil_r.
  - destruct (assign_wall sidemap d w) as [d1 |] eqn:E; [| discriminate].
    cbn [bind] in H.
    apply assign_wall_cases in E as [code [_ Hc]]. cbv zeta in Hc.
    assert (Hside : forall s, In s (map snd sidemap) -> s <> "noside")
      by (intros s Hs ->; contradiction).
    simpl filter.
    destruct Hc as [[Hd Ha] | [[Hd [s [Hs Ha]]] | [Hd [a [s1 [s2 [d2 [_ [Hs1 [Hs2 [Ha1 Ha2]]]]]]]]]]];
      rewrite Hd; cbn [negb].
    + destruct (dict_append_same _ _ _ _ Ha) as [l0 [Hl0 Hl1]].
      rewrite Hl in Hl0. injection Hl0 as <-.
      destruct (IH _ _ _ H Hl1) as [Hk [l' [Hg Hlen]]].
      split; [now rewrite Hk, (dict_append_keys _ _ _ _ Ha) |].
      eexists (_ :: l'). rewrite <- app_assoc in Hg. split; [exact Hg |].
      simpl. now rewrite Hlen.
    + assert (Hl1 : dict_get d1 "noside" = Some l).
      { rewrite (dict_append_other _ _ _ "noside" _ Ha); [exact Hl |].
        intros Heq. now apply (Hside s Hs). }
      destruct (IH _ _ _ H Hl1) as [Hk [l' [Hg Hlen]]].
      split; [now rewrite Hk, (dict_append_keys _ _ _ _ Ha) |]. eauto.
    + assert (Hl1 : dict_get d1 "noside" = Some l).
      { rewrite (dict_append_other _ _ _ "noside" _ Ha2), (dict_append_other _ _ _ "noside" _ Ha1);
          [exact Hl | |]; intros Heq; [now apply (Hside s1 Hs1) | now apply (Hside s2 Hs2)]. }
      destruct (IH _ _ _ H Hl1) as [Hk [l' [Hg Hlen]]].
      split; [now rewrite Hk, (dict_append_keys _ _ _ _ Ha2), (dict_append_keys _ _ _ _ Ha1) |].
      eauto.
Qed.

(** X9: when every wall has a direction and the sides are the four sides,
    [walls_by_side] loses and adds no area: the areas of the walls held by
    the sides add up to the areas of the walls, a wall between two sides
    counting half on each. *)
Theorem walls_by_side_keeps_area
  (sidemap : zdict string) (walls : list WallEl) (d : dict (list walld)) :
  map snd sidemap = four_sides ->
  forallb has_direction walls = true ->
  walls_by_side sidemap walls = Ok d ->
  (sides_area d ==
   Qsum (map (fun w => match wall_area (we_wall w) with
                       | Some a => a
                       | None => 0
                       end) walls))%Q.
Proof.
  intros Hs Hdir H. unfold walls_by_side in H.
  destruct (assign_walls sidemap _ walls) as [d1 |] eqn:E; [| discriminate].
  cbn [bind] in H.
  assert (Hns : ~ In "noside" (map snd sidemap)).
  { rewrite Hs. simpl. intros [X | [X | [X | [X | []]]]]; discriminate. }
  assert (Hd0 : dict_get (dict_set (@empty_sides walld sidemap) "noside" []) "noside" = Some [])
    by apply dict_get_set_eq.
  destruct (assign_walls_noside sidemap walls Hns _ _ _ E Hd0) as [_ [l' [Hg Hlen]]].
  assert (Hnone : filter (fun w => negb (has_direction w)) walls = []).
  { apply filter_none. intros w Hw. rewrite forallb_forall in Hdir.
    now rewrite (Hdir w Hw). }
  rewrite Hnone in Hlen. destruct l'; [| discriminate].
  unfold spread_noside, dict_item in H. rewrite Hg in H. cbn [bind app List.length Nat.ltb Nat.leb] in H.
  injection H as <-.
  rewrite (assign_walls_area _ _ _ _ E).
  unfold empty_sides. rewrite Hs. vm_compute sides_area. ring.
Qed.

Lemma walls_by_side_keeps_area_witness :
  let wall i az :=
    mkWallEl (mkWall i "WoodStud" [mkLayer (Some "cavity") false (Some (inject_Z 13))]
                None None (Some "vinyl siding") (Some (inject_Z 100)))
      (Some (inject_Z az)) None in
  let walls := [wall "w1" 180; wall "w2" 270; wall "w3" 0; wall "w4" 135] in
  exists d,
    walls_by_side (make_sidemap 180) walls = Ok d /\
    (sides_area d ==
     Qsum (map (fun w => match wall_area (we_wall w) with
                         | Some a => a
                         | None => 0
                         end) walls))%Q.
Proof.
  intros wall walls.
  destruct (walls_by_side (make_sidemap 180) walls) as [d |] eqn:E;
    [| vm_compute in E; discriminate].
  exists d. split; [reflexivity |].
  apply (walls_by_side_keeps_area (make_sidemap 180) walls d);
    [reflexivity | reflexivity | exact E].
Defined.

Lemma some_side_holds_append (sidemap : zdict string) (d d' : dict (list walld))
    (k : string) (y : walld) :
  dict_append d k y = Ok d' -> some_side_holds sidemap d -> some_side_holds sidemap d'.
Proof.
  intros Ha [s [x [l [Hs Hg]]]].
  destruct (string_dec s k) as [-> | Hne].
  - destruct (dict_append_same _ _ _ _ Ha) as [l0 [Hl0 Hl1]].
    rewrite Hg in Hl0. injection Hl0 as <-.
    exists k, x, (l ++ [y])%list. split; [exact Hs | exact Hl1].
  - exists s, x, l. split; [exact Hs |].
    now rewrite (dict_append_other _ _ _ _ _ Ha Hne).
Qed.

Lemma append_makes_side_hold (sidemap : zdict string) (d d' : dict (list walld))
    (s : string) (y : walld) :
  In s (map snd sidemap) -> dict_append d s y = Ok d' -> some_side_holds sidemap d'.
Proof.
  intros Hs Ha. destruct (dict_append_same _ _ _ _ Ha) as [l0 [_ Hl1]].
  destruct l0 as [| x l0]; [exists s, y, [] | exists s, x, (l0 ++ [y])%list]; auto.
Qed.

Lemma assign_walls_side_holds (sidemap : zdict string) (walls : list WallEl) :
  forall d d',
    assign_walls sidemap d walls = Ok d' ->
    some_side_holds sidemap d \/ existsb has_direction walls = true ->
    some_side_holds sidemap d'.
Proof.
  induction walls as [| w r IH]; intros d d' H Hor; simpl in H.
  - injection H as <-. destruct Hor as [Hh | Hx]; [exact Hh | discriminate].
  - destruct (assign_wall sidemap d w) as [d1 |] eqn:E; [| discriminate].
    cbn [bind] in H. apply (IH _ _ H).
    apply assign_wall_cases in E as [code [_ Hc]]. cbv zeta in Hc.
    simpl in Hor.
    destruct Hc as [[Hd Ha] | [[Hd [s [Hs Ha]]] | [Hd [a [s1 [s2 [d2 [_ [Hs1 [Hs2 [Ha1 Ha2]]]]]]]]]]].
    + rewrite Hd in Hor. simpl in Hor.
      destruct Hor as [Hh | Hx]; [left | now right].
      eapply some_side_holds_append; eauto.
    + left. eapply append_makes_side_hold; eauto.
    + left. eapply append_makes_side_hold; eauto.
Qed.

Lemma four_empty_sides_false (sidemap : zdict string) (d : dict (list walld)) (b : bool) :
  map snd sidemap = four_sides ->
  some_side_holds sidemap d ->
  four_empty_sides sidemap d = Ok b -> b = false.
Proof.
  intros Hs [s [x [l [Hin Hg]]]]. unfold four_empty_sides.
  rewrite Hs in *. unfold four_sides in *. unfold dict_item.
  destruct (dict_get d "front") as [l1 |] eqn:E1; [| discriminate]. cbn [bind].
  destruct (dict_get d "right") as [l2 |] eqn:E2; [| discriminate]. cbn [bind].
  destruct (dict_get d "back") as [l3 |] eqn:E3; [| discriminate]. cbn [bind].
  destruct (dict_get d "left") as [l4 |] eqn:E4; [| discriminate]. cbn [bind].
  intros H; injection H as <-.
  simpl in Hin.
  destruct Hin as [<- | [<- | [<- | [<- | []]]]];
    match goal with
    | H1 : dict_get d ?k = Some (x :: l), H2 : dict_get d ?k = Some ?l' |- _ =>
        rewrite H1 in H2; injection H2 as <-
    end; simpl;
    repeat match goal with |- context [List.length ?l0] => destruct (List.length l0) end;
    reflexivity.
Qed.

Lemma four_sides_not_noside (sidemap : zdict string) :
  map snd sidemap = four_sides -> ~ In "noside" (map snd sidemap).
Proof.
  intros ->. simpl. intros [X | [X | [X | [X | []]]]]; discriminate.
Qed.

(** X10: [walls_by_side] succeeds only when all the walls have a
    direction or none has: a building that gives a direction to some walls
    and not to others is refused. *)
Theorem walls_directed_all_or_none
  (sidemap : zdict string) (walls : list WallEl) (d : dict (list walld)) :
  map snd sidemap = four_sides ->
  walls_by_side sidemap walls = Ok d ->
  forallb has_direction walls = true \/
  forallb (fun w => negb (has_direction w)) walls = true.
Proof.
  intros Hs H. unfold walls_by_side in H.
  destruct (assign_walls sidemap _ walls) as [d1 |] eqn:E; [| discriminate].
  cbn [bind] in H.
  destruct (existsb has_direction walls) eqn:Ex.
  2:{ right. apply forallb_forall. intros w Hw.
      destruct (has_direction w) eqn:Hd; [| reflexivity].
      assert (existsb has_direction walls = true)
        by (apply existsb_exists; eauto).
      congruence. }
  left.
  pose proof (assign_walls_side_holds _ _ _ _ E (or_intror Ex)) as Hh.
  assert (Hd0 : dict_get (dict_set (@empty_sides walld sidemap) "noside" []) "noside" = Some [])
    by apply dict_get_set_eq.
  destruct (assign_walls_noside sidemap walls (four_sides_not_noside _ Hs) _ _ _ E Hd0)
    as [_ [l' [Hg Hlen]]].
  cbn [app] in Hg.
  unfold spread_noside, dict_item in H. rewrite Hg in H. cbn [bind] in H.
  destruct l' as [| x l'].
  - apply forallb_forall. intros w Hw.
    destruct (has_direction w) eqn:Hd; [reflexivity |].
    assert (Hin : In w (filter (fun w => negb (has_direction w)) walls))
      by (apply filter_In; rewrite Hd; auto).
    symmetry in Hlen. apply length_zero_iff_nil in Hlen. rewrite Hlen in Hin. destruct Hin.
  - exfalso. cbn [List.length Nat.ltb Nat.leb] in H.
    destruct (four_empty_sides sidemap d1) as [b |] eqn:Ef; [| discriminate].
    rewrite (four_empty_sides_false _ _ _ Hs Hh Ef) in H. discriminate.
Qed.

Lemma walls_directed_all_or_none_witness :
  let wall az :=
    mkWallEl (mkWall "w" "WoodStud" [mkLayer (Some "cavity") false (Some (inject_Z 13))]
                None None (Some "vinyl siding") (Some (inject_Z 100))) az None in
  let walls := [wall None; wall None] in
  forallb has_direction walls = true \/
  forallb (fun w => negb (has_direction w)) walls = true.
Proof.
  intros wall walls.
  destruct (walls_by_side (make_sidemap 90) walls) as [d |] eqn:E;
    [| vm_compute in E; discriminate].
  exact (walls_directed_all_or_none (make_sidemap 90) walls d eq_refl E).
Defined.

Lemma build_heswalls_each (d : dict (list walld)) (sides : list string) :
  forall hs,
    build_heswalls d sides = Ok hs ->
    (forall s, In s sides ->
               exists walls h, dict_get d s = Some walls /\ build_heswall s walls = Ok h) /\
    map side hs = sides.
Proof.
  induction sides as [| s0 r IH]; intros hs H; simpl in H.
  - injection H as <-. split; [intros s [] | reflexivity].
  - unfold dict_item in H.
    destruct (dict_get d s0) as [walls |] eqn:Eg; [| discriminate]. cbn [bind] in H.
    destruct (build_heswall s0 walls) as [h |] eqn:Eb; [| discriminate]. cbn [bind] in H.
    destruct (build_heswalls d r) as [rest |] eqn:Er; [| discriminate]. cbn [bind] in H.
    injection H as <-. destruct (IH _ eq_refl) as [Hall Hmap]. split.
    + intros s [<- | Hs]; [eauto | auto].
    + simpl. rewrite Hmap. f_equal.
      unfold build_heswall in Eb.
      repeat match type of Eb with
             | bind ?c _ = Ok _ => destruct c; cbn [bind] in Eb; [| discriminate Eb]
             end.
      injection Eb as <-. reflexivity.
Qed.

(** X11: every side needs a wall.  When the walls have been assigned and
    one of the four sides holds none, [_get_building_zone_wall] fails,
    whatever the windows; so does it for a building without any wall. *)
Theorem side_without_wall_fails
  (walls : list WallEl) (windows : list WindowEl) (sidemap : zdict string)
  (bldg_about : about) (d : dict (list walld)) (s : string) :
  map snd sidemap = four_sides ->
  walls_by_side sidemap walls = Ok d ->
  In s four_sides ->
  dict_get d s = Some [] ->
  forall r, _get_building_zone_wall walls windows sidemap bldg_about <> Ok r.
Proof.
  intros Hs Hw Hin Hg r H. unfold _get_building_zone_wall in H.
  rewrite Hw in H. cbn [bind] in H.
  destruct (build_heswalls d (map snd sidemap)) as [hs |] eqn:Eb; [| discriminate].
  destruct (build_heswalls_each _ _ _ Eb) as [Hall _].
  rewrite Hs in Hall. destruct (Hall s Hin) as [ws [h [Hg' Hb]]].
  rewrite Hg in Hg'. injection Hg' as <-.
  simpl in Hin. destruct Hin as [<- | [<- | [<- | [<- | []]]]];
    vm_compute in Hb; discriminate.
Qed.

Lemma side_without_wall_fails_witness :
  (exists d, walls_by_side (make_sidemap 0) [] = Ok d /\ dict_get d "front" = Some []) /\
  forall r,
    _get_building_zone_wall [] [] (make_sidemap 0)
      (mkAbout (2014, 3, 4) "rectangle" None 1990 3 2 8 2000 "north" false None (Some true))
    <> Ok r.
Proof.
  split.
  - exists [("front", []); ("right", []); ("back", []); ("left", []); ("noside", [])].
    split; reflexivity.
  - apply (side_without_wall_fails [] [] (make_sidemap 0) _
             [("front", []); ("right", []); ("back", []); ("left", []); ("noside", [])]
             "front"); try reflexivity.
    now left.
Defined.

(** ** Windows by side *)

Lemma assign_windows_each (sidemap : zdict string) (hw : dict (list walld))
    (ws : list WindowEl) :
  forall h h',
    assign_windows sidemap hw h ws = Ok h' ->
    forall w, In w ws -> exists h0 h1, assign_window sidemap hw h0 w = Ok h1.
Proof.
  induction ws as [| x r IH]; intros h h' H w Hin; [destruct Hin |].
  simpl in H. destruct (assign_window sidemap hw h x) as [h1 |] eqn:E; [| discriminate].
  cbn [bind] in H. destruct Hin as [<- | Hin]; [eauto | eapply IH; eauto].
Qed.

(** X12: a window is never split between two sides by its own direction.
    Without AttachedToWall, a window whose azimuth bin is none of the four
    sides' (north-east on a house facing north, say) raises the missing-key
    error of the first lookup, before the code that would split it, and
    [_get_building_zone_wall] fails. *)
Theorem window_between_sides_fails
  (walls : list WallEl) (windows : list WindowEl) (sidemap : zdict string)
  (bldg_about : about) (w : WindowEl) (bin : Z) :
  In w windows ->
  wn_attached_to_wall w = None ->
  get_nearest_azimuth (wn_azimuth w) (wn_orientation w) = Ok bin ->
  zdict_get sidemap bin = None ->
  window_sides_of sidemap [] w = Raise (KeyError (fmt_d bin)) /\
  forall r, _get_building_zone_wall walls windows sidemap bldg_about <> Ok r.
Proof.
  intros Hin Hatt Haz Hnone.
  assert (Hsides : forall hw, window_sides_of sidemap hw w = Raise (KeyError (fmt_d bin))).
  { intros hw. unfold window_sides_of. rewrite Hatt, Haz.
    unfold zdict_item. now rewrite Hnone. }
  split; [apply Hsides |].
  intros r H. unfold _get_building_zone_wall in H.
  destruct (walls_by_side sidemap walls) as [hw |]; [| discriminate]. cbn [bind] in H.
  destruct (build_heswalls hw _) as [zw |]; [| discriminate]. cbn [bind] in H.
  destruct (assign_windows sidemap hw _ windows) as [hwin |] eqn:Ew; [| discriminate].
  destruct (assign_windows_each _ _ _ _ _ Ew w Hin) as [h0 [h1 Hstep]].
  unfold assign_window in Hstep.
  destruct (wn_area w); [| discriminate]. cbn [bind] in Hstep.
  destruct (match wn_ufactor w with Some _ => _ | None => _ end); [| discriminate].
  cbn [bind] in Hstep. rewrite Hsides in Hstep. discriminate.
Qed.

Lemma window_between_sides_fails_witness :
  let w := mkWindowEl (mkGlazing "Vinyl" None (Some "double-pane") None None)
             (Some (inject_Z 16)) None None None None (Some (inject_Z 45)) None in
  window_sides_of (make_sidemap 0) [] w = Raise (KeyError (fmt_d 45)) /\
  forall r,
    _get_building_zone_wall [] [w] (make_sidemap 0)
      (mkAbout (2014, 3, 4) "rectangle" None 1990 3 2 8 2000 "north" false None (Some true))
    <> Ok r.
Proof.
  intros w.
  apply (window_between_sides_fails [] [w] (make_sidemap 0) _ w 45);
    [now left | reflexivity | reflexivity | reflexivity].
Defined.

(** X13: a window attached to a wall that no side holds is dropped without
    a word: [assign_window] returns the windows by side as they were. *)
Theorem window_attached_to_unknown_wall_is_dropped
  (sidemap : zdict string) (hpxmlwalls : dict (list walld))
  (hpxmlwindows hpxmlwindows' : dict (list windowd)) (w : WindowEl) (wall_ref : string) :
  wn_attached_to_wall w = Some wall_ref ->
  (forall s l wall, In (s, l) hpxmlwalls -> In wall l -> id wall <> wall_ref) ->
  assign_window sidemap hpxmlwalls hpxmlwindows w = Ok hpxmlwindows' ->
  hpxmlwindows' = hpxmlwindows.
Proof.
  intros Hatt Hno H. unfold assign_window in H.
  destruct (wn_area w); [| discriminate]. cbn [bind] in H.
  destruct (match wn_ufactor w with Some _ => _ | None => _ end); [| discriminate].
  cbn [bind] in H. unfold window_sides_of in H. rewrite Hatt in H. cbn [bind] in H.
  rewrite (filter_none _ hpxmlwalls) in H.
  - simpl in H. now injection H.
  - intros [s l] Hsl. cbn [snd].
    destruct (existsb _ l) eqn:Ex; [| reflexivity].
    apply existsb_exists in Ex as [wall [Hwall Heq]].
    apply String.eqb_eq in Heq. exfalso. exact (Hno s l wall Hsl Hwall (eq_sym Heq)).
Qed.

Lemma window_attached_to_unknown_wall_is_dropped_witness :
  assign_window (make_sidemap 0)
    [("front", [mkWalld "ewwf13vi" (Some (inject_Z 100)) "wall1"]); ("right", []);
     ("back", []); ("left", []); ("noside", [])]
    [("front", []); ("right", []); ("back", []); ("left", [])]
    (mkWindowEl (mkGlazing "Vinyl" None (Some "double-pane") None None)
       (Some (inject_Z 16)) None None None (Some "wall9") None None)
  = Ok [("front", []); ("right", []); ("back", []); ("left", [])].
Proof.
  destruct (assign_window _ _ _ _) as [h |] eqn:E; [| vm_compute in E; discriminate].
  f_equal.
  eapply window_attached_to_unknown_wall_is_dropped with (wall_ref := "wall9").
  3: exact E.
  - reflexivity.
  - intros s l wall Hsl Hwall.
    simpl in Hsl.
    destruct Hsl as [X | [X | [X | [X | [X | []]]]]]; injection X as <- <-;
      simpl in Hwall; try contradiction.
    destruct Hwall as [<- | []]. discriminate.
Defined.

(** X14: the area of a window that lies on two sides is divided again at
    each side: the first side visited receives half of it and the second a
    quarter, so a quarter of the window is counted nowhere. *)
Theorem window_on_two_sides_half_and_quarter
  (s1 s2 : string) (wd : windowd) (h h' : dict (list windowd)) :
  s1 <> s2 ->
  place_window 2 [s1; s2] wd h = Ok h' ->
  exists l1 l2,
    dict_get h s1 = Some l1 /\ dict_get h s2 = Some l2 /\
    dict_get h' s1
    = Some (l1 ++ [mkWindowd (wd_area wd / 2)%Q (wd_uvalue wd) (wd_shgc wd)
                     (wd_window_code wd)])%list /\
    dict_get h' s2
    = Some (l2 ++ [mkWindowd (wd_area wd / 2 / 2)%Q (wd_uvalue wd) (wd_shgc wd)
                     (wd_window_code wd)])%list /\
    (forall k, k <> s1 -> k <> s2 -> dict_get h' k = dict_get h k).
Proof.
  intros Hne H. simpl in H.
  destruct (dict_append h s1 _) as [h1 |] eqn:E1; [| discriminate]. cbn [bind] in H.
  destruct (dict_append h1 s2 _) as [h2 |] eqn:E2; [| discriminate]. cbn [bind] in H.
  injection H as <-.
  destruct (dict_append_same _ _ _ _ E1) as [l1 [Hl1 Hl1']].
  destruct (dict_append_same _ _ _ _ E2) as [l2 [Hl2 Hl2']].
  exists l1, l2. split; [exact Hl1 |]. split.
  - rewrite <- Hl2. symmetry. apply (dict_append_other _ _ _ _ _ E1). congruence.
  - split; [| split].
    + rewrite (dict_append_other _ _ _ _ _ E2) by exact Hne. exact Hl1'.
    + exact Hl2'.
    + intros k Hk1 Hk2.
      rewrite (dict_append_other _ _ _ _ _ E2) by exact Hk2.
      apply (dict_append_other _ _ _ _ _ E1). exact Hk1.
Qed.

Lemma window_on_two_sides_half_and_quarter_witness :
  exists l1 l2,
    dict_get [("front", @nil windowd); ("left", [])] "front" = Some l1 /\
    dict_get [("front", @nil windowd); ("left", [])] "left" = Some l2 /\
    dict_get [("front", [mkWindowd (inject_Z 32 / 2) None None (Some "dcaw")]);
              ("left", [mkWindowd (inject_Z 32 / 2 / 2) None None (Some "dcaw")])] "front"
    = Some (l1 ++ [mkWindowd (inject_Z 32 / 2)%Q None None (Some "dcaw")])%list /\
    dict_get [("front", [mkWindowd (inject_Z 32 / 2) None None (Some "dcaw")]);
              ("left", [mkWindowd (inject_Z 32 / 2 / 2) None None (Some "dcaw")])] "left"
    = Some (l2 ++ [mkWindowd (inject_Z 32 / 2 / 2)%Q None None (Some "dcaw")])%list /\
    (forall k, k <> "front" -> k <> "left" ->
       dict_get [("front", [mkWindowd (inject_Z 32 / 2) None None (Some "dcaw")]);
                 ("left", [mkWindowd (inject_Z 32 / 2 / 2) None None (Some "dcaw")])] k
       = dict_get [("front", @nil windowd); ("left", [])] k).
Proof.
  apply (window_on_two_sides_half_and_quarter "front" "left"
           (mkWindowd (inject_Z 32) None None (Some "dcaw"))
           [("front", []); ("left", [])]).
  - discriminate.
  - reflexivity.
Defined.

(** ** Windows of a side *)

Lemma py_max_from_greatest {A : Type} (key : A -> Q) (l : list A) :
  forall best,
    let r := py_max_from key best l in
    (key best <= key r)%Q /\ (forall y, In y l -> (key y <= key r)%Q).
Proof.
  induction l as [| x rest IH]; intros best; simpl.
  - split; [apply Qle_refl | intros y []].
  - destruct (Qltb (key best) (key x)) eqn:E.
    + destruct (IH x) as [Hle Hall]. apply Qltb_lt in E.
      split; [apply Qle_trans with (key x); [now apply Qlt_le_weak | exact Hle] |].
      intros y [<- | Hy]; [exact Hle | now apply Hall].
    + destruct (IH best) as [Hle Hall]. apply Qltb_false_le in E.
      split; [exact Hle |].
      intros y [<- | Hy]; [now apply Qle_trans with (key best) | now apply Hall].
Qed.

Lemma py_max_greatest {A : Type} (key : A -> Q) (l : list A) (r : A) :
  py_max key l = Ok r -> forall y, In y l -> (key y <= key r)%Q.
Proof.
  destruct l as [| x rest]; simpl; [discriminate |].
  intros H; injection H as <-.
  destruct (py_max_from_greatest key rest x) as [Hle Hall].
  intros y [<- | Hy]; [exact Hle | now apply Hall].
Qed.

Lemma rated_in (windows : list windowd) (u g a : Q) :
  In (u, g, a) (rated windows) <->
  exists w, In w windows /\ wd_uvalue w = Some u /\ wd_shgc w = Some g /\ a = wd_area w.
Proof.
  unfold rated. rewrite in_flat_map. split.
  - intros [w [Hw Hin]]. exists w.
    destruct (wd_uvalue w) as [u' |]; [| destruct Hin].
    destruct (wd_shgc w) as [g' |]; [| destruct Hin].
    destruct Hin as [E | []]. injection E as -> -> ->. auto.
  - intros [w [Hw [Hu [Hg ->]]]]. exists w. rewrite Hu, Hg. split; [exact Hw | now left].
Qed.

Lemma weighted_sum_bounds (val : Q * Q * Q -> Q) (lo hi : Q) (l : list (Q * Q * Q)) :
  (forall x, In x l -> (0 < snd x)%Q /\ (lo <= val x)%Q /\ (val x <= hi)%Q) ->
  (lo * Qsum (map (fun x => snd x) l) <= Qsum (map (fun x => (val x * snd x)%Q) l))%Q /\
  (Qsum (map (fun x => (val x * snd x)%Q) l) <= hi * Qsum (map (fun x => snd x) l))%Q /\
  (0 <= Qsum (map (fun x => snd x) l))%Q /\
  (l <> [] -> (0 < Qsum (map (fun x => snd x) l))%Q).
Proof.
  induction l as [| x r IH]; intros H.
  - cbn [map]. rewrite Qsum_nil. repeat split; try (ring_simplify; apply Qle_refl).
    intros C; now elim C.
  - destruct IH as [Hlo [Hhi [Hnn _]]]; [intros y Hy; apply H; now right |].
    destruct (H x (or_introl eq_refl)) as [Hpos [Hl Hh]].
    cbn [map]. rewrite !Qsum_cons.
    assert (Hpos' : (0 <= snd x)%Q) by now apply Qlt_le_weak.
    split; [| split; [| split]].
    + setoid_replace (lo * (snd x + Qsum (map (fun x0 => snd x0) r)))%Q
        with (lo * snd x + lo * Qsum (map (fun x0 => snd x0) r))%Q by ring.
      apply Qplus_le_compat; [| exact Hlo].
      apply Qmult_le_compat_r; assumption.
    + setoid_replace (hi * (snd x + Qsum (map (fun x0 => snd x0) r)))%Q
        with (hi * snd x + hi * Qsum (map (fun x0 => snd x0) r))%Q by ring.
      apply Qplus_le_compat; [| exact Hhi].
      apply Qmult_le_compat_r; assumption.
    + setoid_replace 0%Q with (0 + 0)%Q by ring. now apply Qplus_le_compat.
    + intros _. setoid_replace 0%Q with (0 + 0)%Q by ring.
      now apply Qplus_lt_le_compat.
Qed.







(** ** Foundation and floor *)

Ltac split_pair H a b :=
  match type of H with
  | context [match ?x with pair _ _ => _ end] => destruct x as [a b]
  end.

Lemma round_to_nearest_ext (x y : Q) (vals : list Z) :
  (x == y)%Q -> round_to_nearest x vals = round_to_nearest y vals.
Proof.
  intros H. unfold round_to_nearest. apply py_min_ext.
  intros k. now rewrite H.
Qed.

Lemma nearest_eff_rvalue_ext (d : zdict Q) (x y : Q) :
  (x == y)%Q -> nearest_eff_rvalue d x = nearest_eff_rvalue d y.
Proof.
  intros H. unfold nearest_eff_rvalue. now rewrite (round_to_nearest_ext x y).
Qed.

Lemma hes_foundation_type_values (foundation : Foundation) (type : string) :
  hes_foundation_type foundation = Ok type ->
  In type ["cond_basement"; "uncond_basement"; "vented_crawl"; "unvented_crawl";
           "slab_on_grade"].
Proof.
  unfold hes_foundation_type.
  destruct (basement_conditioned foundation), (crawlspace_vented foundation);
    split_ifs; intros H; try discriminate H; injection H as <-; simpl; tauto.
Qed.

Lemma insulation_level_values (foundation : Foundation) (type : string) (level : Z) :
  get_foundation_insulation_level foundation type = Ok level ->
  In level (if type =s? "slab_on_grade" then [0; 5] else [0; 11; 19]).
Proof.
  unfold get_foundation_insulation_level. intros H. bind_inv H.
  split_pair H eff lvl.
  destruct (foundation_walls foundation) as [| fwall r];
    destruct (type =s? "slab_on_grade").
  - bind_inv E. split_pair E slabra slabtotalperimeter. bind_inv E.
    injection E as <- <-. exact (round_to_nearest_in _ _ _ H).
  - injection E as <- <-. vm_compute in H. injection H as <-. now left.
  - discriminate E.
  - bind_inv E. split_pair E fwra fwtotalarea. bind_inv E.
    injection E as <- <-. exact (round_to_nearest_in _ _ _ H).
Qed.

Lemma floor_assembly_code_values (foundation : Foundation) (code : string) :
  get_floor_assembly_code foundation = Ok code ->
  In code ["efwf00ca"; "efwf11ca"; "efwf13ca"; "efwf15ca"; "efwf19ca"; "efwf21ca";
           "efwf25ca"; "efwf30ca"; "efwf38ca"].
Proof.
  unfold get_floor_assembly_code.
  destruct (foundation_frame_floors foundation) as [| ff r].
  - intros H; injection H as <-. now left.
  - intros H. bind_inv H. split_pair H ffra fftotalarea. bind_inv H. bind_inv H.
    injection H as <-. apply round_to_nearest_in in E1. simpl in E1.
    repeat (destruct E1 as [<- | E1]; [simpl; tauto |]). destruct E1.
Qed.

(** X17: a zone floor that [_get_building_zone_floor] returns holds one of
    the five HEScore foundation types, an insulation level of the catalog
    (0 or 5 under a slab on grade, 0, 11 or 19 otherwise), which the
    validator's bounds 0 to 19 always accept, and one of the nine floor
    assembly codes. *)
Theorem zone_floor_within_catalog (foundations : list Foundation) (z : zone_floor) :
  _get_building_zone_floor foundations = Ok z ->
  In (foundation_type z)
     ["cond_basement"; "uncond_basement"; "vented_crawl"; "unvented_crawl";
      "slab_on_grade"] /\
  In (foundation_insulation_level z)
     (if foundation_type z =s? "slab_on_grade" then [0; 5] else [0; 11; 19]) /\
  In (floor_assembly_code z)
     ["efwf00ca"; "efwf11ca"; "efwf13ca"; "efwf15ca"; "efwf19ca"; "efwf21ca";
      "efwf25ca"; "efwf30ca"; "efwf38ca"] /\
  do_bounds_check "foundation_insulation_level"
    (PInt (foundation_insulation_level z)) (PInt 0) (PInt 19) = Ok tt.
Proof.
  unfold _get_building_zone_floor. intros H.
  bind_inv H. bind_inv H. bind_inv H. bind_inv H. injection H as <-.
  cbn [foundation_type foundation_insulation_level floor_assembly_code].
  pose proof (insulation_level_values _ _ _ E1) as Hl.
  split; [exact (hes_foundation_type_values _ _ E0) |].
  split; [exact Hl |].
  split; [exact (floor_assembly_code_values _ _ E2) |].
  apply int_check_passes.
  match type of Hl with
  | context [if ?b then _ else _] => destruct b
  end; simpl in Hl; lia.
Qed.

Lemma zone_floor_within_catalog_witness :
  let z := mkZoneFloor "uncond_basement" 11 "efwf30ca" in
  In (foundation_type z)
     ["cond_basement"; "uncond_basement"; "vented_crawl"; "unvented_crawl";
      "slab_on_grade"] /\
  In (foundation_insulation_level z)
     (if foundation_type z =s? "slab_on_grade" then [0; 5] else [0; 11; 19]) /\
  In (floor_assembly_code z)
     ["efwf00ca"; "efwf11ca"; "efwf13ca"; "efwf15ca"; "efwf19ca"; "efwf21ca";
      "efwf25ca"; "efwf30ca"; "efwf38ca"] /\
  do_bounds_check "foundation_insulation_level"
    (PInt (foundation_insulation_level z)) (PInt 0) (PInt 19) = Ok tt.
Proof.
  intros z.
  apply (zone_floor_within_catalog
           [mkFoundation "SlabOnGrade" false false []
              [mkSlab (Some (inject_Z 200)) (Some (inject_Z 60)) 0] [];
            mkFoundation "Basement" false false
              [mkFoundationWall None (Some (inject_Z 120)) (Some (inject_Z 8)) (inject_Z 13)]
              [mkSlab (Some (inject_Z 900)) None 0]
              [mkFrameFloor (Some (inject_Z 1000)) (inject_Z 25)]]).
  vm_compute. reflexivity.
Defined.

Lemma py_div_nonzero (x y : Q) : ~ (y == 0)%Q -> py_div x y = Ok (x / y)%Q.
Proof.
  intros H. unfold py_div. destruct (Qeq_bool y 0) eqn:E; [| reflexivity].
  apply Qeq_bool_eq in E. contradiction.
Qed.

Lemma single_frame_floor (foundation : Foundation) (ff : FrameFloor) (r k : Z) (e : Q) :
  foundation_frame_floors foundation = [ff] ->
  (forall a, ff_area ff = Some a -> ~ (a == 0)%Q) ->
  (ff_rvalue ff == inject_Z r)%Q ->
  nearest_eff_rvalue floor_eff_rvalues (inject_Z r) = Ok e ->
  round_to_nearest (e - inject_Z 4) (map fst floor_eff_rvalues) = Ok k ->
  get_floor_assembly_code foundation = Ok ("efwf" ++ fmt_02d k ++ "ca").
Proof.
  intros Hff Ha Hr He Hk. unfold get_floor_assembly_code. rewrite Hff.
  cbn [List.length framefloor_loop].
  rewrite (nearest_eff_rvalue_ext _ _ _ Hr), He.
  assert (Hgen : forall a, ~ (a == 0)%Q ->
    (mean <- py_div (0 + a * e) (0 + a) ;;
     k0 <- round_to_nearest (mean - inject_Z 4) (map fst floor_eff_rvalues) ;;
     Ok ("efwf" ++ fmt_02d k0 ++ "ca")) = Ok ("efwf" ++ fmt_02d k ++ "ca")).
  { intros a Hne. rewrite py_div_nonzero by (intros C; apply Hne; rewrite <- C; ring).
    cbn [bind].
    rewrite (round_to_nearest_ext _ (e - inject_Z 4)) by (field; exact Hne).
    now rewrite Hk. }
  destruct (ff_area ff) as [a |]; cbn [bind Nat.eqb].
  - apply Hgen. now apply Ha.
  - apply Hgen. discriminate.
Qed.

(** X18: the floor assembly code of a foundation with one frame floor,
    whose nominal R-value is one of the catalog's, names that R-value,
    except for R-25, which comes out as R-30. *)
Theorem single_frame_floor_roundtrip (foundation : Foundation) (ff : FrameFloor) (r : Z) :
  foundation_frame_floors foundation = [ff] ->
  (forall a, ff_area ff = Some a -> ~ (a == 0)%Q) ->
  In r (map fst floor_eff_rvalues) ->
  (ff_rvalue ff == inject_Z r)%Q ->
  get_floor_assembly_code foundation
  = Ok ("efwf" ++ fmt_02d (if r =? 25 then 30 else r) ++ "ca").
Proof.
  intros Hff Ha Hin Hr. simpl in Hin.
  repeat (destruct Hin as [<- | Hin];
          [erewrite single_frame_floor;
             [ | exact Hff | exact Ha | exact Hr
               | vm_compute; reflexivity | vm_compute; reflexivity ];
           reflexivity |]).
  destruct Hin.
Qed.

Lemma single_frame_floor_roundtrip_witness :
  get_floor_assembly_code
    (mkFoundation "Crawlspace" false true [] []
       [mkFrameFloor (Some (inject_Z 800)) (inject_Z 25)])
  = Ok ("efwf" ++ fmt_02d (if 25 =? 25 then 30 else 25) ++ "ca").
Proof.
  apply (single_frame_floor_roundtrip _ (mkFrameFloor (Some (inject_Z 800)) (inject_Z 25)) 25).
  - reflexivity.
  - intros a H; injection H as <-. discriminate.
  - simpl; tauto.
  - reflexivity.
Defined.

Lemma single_foundation_wall (foundation : Foundation) (fwall : FoundationWall)
    (type : string) (r k : Z) (e : Q) :
  foundation_walls foundation = [fwall] ->
  (type =s? "slab_on_grade") = false ->
  (forall a, fwall_area 1 fwall = Ok a -> ~ (a == 0)%Q) ->
  (fw_rvalue fwall == inject_Z r)%Q ->
  nearest_eff_rvalue (zdict_del fw_eff_rvalues 5) (inject_Z r) = Ok e ->
  round_to_nearest (e - inject_Z 4) (map fst (zdict_del fw_eff_rvalues 5)) = Ok k ->
  get_foundation_insulation_level foundation type = Ok k.
Proof.
  intros Hfw Ht Ha Hr He Hk. unfold get_foundation_insulation_level. rewrite Hfw, Ht.
  cbn [List.length fwall_loop].
  destruct (fwall_area 1 fwall) as [a | ex] eqn:Ea.
  - cbn [bind]. rewrite (nearest_eff_rvalue_ext _ _ _ Hr), He. cbn [bind].
    specialize (Ha a eq_refl).
    rewrite py_div_nonzero by (intros C; apply Ha; rewrite <- C; ring).
    cbn [bind].
    rewrite (round_to_nearest_ext _ (e - inject_Z 4)) by (field; exact Ha).
    exact Hk.
  - exfalso. unfold fwall_area in Ea.
    destruct (fw_area fwall); [discriminate |].
    destruct (fw_length fwall), (fw_height fwall); discriminate.
Qed.

(** X19: the insulation level of a foundation, not a slab on grade, with
    one foundation wall whose nominal R-value is 0, 11 or 19 is that
    R-value; a wall of R-5, the slab's value, comes out as 0.  The area of
    the wall, given or from length and height or absent, does not matter
    as long as it is not zero. *)
Theorem single_foundation_wall_roundtrip
  (foundation : Foundation) (fwall : FoundationWall) (type : string) (r : Z) :
  foundation_walls foundation = [fwall] ->
  (type =s? "slab_on_grade") = false ->
  (forall a, fwall_area 1 fwall = Ok a -> ~ (a == 0)%Q) ->
  In r (map fst fw_eff_rvalues) ->
  (fw_rvalue fwall == inject_Z r)%Q ->
  get_foundation_insulation_level foundation type = Ok (if r =? 5 then 0 else r).
Proof.
  intros Hfw Ht Ha Hin Hr. simpl in Hin.
  repeat (destruct Hin as [<- | Hin];
          [eapply single_foundation_wall;
             [ exact Hfw | exact Ht | exact Ha | exact Hr
             | vm_compute; reflexivity | vm_compute; reflexivity ] |]).
  destruct Hin.
Qed.

Lemma single_foundation_wall_roundtrip_witness :
  get_foundation_insulation_level
    (mkFoundation "Basement" false false
       [mkFoundationWall None (Some (inject_Z 120)) (Some (inject_Z 8)) (inject_Z 19)] [] [])
    "uncond_basement"
  = Ok (if 19 =? 5 then 0 else 19).
Proof.
  apply (single_foundation_wall_roundtrip _
           (mkFoundationWall None (Some (inject_Z 120)) (Some (inject_Z 8)) (inject_Z 19))).
  - reflexivity.
  - reflexivity.
  - intros a H; injection H as <-. discriminate.
  - simpl; tauto.
  - reflexivity.
Defined.

Lemma zdict_get_keys {V : Type} (d : zdict V) (k : Z) :
  In k (map fst d) -> exists v, zdict_get d k = Some v.
Proof.
  induction d as [| [k0 v0] r IH]; simpl; [intros [] |].
  destruct (Z.eqb_spec k k0) as [-> | Hk]; [eauto |].
  intros [H | H]; [congruence | auto].
Qed.

Lemma nearest_eff_rvalue_total (d : zdict Q) (v : Q) :
  d <> [] -> exists e, nearest_eff_rvalue d v = Ok e.
Proof.
  intros Hne. unfold nearest_eff_rvalue.
  destruct (round_to_nearest v (map fst d)) as [k | ex] eqn:E.
  - cbn [bind]. apply round_to_nearest_in in E.
    destruct (zdict_get_keys d k E) as [e He]. exists e.
    unfold zdict_item. now rewrite He.
  - exfalso. unfold round_to_nearest, py_min in E.
    destruct d; [now elim Hne | discriminate E].
Qed.

Lemma framefloor_loop_needs_areas (n : nat) (framefloors : list FrameFloor) :
  n <> 1%nat ->
  (exists ff, In ff framefloors /\ ff_area ff = None) ->
  forall ffra fftotalarea,
    framefloor_loop n framefloors ffra fftotalarea
    = Raise (TranslationError
               "If there is more than one FrameFloor, an Area is required for each.").
Proof.
  intros Hn. apply Nat.eqb_neq in Hn.
  induction framefloors as [| x r IH]; intros [ff [Hin Hnone]] ffra fftotalarea;
    [destruct Hin |].
  cbn [framefloor_loop].
  destruct (ff_area x) as [a |] eqn:Ea.
  - cbn [bind].
    destruct (nearest_eff_rvalue_total floor_eff_rvalues (ff_rvalue x)) as [e He];
      [discriminate |].
    rewrite He. cbn [bind]. apply IH.
    destruct Hin as [<- | Hin]; [congruence | eauto].
  - rewrite Hn. reflexivity.
Qed.

(** X20: when the foundation that covers the most floor area has several
    frame floors and one of them has no area, the translation of the floor
    fails with the error that asks for an area on each. *)
Theorem several_frame_floors_need_areas
  (foundations : list Foundation) (foundation : Foundation) :
  py_max foundation_area foundations = Ok foundation ->
  (2 <= List.length (foundation_frame_floors foundation))%nat ->
  (exists ff, In ff (foundation_frame_floors foundation) /\ ff_area ff = None) ->
  get_floor_assembly_code foundation
  = Raise (TranslationError
             "If there is more than one FrameFloor, an Area is required for each.") /\
  forall z, _get_building_zone_floor foundations <> Ok z.
Proof.
  intros Hmax Hlen Hex.
  assert (Hcode : get_floor_assembly_code foundation
                  = Raise (TranslationError
                      "If there is more than one FrameFloor, an Area is required for each.")).
  { unfold get_floor_assembly_code.
    destruct (foundation_frame_floors foundation) as [| x r] eqn:E;
      [simpl in Hlen; lia |].
    rewrite framefloor_loop_needs_areas; [reflexivity | simpl in *; lia | exact Hex]. }
  split; [exact Hcode |].
  intros z H. unfold _get_building_zone_floor in H. rewrite Hmax in H. cbn [bind] in H.
  bind_inv H. bind_inv H. rewrite Hcode in H. discriminate H.
Qed.

Lemma several_frame_floors_need_areas_witness :
  let foundation :=
    mkFoundation "Crawlspace" false true [] []
      [mkFrameFloor (Some (inject_Z 800)) (inject_Z 19); mkFrameFloor None (inject_Z 19)] in
  get_floor_assembly_code foundation
  = Raise (TranslationError
             "If there is more than one FrameFloor, an Area is required for each.") /\
  forall z, _get_building_zone_floor [foundation] <> Ok z.
Proof.
  intros foundation. apply several_frame_floors_need_areas.
  - reflexivity.
  - simpl; lia.
  - exists (mkFrameFloor None (inject_Z 19)). split; [simpl; tauto | reflexivity].
Defined.

(** ** Skylights *)

Lemma Qltb_ge (a b : Q) : (b <= a)%Q -> Qltb a b = false.
Proof.
  intros H. destruct (Qltb a b) eqn:E; [| reflexivity].
  apply Qltb_lt in E. exfalso. exact (Qlt_not_le _ _ E H).
Qed.

Lemma rated_skylights_in (skylights : list Skylight) (u g a : Q) :
  In (u, g, a) (rated_skylights skylights) <->
  exists s, In s skylights /\ sk_ufactor s = Some u /\ sk_shgc s = Some g /\
            sk_area s = Some a.
Proof.
  unfold rated_skylights. rewrite in_flat_map. split.
  - intros [s [Hs Hin]]. exists s.
    destruct (sk_ufactor s) as [u' |]; [| destruct Hin].
    destruct (sk_shgc s) as [g' |]; [| destruct Hin].
    destruct (sk_area s) as [a' |]; [| destruct Hin].
    destruct Hin as [E | []]. injection E as -> -> ->. auto.
  - intros [s [Hs [Hu [Hg Ha]]]]. exists s. rewrite Hu, Hg, Ha.
    split; [exact Hs | now left].
Qed.

(** ** Domestic hot water *)

Ltac bind_inv_as H x E :=
  match type of H with
  | bind ?c _ = Ok _ => destruct c as [x |] eqn:E; cbn [bind] in H; [| discriminate H]
  end.

Lemma is_str_eq (v : pyval) (s : string) : is_str v s = true -> v = PStr s.
Proof.
  destruct v; simpl; try discriminate. intros H. apply String.eqb_eq in H. now subst.
Qed.

Lemma require_boiler_ok (sys_heating : dict pyval) (msg : string) :
  require_boiler sys_heating msg = Ok tt ->
  dict_get sys_heating "type" = Some (PStr "boiler").
Proof.
  unfold require_boiler, dict_item.
  destruct (dict_get sys_heating "type") as [t |]; [| discriminate]. cbn [bind].
  destruct (is_str t "boiler") eqn:E; [| discriminate].
  intros _. f_equal. now apply is_str_eq.
Qed.

(** X22: the water heater that [_get_systems_dhw] returns is either a
    unit with an efficiency method (the energy factor, or a year that is
    never before 1972) or a combined system, which has no efficiency method
    and is only returned when the heating system is a boiler. *)
Theorem dhw_unit_or_combined_with_boiler
  (water_heating_systems : list WaterHeater) (sys_heating dhw : dict pyval) :
  _get_systems_dhw water_heating_systems sys_heating = Ok dhw ->
  (dict_get dhw "category" = Some (PStr "unit") /\
   ((dict_get dhw "efficiency_method" = Some (PStr "user") /\
     (exists q, dict_get dhw "energy_factor" = Some (PFloat q)) /\
     dict_get dhw "year" = None) \/
    (dict_get dhw "efficiency_method" = Some (PStr "shipment_weighted") /\
     (exists y, dict_get dhw "year" = Some (PInt y) /\ 1972 <= y) /\
     dict_get dhw "energy_factor" = None))) \/
  (dict_get dhw "category" = Some (PStr "combined") /\
   dict_get dhw "efficiency_method" = None /\
   dict_get sys_heating "type" = Some (PStr "boiler")).
Proof.
  unfold _get_systems_dhw. intros H. bind_inv_as H w Ep. bind_inv_as H sd E0.
  assert (Hunit : forall sys_dhw,
    dict_get sys_dhw "category" = Some (PStr "unit") ->
    dict_get sys_dhw "efficiency_method" = None ->
    dict_get sys_dhw "energy_factor" = None ->
    dict_get sys_dhw "year" = None ->
    (category <- dict_item sys_dhw "category" ;;
     if negb (is_str category "combined") then
       match wh_energy_factor w with
       | Some energyfactor =>
           Ok (dict_set (dict_set sys_dhw "efficiency_method" (PStr "user"))
                 "energy_factor" (PFloat (py_round2 energyfactor)))
       | None =>
           dhwyear <- int_opt (wh_year w) ;;
           let dhwyear := if dhwyear <? 1972 then 1972 else dhwyear in
           Ok (dict_set (dict_set sys_dhw "efficiency_method" (PStr "shipment_weighted"))
                 "year" (PInt dhwyear))
       end
     else Ok sys_dhw) = Ok dhw ->
    dict_get dhw "category" = Some (PStr "unit") /\
    ((dict_get dhw "efficiency_method" = Some (PStr "user") /\
      (exists q, dict_get dhw "energy_factor" = Some (PFloat q)) /\
      dict_get dhw "year" = None) \/
     (dict_get dhw "efficiency_method" = Some (PStr "shipment_weighted") /\
      (exists y, dict_get dhw "year" = Some (PInt y) /\ 1972 <= y) /\
      dict_get dhw "energy_factor" = None))).
  { intros sys_dhw Hc Hm He Hy. unfold dict_item. rewrite Hc. cbn [bind is_str].
    change ("unit" =s? "combined") with false. cbn [negb].
    destruct (wh_energy_factor w) as [ef |].
    - intros X; injection X as <-.
      repeat (rewrite dict_get_set_eq || rewrite dict_get_set_neq by discriminate).
      split; [exact Hc |]. left. split; [reflexivity |]. split; [eauto | exact Hy].
    - destruct (wh_year w) as [y |]; [| discriminate]. cbn [int_opt bind].
      intros X; injection X as <-.
      repeat (rewrite dict_get_set_eq || rewrite dict_get_set_neq by discriminate).
      split; [exact Hc |]. right. split; [reflexivity |]. split; [| exact He].
      eexists. split; [reflexivity |]. destruct (Z.ltb_spec y 1972); lia. }
  destruct (opt_in (water_heater_type w) _).
  - bind_inv_as E0 fuel Ef. injection E0 as <-. left.
    refine (Hunit _ _ _ _ _ H); reflexivity.
  - destruct (opt_str_eqb (water_heater_type w) (Some "space-heating boiler with storage tank")).
    + bind_inv_as E0 u E1. destruct u. injection E0 as <-. right.
      cbn in H. injection H as <-.
      split; [reflexivity |]. split; [reflexivity |]. exact (require_boiler_ok _ _ E1).
    + destruct (opt_str_eqb (water_heater_type w)
                  (Some "space-heating boiler with tankless coil")).
      * bind_inv_as E0 u E1. destruct u. injection E0 as <-. right.
        cbn in H. injection H as <-.
        split; [reflexivity |]. split; [reflexivity |]. exact (require_boiler_ok _ _ E1).
      * destruct (opt_str_eqb (water_heater_type w) (Some "heat pump water heater"));
          [| discriminate E0].
        injection E0 as <-. left. refine (Hunit _ _ _ _ _ H); reflexivity.
Qed.

Lemma dhw_unit_or_combined_with_boiler_witness :
  let dhw := [("category", PStr "unit"); ("type", PStr "storage");
              ("fuel_primary", PStr "natural_gas");
              ("efficiency_method", PStr "shipment_weighted"); ("year", PInt 1972)] in
  let sys_heating := [("type", PStr "central_furnace")] in
  (dict_get dhw "category" = Some (PStr "unit") /\
   ((dict_get dhw "efficiency_method" = Some (PStr "user") /\
     (exists q, dict_get dhw "energy_factor" = Some (PFloat q)) /\
     dict_get dhw "year" = None) \/
    (dict_get dhw "efficiency_method" = Some (PStr "shipment_weighted") /\
     (exists y, dict_get dhw "year" = Some (PInt y) /\ 1972 <= y) /\
     dict_get dhw "energy_factor" = None))) \/
  (dict_get dhw "category" = Some (PStr "combined") /\
   dict_get dhw "efficiency_method" = None /\
   dict_get sys_heating "type" = Some (PStr "boiler")).
Proof.
  intros dhw sys_heating.
  apply (dhw_unit_or_combined_with_boiler
           [mkWaterHeater (Some "heat pump water heater") None (Some (d1 2)) (Some (d1 20)) None;
            mkWaterHeater (Some "storage water heater") (Some "natural gas") (Some (d1 8))
              None (Some 1965)]).
  reflexivity.
Defined.

(** ** Heating and cooling systems, once more *)

(** X23: an electric-resistance heating system never translates when it
    is the primary system or the only unit.  With a fuel that maps to
    electric the system is classified without an efficiency method, and the
    lookup of that key in the selected system fails; with another fuel the
    lookup of the efficiency units of a baseboard fails; with an unknown
    fuel the fuel lookup fails. *)
Theorem electric_resistance_heating_fails (u : HVACUnit) (units : list HVACUnit) :
  endswith (tag u) "HeatPump" = false ->
  endswith (tag u) "HeatingSystem" = true ->
  hpxml_heating_type u = "ElectricResistance" ->
  let failure :=
    match dict_item_opt fuel_type_mapping (heating_system_fuel u) with
    | Ok fuel => KeyError (if fuel =s? "electric" then "efficiency_method" else "baseboard")
    | Raise e => e
    end in
  _get_systems_heating (Some u) units = Raise failure /\
  _get_systems_heating None [u] = Raise failure.
Proof.
  intros Hhp Hhs Hty failure. subst failure.
  assert (Hc : get_heating_system_type u =
    match dict_item_opt fuel_type_mapping (heating_system_fuel u) with
    | Ok fuel =>
        if fuel =s? "electric"
        then Ok (mkSysd "baseboard" (Some fuel) None None None (heating_capacity u))
        else Raise (KeyError "baseboard")
    | Raise e => Raise e
    end).
  { unfold get_heating_system_type. rewrite Hhp, Hhs, Hty.
    destruct (dict_item_opt fuel_type_mapping (heating_system_fuel u)) as [fuel |];
      [| reflexivity].
    cbn [bind]. change (dict_item _ "ElectricResistance") with (@Ok string "baseboard").
    cbn [bind]. change (str_in "baseboard" ["furnace"; "baseboard"]) with true.
    cbn [andb]. destruct (fuel =s? "electric"); reflexivity. }
  unfold _get_systems_heating, collect_systems. cbn [classify_units]. rewrite Hc.
  destruct (dict_item_opt fuel_type_mapping (heating_system_fuel u)) as [fuel | e] eqn:Ef.
  - destruct (fuel =s? "electric") eqn:Ee.
    + apply String.eqb_eq in Ee. subst fuel.
      destruct (heating_capacity u) as [c |]; split; vm_compute; reflexivity.
    + split; reflexivity.
  - split; [reflexivity |].
    destruct e; reflexivity.
Qed.

Lemma electric_resistance_heating_fails_witness :
  let u := mkHVACUnit "{http://hpxmlonline.com/2014/6}HeatingSystem" None
             (Some "electricity") "ElectricResistance" [] None [] [2005]
             (Some (inject_Z 30000)) None in
  _get_systems_heating (Some u) [] = Raise (KeyError "efficiency_method") /\
  _get_systems_heating None [u] = Raise (KeyError "efficiency_method").
Proof.
  intros u.
  apply (electric_resistance_heating_fails u []); reflexivity.
Defined.

Lemma select_system_year (groups : list (dict pyval)) (sys : dict pyval) :
  select_system groups = Ok sys ->
  dict_get sys "efficiency_method" = Some (PStr "shipment_weighted") ->
  exists y, dict_get sys "year" = Some (PInt y) /\ 1970 <= y.
Proof.
  unfold select_system. destruct groups as [| g r].
  - intros H; injection H as <-. discriminate.
  - intros H Hm. bind_inv_as H best Eb. bind_inv_as H sys0 Ed. bind_inv_as H method Em.
    unfold dict_item in Em.
    destruct (dict_get sys0 "efficiency_method") as [m0 |] eqn:Eg; [| discriminate Em].
    injection Em as ->.
    destruct method as [| | | | m |]; try (injection H as <-; congruence).
    destruct (m =s? "shipment_weighted") eqn:Esw.
    + bind_inv_as H year Ey. unfold dict_item in Ey.
      destruct (dict_get sys0 "year") as [y0 |] eqn:Egy; [| discriminate Ey].
      injection Ey as ->.
      destruct year as [| | y | | |]; try discriminate H.
      destruct (Z.ltb_spec y 1970); injection H as <-.
      * exists 1970. rewrite dict_get_set_eq. split; [reflexivity | lia].
      * exists y. split; [exact Egy | lia].
    + injection H as <-. rewrite Eg in Hm. injection Hm as ->. discriminate Esw.
Qed.

(** X24: when the heating or the cooling system returned is rated by its
    year (shipment weighted), that year is an integer not before 1970: the
    lower bound that the validator puts on the year can never be the one
    that fails. *)
Theorem system_year_not_before_1970
  (primary : option HVACUnit) (units : list HVACUnit) (sys : dict pyval) :
  _get_systems_heating primary units = Ok sys \/
  _get_systems_cooling primary units = Ok sys ->
  dict_get sys "efficiency_method" = Some (PStr "shipment_weighted") ->
  exists y, dict_get sys "year" = Some (PInt y) /\ 1970 <= y.
Proof.
  intros [H | H] Hm.
  - unfold _get_systems_heating in H.
    bind_inv_as H s1 E1. bind_inv_as H s2 E2. bind_inv_as H s3 E3. bind_inv_as H s4 E4.
    exact (select_system_year _ _ H Hm).
  - unfold _get_systems_cooling in H.
    bind_inv_as H s1 E1. bind_inv_as H s2 E2. bind_inv_as H s3 E3. bind_inv_as H s4 E4.
    exact (select_system_year _ _ H Hm).
Qed.

Lemma system_year_not_before_1970_witness :
  exists y,
    dict_get [("type", PStr "central_furnace"); ("fuel_primary", PStr "natural_gas");
              ("efficiency_method", PStr "shipment_weighted"); ("year", PInt 1970)] "year"
    = Some (PInt y) /\ 1970 <= y.
Proof.
  apply (system_year_not_before_1970 None
           [mkHVACUnit "{http://hpxmlonline.com/2014/6}HeatingSystem" None
              (Some "natural gas") "Furnace" [] None [] [1955] (Some (inject_Z 60000)) None]).
  - left. vm_compute. reflexivity.
  - reflexivity.
Defined.

(** ** The validator, read backwards *)

Ltac validate_inv H :=
  repeat match type of H with
         | bind ?c _ = Ok _ =>
             let E := fresh "E" in
             lazymatch type of c with
             | result unit => destruct c as [[] |] eqn:E
             | _ => destruct c as [? |] eqn:E
             end;
             cbn [bind] in H; [| discriminate H]
         end.

Lemma int_check_ok (f : string) (v lo hi : Z) :
  do_bounds_check f (PInt v) (PInt lo) (PInt hi) = Ok tt -> lo <= v <= hi.
Proof.
  unfold do_bounds_check. cbn [py_lt bind].
  destruct (Z.ltb_spec v lo); [discriminate |]. cbn [bind].
  destruct (Z.ltb_spec hi v); [discriminate |]. lia.
Qed.

Lemma float_check_ok (f : string) (v : Q) (lo hi : Z) :
  do_bounds_check f (PFloat v) (PInt lo) (PInt hi) = Ok tt ->
  (inject_Z lo <= v)%Q /\ (v <= inject_Z hi)%Q.
Proof.
  unfold do_bounds_check. cbn [py_lt bind].
  destruct (Qltb v (inject_Z lo)) eqn:E1; [discriminate |]. cbn [bind].
  destruct (Qltb (inject_Z hi) v) eqn:E2; [discriminate |]. intros _.
  split; now apply Qltb_false_le.
Qed.

Lemma for_each_ok {A : Type} (body : A -> result unit) (l : list A) :
  for_each body l = Ok tt -> forall x, In x l -> body x = Ok tt.
Proof.
  induction l as [| y r IH]; simpl; [intros _ x [] |].
  destruct (body y) as [[] |] eqn:E; [| discriminate]. cbn [bind].
  intros H x [<- | Hx]; [exact E | now apply IH].
Qed.

Lemma validate_system_ok (sys : dict pyval) (eff_field year_field : string)
    (eff_min eff_max : pyval) (year_min this_year : Z) :
  validate_system sys eff_field year_field eff_min eff_max year_min this_year = Ok tt ->
  dict_get sys "efficiency_method" = Some (PStr "user") \/
  dict_get sys "efficiency_method" = Some (PStr "shipment_weighted").
Proof.
  unfold validate_system, dict_item.
  destruct (dict_get sys "efficiency_method") as [m |]; [| discriminate]. cbn [bind].
  destruct (is_str m "user") eqn:E1; [apply is_str_eq in E1; subst; auto |].
  destruct (is_str m "shipment_weighted") eqn:E2; [| discriminate].
  apply is_str_eq in E2; subst; auto.
Qed.

Lemma validate_ok_parts (today : Z * Z * Z) (inputs : hescore_inputs) :
  _validate_hescore_inputs today inputs = Ok tt ->
  let a := hi_about inputs in
  let this_year := fst (fst today) in
  (1600 <= year_built a <= this_year /\
   1 <= number_bedrooms a <= 10 /\
   1 <= num_floor_above_grade a <= 4 /\
   6 <= floor_to_ceiling_height a <= 12 /\
   250 <= conditioned_floor_area a <= 25000) /\
  for_each validate_skylight (hi_zone_roof inputs) = Ok tt /\
  0 <= hi_foundation_insulation_level inputs <= 19 /\
  for_each validate_window (hi_zone_wall inputs) = Ok tt /\
  validate_system (hi_heating inputs) "heating_efficiency" "heating_year"
    (PFloat (d1 1)) (PInt 20) 1970 this_year = Ok tt /\
  validate_system (hi_cooling inputs) "cooling_efficiency" "cooling_year"
    (PFloat (d1 1)) (PInt 30) 1970 this_year = Ok tt /\
  exists ducts,
    hi_hvac_distribution inputs = Some ducts /\
    forall h, In h ducts -> 0 <= fraction h <= 100.
Proof.
  unfold _validate_hescore_inputs. intros H. cbv zeta in H. validate_inv H.
  cbv zeta.
  repeat match goal with
         | X : do_bounds_check _ (PInt _) (PInt _) (PInt _) = Ok tt |- _ =>
             apply int_check_ok in X
         end.
  split; [repeat split; lia |].
  split; [reflexivity |]. split; [lia |]. do 3 (split; [reflexivity |]).
  match goal with
  | X : key_opt _ (hi_hvac_distribution inputs) = Ok ?l |- _ =>
      exists l; destruct (hi_hvac_distribution inputs); [| discriminate X];
      injection X as ->
  end.
  split; [reflexivity |].
  intros h Hh.
  match goal with
  | X : for_each _ _ = Ok tt |- _ <= fraction h <= _ =>
      exact (int_check_ok _ _ _ _ (for_each_ok _ _ X h Hh))
  end.
Qed.

(** X25: inputs that the validator accepts have a year built from 1600 to
    this year, 1 to 10 bedrooms, 1 to 4 floors above grade, a ceiling
    height from 6 to 12, a conditioned floor area from 250 to 25000, a
    foundation insulation level from 0 to 19, skylight areas from 0 to 300
    and window areas from 0 to 999, a heating and a cooling system rated
    by efficiency or by year, and a list of ducts whose fractions are
    from 0 to 100. *)
Theorem validated_inputs_within_bounds (today : Z * Z * Z) (inputs : hescore_inputs) :
  _validate_hescore_inputs today inputs = Ok tt ->
  let a := hi_about inputs in
  let this_year := fst (fst today) in
  1600 <= year_built a <= this_year /\
  1 <= number_bedrooms a <= 10 /\
  1 <= num_floor_above_grade a <= 4 /\
  6 <= floor_to_ceiling_height a <= 12 /\
  250 <= conditioned_floor_area a <= 25000 /\
  0 <= hi_foundation_insulation_level inputs <= 19 /\
  (forall z, In z (hi_zone_roof inputs) ->
     (inject_Z 0 <= skylight_area z)%Q /\ (skylight_area z <= inject_Z 300)%Q) /\
  (forall z, In z (hi_zone_wall inputs) ->
     (inject_Z 0 <= window_area z)%Q /\ (window_area z <= inject_Z 999)%Q) /\
  (forall sys, sys = hi_heating inputs \/ sys = hi_cooling inputs ->
     dict_get sys "efficiency_method" = Some (PStr "user") \/
     dict_get sys "efficiency_method" = Some (PStr "shipment_weighted")) /\
  exists ducts,
    hi_hvac_distribution inputs = Some ducts /\
    forall h, In h ducts -> 0 <= fraction h <= 100.
Proof.
  intros H. destruct (validate_ok_parts today inputs H)
    as [[Hy [Hb [Hf [Hh Ha]]]] [Hroof [Hl [Hwall [Hheat [Hcool Hducts]]]]]].
  cbv zeta. repeat (split; [assumption |]).
  split; [| split; [| split; [| exact Hducts]]].
  - intros z Hz. pose proof (for_each_ok _ _ Hroof z Hz) as Hs.
    unfold validate_skylight in Hs.
    destruct (do_bounds_check "skylight_area" _ _ _) as [[] |] eqn:E; [| discriminate Hs].
    exact (float_check_ok _ _ _ _ E).
  - intros z Hz. pose proof (for_each_ok _ _ Hwall z Hz) as Hs.
    unfold validate_window in Hs.
    destruct (do_bounds_check "window_area" _ _ _) as [[] |] eqn:E; [| discriminate Hs].
    exact (float_check_ok _ _ _ _ E).
  - intros sys [-> | ->]; eapply validate_system_ok; eassumption.
Qed.

(** X26: a house without any heating unit, or without any cooling unit,
    translates to a system of type none, which has no efficiency method:
    the validator never accepts inputs that hold it. *)
Theorem house_without_system_never_validates
  (today : Z * Z * Z) (inputs : hescore_inputs) :
  _get_systems_heating None [] = Ok (hi_heating inputs) \/
  _get_systems_cooling None [] = Ok (hi_cooling inputs) ->
  _validate_hescore_inputs today inputs <> Ok tt.
Proof.
  intros Hnone H.
  destruct (validate_ok_parts today inputs H) as [_ [_ [_ [_ [Hheat [Hcool _]]]]]].
  apply validate_system_ok in Hheat, Hcool.
  destruct Hnone as [Hn | Hn].
  - change (Ok [("type", PStr "none")] = Ok (hi_heating inputs)) in Hn.
    injection Hn as Hn. rewrite <- Hn in Hheat.
    destruct Hheat as [X | X]; discriminate X.
  - change (Ok [("type", PStr "none")] = Ok (hi_cooling inputs)) in Hn.
    injection Hn as Hn. rewrite <- Hn in Hcool.
    destruct Hcool as [X | X]; discriminate X.
Qed.

Lemma validated_inputs_within_bounds_witness :
  let inputs :=
    sample_inputs [("type", PStr "central_furnace"); ("fuel_primary", PStr "natural_gas");
                   ("efficiency_method", PStr "shipment_weighted"); ("year", PInt 1985)] in
  let a := hi_about inputs in
  let this_year := fst (fst (2026, 11, 3)) in
  1600 <= year_built a <= this_year /\
  1 <= number_bedrooms a <= 10 /\
  1 <= num_floor_above_grade a <= 4 /\
  6 <= floor_to_ceiling_height a <= 12 /\
  250 <= conditioned_floor_area a <= 25000 /\
  0 <= hi_foundation_insulation_level inputs <= 19 /\
  (forall z, In z (hi_zone_roof inputs) ->
     (inject_Z 0 <= skylight_area z)%Q /\ (skylight_area z <= inject_Z 300)%Q) /\
  (forall z, In z (hi_zone_wall inputs) ->
     (inject_Z 0 <= window_area z)%Q /\ (window_area z <= inject_Z 999)%Q) /\
  (forall sys, sys = hi_heating inputs \/ sys = hi_cooling inputs ->
     dict_get sys "efficiency_method" = Some (PStr "user") \/
     dict_get sys "efficiency_method" = Some (PStr "shipment_weighted")) /\
  exists ducts,
    hi_hvac_distribution inputs = Some ducts /\
    forall h, In h ducts -> 0 <= fraction h <= 100.
Proof.
  intros inputs.
  apply (validated_inputs_within_bounds (2026, 11, 3) inputs).
  vm_compute. reflexivity.
Defined.

Lemma house_without_system_never_validates_witness :
  _validate_hescore_inputs (2026, 11, 3) (sample_inputs [("type", PStr "none")]) <> Ok tt.
Proof.
  apply house_without_system_never_validates.
  left. reflexivity.
Defined.

(** ** Hidden keys *)

Lemma pytree_nested_ind (P : pytree -> Prop) :
  (forall v, P (TLeaf v)) ->
  (forall items, Forall (fun kv : string * pytree => P (snd kv)) items -> P (TDict items)) ->
  (forall items, Forall P items -> P (TList items)) ->
  forall d, P d.
Proof.
  intros Hleaf Hdict Hlist. fix IH 1. intros [v | items | items].
  - apply Hleaf.
  - apply Hdict. induction items as [| [k v] r IHr]; constructor; [apply IH | exact IHr].
  - apply Hlist. induction items as [| v r IHr]; constructor; [apply IH | exact IHr].
Qed.

Lemma remove_hidden_keys_clean (d : pytree) :
  has_hidden_key (_remove_hidden_keys d) = false.
Proof.
  induction d as [v | items IH | items IH] using pytree_nested_ind; simpl.
  - reflexivity.
  - induction IH as [| [k v] r Hv _ IHr]; [reflexivity |].
    destruct (String.prefix "_" k) eqn:E; [exact IHr |].
    cbn [snd] in Hv. rewrite E, Hv, IHr. reflexivity.
  - induction IH as [| v r Hv _ IHr]; [reflexivity |].
    cbn [map]. rewrite Hv, IHr. reflexivity.
Qed.

Lemma remove_hidden_keys_fixed (d : pytree) :
  has_hidden_key d = false -> _remove_hidden_keys d = d.
Proof.
  induction d as [v | items IH | items IH] using pytree_nested_ind; simpl.
  - reflexivity.
  - intros H. f_equal. induction IH as [| [k v] r Hv _ IHr]; [reflexivity |].
    apply orb_false_iff in H as [H Hr]. apply orb_false_iff in H as [Hk Hh].
    rewrite Hk. cbn [snd] in Hv. rewrite (Hv Hh), (IHr Hr). reflexivity.
  - intros H. f_equal. induction IH as [| v r Hv _ IHr]; [reflexivity |].
    apply orb_false_iff in H as [Hh Hr].
    cbn [map]. rewrite (Hv Hh), (IHr Hr). reflexivity.
Qed.

Lemma remove_hidden_keys_path (path : list string) :
  forall d,
    Forall (fun k => String.prefix "_" k = false) path ->
    tree_path (_remove_hidden_keys d) path
    = option_map _remove_hidden_keys (tree_path d path).
Proof.
  induction path as [| k r IH]; intros d Hp; [reflexivity |].
  inversion Hp as [| ? ? Hk Hr]; subst.
  destruct d as [v | items | items]; [reflexivity | | reflexivity].
  cbn [_remove_hidden_keys tree_path].
  induction items as [| [k' v'] items' IHi]; [reflexivity |].
  cbn [dict_get].
  destruct (String.prefix "_" k') eqn:E.
  - destruct (String.eqb_spec k k') as [-> | Hne]; [congruence | exact IHi].
  - cbn [dict_get]. destruct (String.eqb_spec k k') as [-> | Hne]; [| exact IHi].
    now apply IH.
Qed.

(** X27: [_remove_hidden_keys] leaves no key that starts with an
    underscore in any dictionary at any depth, changes nothing in a value
    that has none, and so does nothing when applied twice; what stands
    under a path of visible keys still stands there, cleaned. *)
Theorem remove_hidden_keys_removes_all (d : pytree) :
  has_hidden_key (_remove_hidden_keys d) = false /\
  _remove_hidden_keys (_remove_hidden_keys d) = _remove_hidden_keys d /\
  (has_hidden_key d = false -> _remove_hidden_keys d = d) /\
  (forall path,
     Forall (fun k => String.prefix "_" k = false) path ->
     tree_path (_remove_hidden_keys d) path
     = option_map _remove_hidden_keys (tree_path d path)).
Proof.
  split; [apply remove_hidden_keys_clean |].
  split; [apply remove_hidden_keys_fixed, remove_hidden_keys_clean |].
  split; [apply remove_hidden_keys_fixed |].
  intros path. apply remove_hidden_keys_path.
Qed.

Lemma remove_hidden_keys_removes_all_witness :
  let d := TDict [("building",
                   TDict [("zone_roof",
                           TList [TDict [("roof_area", TLeaf (PInt 1200));
                                         ("_roofids", TLeaf (PStr "roof1"))]])])] in
  has_hidden_key d = true /\
  has_hidden_key (_remove_hidden_keys d) = false /\
  tree_path (_remove_hidden_keys d) ["building"; "zone_roof"]
  = Some (TList [TDict [("roof_area", TLeaf (PInt 1200))]]).
Proof.
  intros d. split; [reflexivity |].
  destruct (remove_hidden_keys_removes_all d) as [Hc [_ [_ Hp]]].
  split; [exact Hc |].
  rewrite (Hp ["building"; "zone_roof"]); [reflexivity |].
  repeat constructor.
Defined.

(** ** The primary water heater *)

(** X28: [_get_systems_dhw] fails for want of a water heater only when
    there is none.  The primary water heater is one of the document's: the
    only one; or, among several that all state the fraction of the load
    they serve, one that serves the largest; or the first, as soon as one
    of several states no fraction. *)
Theorem primary_dhw_choice (water_heating_systems : list WaterHeater) :
  match primary_dhw water_heating_systems with
  | Raise e =>
      water_heating_systems = [] /\ e = TranslationError "No water heating systems found."
  | Ok primarydhw =>
      In primarydhw water_heating_systems /\
      ((2 <= List.length water_heating_systems)%nat ->
       (exists w, In w water_heating_systems /\ fraction_dhw_load_served w = None) ->
       hd_error water_heating_systems = Some primarydhw) /\
      (forall w f,
         (forall x, In x water_heating_systems -> fraction_dhw_load_served x <> None) ->
         In w water_heating_systems -> fraction_dhw_load_served w = Some f ->
         exists fp, fraction_dhw_load_served primarydhw = Some fp /\ (f <= fp)%Q)
  end.
Proof.
  destruct water_heating_systems as [| a [| b r]]; [split; reflexivity | |].
  - cbn [primary_dhw]. split; [now left |]. split; [simpl; lia |].
    intros w f _ [<- | []] Hf. exists f. split; [exact Hf | apply Qle_refl].
  - unfold primary_dhw.
    destruct (existsb _ (a :: b :: r)) eqn:Ex.
    + split; [now left |]. split; [reflexivity |].
      intros w f Hall _ _. exfalso.
      apply existsb_exists in Ex as [x [Hx Hn]].
      specialize (Hall x Hx). destruct (fraction_dhw_load_served x); [discriminate | congruence].
    + destruct (py_max _ (a :: b :: r)) as [p | e] eqn:Em; [| discriminate Em].
      split; [exact (py_max_in _ _ _ Em) |]. split.
      * intros _ [w [Hw Hn]]. exfalso.
        assert (Hex : existsb (fun x => match fraction_dhw_load_served x with
                                        | None => true
                                        | Some _ => false
                                        end) (a :: b :: r) = true).
        { apply existsb_exists. exists w. split; [exact Hw | now rewrite Hn]. }
        congruence.
      * intros w f Hall Hw Hf.
        pose proof (py_max_greatest _ _ _ Em w Hw) as Hle. cbv beta in Hle.
        rewrite Hf in Hle.
        pose proof (Hall p (py_max_in _ _ _ Em)) as Hp.
        destruct (fraction_dhw_load_served p) as [fp |]; [| congruence].
        exists fp. split; [reflexivity | exact Hle].
Qed.

(** ** The walls returned *)

Lemma empty_sides_keys {A : Type} (sidemap : zdict string) (s : string) :
  In s (map snd sidemap) -> In s (dict_keys (@empty_sides A sidemap)).
Proof.
  unfold empty_sides.
  assert (H : forall l (d : dict (list A)),
            In s l \/ In s (dict_keys d) ->
            In s (dict_keys (fold_left (fun d s => dict_set d s []) l d))).
  { induction l as [| x r IH]; intros d [Hin | Hin]; simpl; try (now destruct Hin); auto.
    - apply IH. destruct Hin as [-> | Hin]; [right | now left].
      apply dict_keys_set_iff. now right.
    - apply IH. right. apply dict_keys_set_iff. now left. }
  intros Hin. apply H. now left.
Qed.

Lemma place_window_keys (sides : list string) (n : nat) :
  forall wd h h', place_window n sides wd h = Ok h' -> dict_keys h' = dict_keys h.
Proof.
  induction sides as [| s r IH]; intros wd h h' H; simpl in H.
  - now injection H as <-.
  - bind_inv_as H h1 E1. rewrite (IH _ _ _ H). exact (dict_append_keys _ _ _ _ E1).
Qed.

Lemma assign_windows_keys (sidemap : zdict string) (hw : dict (list walld))
    (ws : list WindowEl) :
  forall h h', assign_windows sidemap hw h ws = Ok h' -> dict_keys h' = dict_keys h.
Proof.
  induction ws as [| w r IH]; intros h h' H; simpl in H.
  - now injection H as <-.
  - bind_inv_as H h1 E1. rewrite (IH _ _ H).
    unfold assign_window in E1.
    bind_inv_as E1 a Ea. bind_inv_as E1 code Ec. bind_inv_as E1 sides Es.
    exact (place_window_keys _ _ _ _ _ E1).
Qed.

Lemma make_zone_window_shape (windows : list windowd) (z : hes_zone_window) :
  make_zone_window windows = Ok z ->
  (zw_method z = "custom" /\ zw_code z = None /\
   zw_u_value z <> None /\ zw_shgc z <> None) \/
  (zw_method z = "code" /\ zw_code z <> None /\
   zw_u_value z = None /\ zw_shgc z = None).
Proof.
  unfold make_zone_window. destruct windows as [| w r].
  - intros H; injection H as <-. right. repeat split; discriminate.
  - destruct (rated (w :: r)) as [| k ks].
    + intros H. bind_inv_as H d Ed. bind_inv_as H c Ec. injection H as <-.
      right. repeat split; discriminate.
    + intros H. cbv zeta in H. bind_inv_as H u Eu. bind_inv_as H g Eg. injection H as <-.
      left. repeat split; discriminate.
Qed.

Lemma make_zone_windows_shape (hpxmlwindows : dict (list windowd)) :
  forall zone_windows,
    make_zone_windows hpxmlwindows = Ok zone_windows ->
    dict_keys zone_windows = dict_keys hpxmlwindows /\
    forall k z, In (k, z) zone_windows ->
      (zw_method z = "custom" /\ zw_code z = None /\
       zw_u_value z <> None /\ zw_shgc z <> None) \/
      (zw_method z = "code" /\ zw_code z <> None /\
       zw_u_value z = None /\ zw_shgc z = None).
Proof.
  induction hpxmlwindows as [| [s windows] r IH]; intros zone_windows H; simpl in H.
  - injection H as <-. split; [reflexivity | intros k z []].
  - bind_inv_as H z0 Ez. bind_inv_as H rest Er. injection H as <-.
    destruct (IH _ eq_refl) as [Hk Hs]. split; [simpl; now rewrite Hk |].
    intros k z [E | Hin]; [| eauto].
    injection E as _ <-. exact (make_zone_window_shape _ _ Ez).
Qed.

(** X29: the walls that [_get_building_zone_wall] returns are one for each
    side of the side map, in its order, and each carries a window that is
    either in custom mode, with a U-value and an SHGC and no code, or in
    code mode, with a code and neither U-value nor SHGC. *)
Theorem zone_wall_one_item_per_side
  (walls : list WallEl) (windows : list WindowEl) (sidemap : zdict string)
  (bldg_about bldg_about' : about) (zone_wall : list zone_wall_item) :
  _get_building_zone_wall walls windows sidemap bldg_about = Ok (zone_wall, bldg_about') ->
  map zwi_side zone_wall = map snd sidemap /\
  forall item, In item zone_wall ->
    exists zw, zwi_zone_window item = Some zw /\
      ((zw_method zw = "custom" /\ zw_code zw = None /\
        zw_u_value zw <> None /\ zw_shgc zw <> None) \/
       (zw_method zw = "code" /\ zw_code zw <> None /\
        zw_u_value zw = None /\ zw_shgc zw = None)).
Proof.
  unfold _get_building_zone_wall. intros H.
  bind_inv_as H hpxmlwalls Ew. bind_inv_as H hs Eh. bind_inv_as H hpxmlwindows Ewn.
  bind_inv_as H about1 Ea. bind_inv_as H zone_windows Ez. injection H as <- <-.
  destruct (build_heswalls_each _ _ _ Eh) as [_ Hsides].
  destruct (make_zone_windows_shape _ _ Ez) as [Hkeys Hshape].
  split; [rewrite map_map; exact Hsides |].
  intros item Hin. apply in_map_iff in Hin as [h [<- Hh]].
  cbn [zwi_zone_window].
  assert (Hk : In (side h) (dict_keys zone_windows)).
  { rewrite Hkeys, (assign_windows_keys _ _ _ _ _ Ewn).
    apply empty_sides_keys. rewrite <- Hsides. now apply in_map. }
  apply dict_get_keys in Hk as [zw Hzw]. exists zw. split; [exact Hzw |].
  exact (Hshape _ _ (dict_get_In _ _ _ Hzw)).
Qed.

Lemma zone_wall_one_item_per_side_witness :
  let wall :=
    mkWallEl (mkWall "w" "WoodStud" [mkLayer (Some "cavity") false (Some (inject_Z 13))]
                None None (Some "vinyl siding") (Some (inject_Z 100))) None None in
  let window :=
    mkWindowEl (mkGlazing "Vinyl" None (Some "double-pane") None None)
      (Some (inject_Z 16)) None None None None (Some (inject_Z 90)) None in
  let bldg_about :=
    mkAbout (2014, 3, 4) "rectangle" None 1990 3 2 8 2000 "east" false None (Some true) in
  exists zone_wall bldg_about',
    _get_building_zone_wall [wall] [window] (make_sidemap 90) bldg_about
    = Ok (zone_wall, bldg_about') /\
    map zwi_side zone_wall = map snd (make_sidemap 90) /\
    forall item, In item zone_wall ->
      exists zw, zwi_zone_window item = Some zw /\
        ((zw_method zw = "custom" /\ zw_code zw = None /\
          zw_u_value zw <> None /\ zw_shgc zw <> None) \/
         (zw_method zw = "code" /\ zw_code zw <> None /\
          zw_u_value zw = None /\ zw_shgc zw = None)).
Proof.
  intros wall window bldg_about.
  destruct (_get_building_zone_wall [wall] [window] (make_sidemap 90) bldg_about)
    as [[zone_wall bldg_about'] |] eqn:E; [| vm_compute in E; discriminate E].
  exists zone_wall, bldg_about'. split; [reflexivity |].
  exact (zone_wall_one_item_per_side _ _ _ _ _ _ E).
Defined.

(** ** Footprint *)

(** X30: the footprint area is the conditioned floor area divided by the
    number of storeys and rounded down, a conditioned basement counting as
    one more storey; with no storey to divide by, the division by zero is
    the error. *)
Theorem footprint_area_rounds_down (bldg_about : about) (foundation_type : string) :
  let stories :=
    num_floor_above_grade bldg_about
    + (if foundation_type =s? "cond_basement" then 1 else 0) in
  match _get_footprint_area bldg_about foundation_type with
  | Ok footprint_area =>
      stories <> 0 /\
      (0 < stories ->
       footprint_area * stories <= conditioned_floor_area bldg_about
       < (footprint_area + 1) * stories)
  | Raise e => stories = 0 /\ e = ZeroDivisionError
  end.
Proof.
  unfold _get_footprint_area. cbv zeta.
  destruct (foundation_type =s? "cond_basement").
  - destruct (Z.eqb_spec (num_floor_above_grade bldg_about + 1) 0) as [E | E];
      [split; [exact E | reflexivity] |].
    split; [exact E |]. intros Hpos.
    pose proof (Z.div_mod (conditioned_floor_area bldg_about)
                  (num_floor_above_grade bldg_about + 1) E) as Hd.
    pose proof (Z.mod_pos_bound (conditioned_floor_area bldg_about)
                  (num_floor_above_grade bldg_about + 1) Hpos) as Hm.
    nia.
  - rewrite Z.add_0_r.
    destruct (Z.eqb_spec (num_floor_above_grade bldg_about) 0) as [E | E];
      [split; [exact E | reflexivity] |].
    split; [exact E |]. intros Hpos.
    pose proof (Z.div_mod (conditioned_floor_area bldg_about)
                  (num_floor_above_grade bldg_about) E) as Hd.
    pose proof (Z.mod_pos_bound (conditioned_floor_area bldg_about)
                  (num_floor_above_grade bldg_about) Hpos) as Hm.
    nia.
Qed.

(* ===================================================================== *)
(** * Roof zones                                                          *)
(* ===================================================================== *)


















(* ===================================================================== *)
(** * Means computed in floats                                            *)
(* ===================================================================== *)

(** ** Powers and rounded sums *)

Lemma Qpow_nonneg (x : Q) (n : nat) : (0 <= x)%Q -> (0 <= Qpow x n)%Q.
Proof.
  intros H. induction n as [| n IH]; simpl; [lra |]. now apply Qmult_le_0_compat.
Qed.

Lemma Qpow_pos (x : Q) (n : nat) : (0 < x)%Q -> (0 < Qpow x n)%Q.
Proof.
  intros H. induction n as [| n IH]; simpl; [lra |]. now apply Qmult_lt_0_compat.
Qed.

Lemma Qpow_le_1 (x : Q) (n : nat) : (0 <= x)%Q -> (x <= 1)%Q -> (Qpow x n <= 1)%Q.
Proof.
  intros H0 H1. induction n as [| n IH]; simpl; [lra |].
  pose proof (Qpow_nonneg x n H0). nra.
Qed.

Lemma Qpow_ge_1 (x : Q) (n : nat) : (1 <= x)%Q -> (1 <= Qpow x n)%Q.
Proof.
  intros H1. induction n as [| n IH]; simpl; [lra |]. nra.
Qed.

Lemma Qpow_add (x : Q) (n m : nat) : (Qpow x (n + m) == Qpow x n * Qpow x m)%Q.
Proof.
  induction n as [| n IH]; simpl; [ring |]. rewrite IH. ring.
Qed.

Lemma Qmult_le_nonneg_l (z x y : Q) : (0 <= z)%Q -> (x <= y)%Q -> (z * x <= z * y)%Q.
Proof.
  intros Hz Hxy. rewrite (Qmult_comm z x), (Qmult_comm z y).
  now apply Qmult_le_compat_r.
Qed.

(** A rounding [rnd] whose relative error on non-negative values is at
    most [eps]. *)
Section Rounded.
Variable rnd : Q -> Q.
Variable eps : Q.
Hypothesis eps_nonneg : (0 <= eps)%Q.
Hypothesis eps_lt_1 : (eps < 1)%Q.
Hypothesis rnd_rel :
  forall x, (0 <= x)%Q -> ((1 - eps) * x <= rnd x)%Q /\ (rnd x <= (1 + eps) * x)%Q.

Lemma fl_fold_bounds (c1 c2 : Q) (l : list (Q * Q)) :
  (0 <= c1)%Q -> (0 <= c2)%Q ->
  (forall p, In p l ->
     (0 <= snd p)%Q /\ (c1 * snd p <= fst p)%Q /\ (fst p <= c2 * snd p)%Q) ->
  forall (acc tot : Q) (k : nat),
    (0 <= tot)%Q ->
    (Qpow (1 - eps) k * (c1 * tot) <= acc)%Q ->
    (acc <= Qpow (1 + eps) k * (c2 * tot))%Q ->
    let r := fold_left (fun a x => rnd (a + x)%Q) (map fst l) acc in
    (Qpow (1 - eps) (k + List.length l) * (c1 * (tot + Qsum (map snd l))) <= r)%Q /\
    (r <= Qpow (1 + eps) (k + List.length l) * (c2 * (tot + Qsum (map snd l))))%Q.
Proof.
  intros Hc1 Hc2. induction l as [| [h t] l IH]; intros Hl acc tot k HS Hlo Hhi.
  - cbn [map fold_left List.length]. rewrite Nat.add_0_r, Qsum_nil.
    rewrite Qplus_0_r. now split.
  - cbn [map fold_left List.length fst snd].
    destruct (Hl (h, t) (or_introl eq_refl)) as [Ht [Hh1 Hh2]]. cbn [fst snd] in *.
    pose proof (Qpow_nonneg (1 - eps) k ltac:(lra)) as HP0.
    pose proof (Qpow_le_1 (1 - eps) k ltac:(lra) ltac:(lra)) as HP1.
    pose proof (Qpow_ge_1 (1 + eps) k ltac:(lra)) as HR1.
    assert (HT1 : (0 <= c1 * t)%Q) by now apply Qmult_le_0_compat.
    assert (HT2 : (0 <= c2 * t)%Q) by now apply Qmult_le_0_compat.
    assert (HA : (0 <= Qpow (1 - eps) k * (c1 * tot))%Q).
    { apply Qmult_le_0_compat; [exact HP0 | now apply Qmult_le_0_compat]. }
    assert (Hsum : (0 <= acc + h)%Q) by lra.
    destruct (rnd_rel _ Hsum) as [Hr1 Hr2].
    replace (k + S (List.length l))%nat with (S k + List.length l)%nat by lia.
    assert (E : forall c, (c * (tot + Qsum (map snd ((h, t) :: l)))
                           == c * ((tot + t) + Qsum (map snd l)))%Q).
    { intros c. cbn [map snd]. rewrite Qsum_cons. ring. }
    rewrite (E c1), (E c2).
    apply IH.
    + intros p Hp. apply Hl. now right.
    + lra.
    + cbn [Qpow]. apply Qle_trans with ((1 - eps) * (acc + h))%Q; [| exact Hr1].
      rewrite <- Qmult_assoc. apply Qmult_le_nonneg_l; [lra |].
      assert (PT : (Qpow (1 - eps) k * (c1 * t) <= 1 * (c1 * t))%Q)
        by (apply Qmult_le_compat_r; assumption).
      lra.
    + cbn [Qpow]. apply Qle_trans with ((1 + eps) * (acc + h))%Q; [exact Hr2 |].
      rewrite <- Qmult_assoc. apply Qmult_le_nonneg_l; [lra |].
      assert (RT : (1 * (c2 * t) <= Qpow (1 + eps) k * (c2 * t))%Q)
        by (apply Qmult_le_compat_r; assumption).
      lra.
Qed.

Lemma fl_sum_bounds (l : list Q) :
  (forall a, In a l -> (0 < a)%Q) ->
  (Qpow (1 - eps) (List.length l) * Qsum l <= fl_sum rnd l)%Q /\
  (fl_sum rnd l <= Qpow (1 + eps) (List.length l) * Qsum l)%Q.
Proof.
  intros Hpos.
  destruct (fl_fold_bounds 1 1 (map (fun a => (a, a)) l) ltac:(lra) ltac:(lra)) with
    (acc := 0%Q) (tot := 0%Q) (k := O) as [H1 H2].
  - intros p Hp. apply in_map_iff in Hp as [a [<- Ha]]. cbn [fst snd].
    specialize (Hpos a Ha). lra.
  - lra.
  - cbn [Qpow]. lra.
  - cbn [Qpow]. lra.
  - rewrite !map_map in H1, H2. cbn [fst snd] in H1, H2.
    rewrite map_id, length_map in H1, H2. cbn [Nat.add] in H1, H2.
    unfold fl_sum. split; [| lra].
    eapply Qle_trans; [| exact H1]. lra.
Qed.

Lemma fl_weighted_mean_bounds (val : Q * Q * Q -> Q) (lo hi : Q)
    (kept : list (Q * Q * Q)) :
  (0 <= lo)%Q ->
  kept <> [] ->
  (forall x, In x kept -> (0 < snd x)%Q /\ (lo <= val x)%Q /\ (val x <= hi)%Q) ->
  let n := List.length kept in
  exists m,
    fl_weighted_mean rnd val kept = Ok m /\
    (lo * (Qpow (1 - eps) (n + 2) / Qpow (1 + eps) n) <= m)%Q /\
    (m <= hi * (Qpow (1 + eps) (n + 2) / Qpow (1 - eps) n))%Q.
Proof.
  intros Hlo Hne Hall n.
  destruct (weighted_sum_bounds val lo hi kept Hall) as [HN1 [HN2 [_ HApos]]].
  specialize (HApos Hne).
  set (A := Qsum (map (fun x => snd x) kept)) in *.
  set (N := Qsum (map (fun x => (val x * snd x)%Q) kept)) in *.
  pose proof (Qpow_pos (1 - eps) n ltac:(lra)) as HP.
  pose proof (Qpow_pos (1 + eps) n ltac:(lra)) as HR.
  set (P := Qpow (1 - eps) n) in *. set (R := Qpow (1 + eps) n) in *.
  (* the denominator *)
  destruct (fl_sum_bounds (map (fun x => snd x) kept)) as [HD1 HD2].
  { intros a Ha. apply in_map_iff in Ha as [x [<- Hx]]. now destruct (Hall x Hx). }
  rewrite length_map in HD1, HD2. fold n P R A in HD1, HD2.
  set (den := fl_sum rnd (map (fun x => snd x) kept)) in *.
  (* the numerator *)
  destruct (fl_fold_bounds (1 - eps) (1 + eps)
              (map (fun x => (rnd (val x * snd x), (val x * snd x)%Q)) kept)
              ltac:(lra) ltac:(lra)) with (acc := 0%Q) (tot := 0%Q) (k := O)
    as [HM1 HM2].
  { intros p Hp. apply in_map_iff in Hp as [x [<- Hx]]. cbn [fst snd].
    destruct (Hall x Hx) as [Ha [Hv1 Hv2]].
    assert (Hprod : (0 <= val x * snd x)%Q)
      by (apply Qmult_le_0_compat; lra).
    destruct (rnd_rel _ Hprod). auto. }
  { lra. }
  { cbn [Qpow]. lra. }
  { cbn [Qpow]. lra. }
  rewrite !map_map in HM1, HM2. cbn [fst snd] in HM1, HM2.
  rewrite length_map in HM1, HM2. cbn [Nat.add] in HM1, HM2.
  fold n P R N in HM1, HM2. fold (fl_sum rnd (map (fun x => rnd (val x * snd x)%Q) kept))
    in HM1, HM2.
  set (num := fl_sum rnd (map (fun x => rnd (val x * snd x)%Q) kept)) in *.
  assert (HPA : (0 < P * A)%Q) by now apply Qmult_lt_0_compat.
  assert (Hden : (0 < den)%Q) by lra.
  assert (HloA : (0 <= lo * A)%Q) by (apply Qmult_le_0_compat; lra).
  assert (HN0 : (0 <= N)%Q) by lra.
  assert (HeN : (0 <= (1 - eps) * N)%Q) by (apply Qmult_le_0_compat; lra).
  assert (Hnum : (0 <= num)%Q).
  { eapply Qle_trans; [| exact HM1].
    apply Qmult_le_0_compat; [lra |]. lra. }
  assert (Hq : (0 <= num / den)%Q).
  { apply Qle_shift_div_l; [exact Hden | lra]. }
  unfold fl_weighted_mean, fl_div. fold den num.
  assert (Hd0 : Qeq_bool den 0 = false).
  { destruct (Qeq_bool den 0) eqn:E; [| reflexivity].
    apply Qeq_bool_eq in E. lra. }
  rewrite Hd0. eexists. split; [reflexivity |].
  destruct (rnd_rel _ Hq) as [Hm1 Hm2].
  assert (Epow1 : (Qpow (1 - eps) (n + 2) == P * ((1 - eps) * (1 - eps)))%Q).
  { rewrite Qpow_add. cbn [Qpow]. fold P. ring. }
  assert (Epow2 : (Qpow (1 + eps) (n + 2) == R * ((1 + eps) * (1 + eps)))%Q).
  { rewrite Qpow_add. cbn [Qpow]. fold R. ring. }
  rewrite Epow1, Epow2.
  assert (HP0 : ~ (P == 0)%Q) by (intros C; lra).
  assert (HR0 : ~ (R == 0)%Q) by (intros C; lra).
  clearbody P R A N den num. clear Epow1 Epow2.
  split.
  - eapply Qle_trans; [| exact Hm1].
    setoid_replace (lo * (P * ((1 - eps) * (1 - eps)) / R))%Q
      with ((1 - eps) * (lo * P * (1 - eps) / R))%Q by (field; assumption).
    apply Qmult_le_nonneg_l; [lra |].
    apply Qle_shift_div_l; [exact Hden |].
    apply Qle_trans with (lo * P * (1 - eps) / R * (R * A))%Q.
    + apply Qmult_le_nonneg_l; [| exact HD2].
      apply Qle_shift_div_l; [exact HR |]. rewrite Qmult_0_l.
      apply Qmult_le_0_compat; [apply Qmult_le_0_compat; lra | lra].
    + setoid_replace (lo * P * (1 - eps) / R * (R * A))%Q
        with (P * ((1 - eps) * (lo * A)))%Q by (field; assumption).
      eapply Qle_trans; [| exact HM1].
      apply Qmult_le_nonneg_l; [lra |]. apply Qmult_le_nonneg_l; [lra | lra].
  - eapply Qle_trans; [exact Hm2 |].
    setoid_replace (hi * (R * ((1 + eps) * (1 + eps)) / P))%Q
      with ((1 + eps) * (hi * R * (1 + eps) / P))%Q by (field; assumption).
    apply Qmult_le_nonneg_l; [lra |].
    assert (Hhi : (0 <= hi)%Q).
    { destruct kept as [| x r]; [now elim Hne |].
      destruct (Hall x (or_introl eq_refl)) as [_ [? ?]]. lra. }
    apply Qle_shift_div_r; [exact Hden |].
    apply Qle_trans with (hi * R * (1 + eps) / P * (P * A))%Q.
    + setoid_replace (hi * R * (1 + eps) / P * (P * A))%Q
        with (R * ((1 + eps) * (hi * A)))%Q by (field; assumption).
      eapply Qle_trans; [exact HM2 |].
      apply Qmult_le_nonneg_l; [lra |]. apply Qmult_le_nonneg_l; [lra | lra].
    + apply Qmult_le_nonneg_l; [| exact HD1].
      apply Qle_shift_div_l; [exact HP |]. rewrite Qmult_0_l.
      apply Qmult_le_0_compat; [apply Qmult_le_0_compat; lra | lra].
Qed.
End Rounded.

(** ** The rounding of binary64 *)

Lemma round_half_even_near (y : Q) :
  (y - (1 # 2) <= inject_Z (round_half_even y))%Q /\
  (inject_Z (round_half_even y) <= y + (1 # 2))%Q.
Proof.
  destruct y as [p q]. unfold round_half_even. cbn [Qnum Qden].
  pose proof (Z.div_mod p (Zpos q) ltac:(lia)) as Hd.
  pose proof (Z.mod_pos_bound p (Zpos q) ltac:(lia)) as Hm.
  set (f := p / Zpos q) in *. set (r := p mod Zpos q) in *.
  unfold Qle, Qminus, Qplus, Qopp, inject_Z. cbn [Qnum Qden].
  rewrite !Pos2Z.inj_mul.
  destruct (Z.ltb_spec (2 * r) (Zpos q));
    [| destruct (Z.ltb_spec (Zpos q) (2 * r)); [| destruct (Z.even f)]];
    split; nia.
Qed.

Lemma pow2_pos (e : Z) : (0 < pow2 e)%Q.
Proof.
  unfold pow2. destruct (Z.leb_spec 0 e) as [He | He].
  - pose proof (Z.pow_pos_nonneg 2 e ltac:(lia) He).
    unfold Qlt, inject_Z. cbn [Qnum Qden]. lia.
  - pose proof (Z.pow_pos_nonneg 2 (- e) ltac:(lia) ltac:(lia)).
    apply Qlt_shift_div_l; [unfold Qlt, inject_Z; cbn [Qnum Qden]; lia | lra].
Qed.

Lemma round53_relative_error (x : Q) :
  (0 <= x)%Q ->
  ((1 - unit_roundoff) * x <= round53 x)%Q /\ (round53 x <= (1 + unit_roundoff) * x)%Q.
Proof.
  intros Hx. unfold round53.
  assert (H0 : Qle_bool 0 x = true) by now apply Qle_bool_iff.
  rewrite H0. unfold round53_pos. cbv zeta.
  assert (Hu : (unit_roundoff == 1 # 9007199254740992)%Q) by reflexivity.
  pose proof (pow2_pos (binade x)) as Hs.
  set (s := pow2 (binade x)) in *. clearbody s.
  destruct (Qle_bool (inject_Z (2 ^ 52)) (x / s)) eqn:E.
  - apply Qle_bool_iff in E.
    assert (H52 : (inject_Z (2 ^ 52) == 4503599627370496 # 1)%Q) by reflexivity.
    rewrite H52 in E.
    destruct (round_half_even_near (x / s)) as [Hn1 Hn2].
    set (m := inject_Z (round_half_even (x / s))) in *. clearbody m.
    assert (Ex : (x == x / s * s)%Q) by (field; lra).
    set (y := (x / s)%Q) in *. clearbody y.
    rewrite Hu. split.
    + setoid_replace ((1 - (1 # 9007199254740992)) * x)%Q
        with ((1 - (1 # 9007199254740992)) * y * s)%Q by (rewrite Ex at 1; ring).
      apply Qmult_le_compat_r; lra.
    + setoid_replace ((1 + (1 # 9007199254740992)) * x)%Q
        with ((1 + (1 # 9007199254740992)) * y * s)%Q by (rewrite Ex at 1; ring).
      apply Qmult_le_compat_r; lra.
  - rewrite Hu. split; lra.
Qed.

(** With a rounding that changes nothing, the model with rounding is the
    exact one. *)
Lemma fl_code_areas_exact (windows : list windowd) :
  forall d, fl_code_areas (fun x => x) windows d = code_areas windows d.
Proof.
  induction windows as [| w r IH]; intros d; simpl; [reflexivity |].
  destruct (wd_window_code w); [apply IH | reflexivity].
Qed.

Lemma make_zone_window_fl_exact (windows : list windowd) :
  make_zone_window_fl (fun x => x) windows = make_zone_window windows.
Proof.
  unfold make_zone_window_fl, make_zone_window.
  destruct windows as [| w r]; [reflexivity |].
  destruct (rated (w :: r)); [| reflexivity].
  now rewrite fl_code_areas_exact.
Qed.

(** ** Windows of a side, in floats *)

(** X15: on a side where every window has a positive area and some window
    has both a U-factor and an SHGC, the side's window comes out in custom
    mode and its area is the sum over all windows.  Computed in floats, its
    U-value and SHGC can leave the range of the windows that have both, but
    only by the rounding: with [n] such windows and a rounding of relative
    error at most [eps], they stay within the bounds widened by the factors
    (1 - eps)^(n+2) / (1 + eps)^n and (1 + eps)^(n+2) / (1 - eps)^n. *)
Theorem zone_window_custom_within_rounded_bounds
  (rnd : Q -> Q) (eps : Q) (windows : list windowd) (ulo uhi glo ghi : Q) :
  (0 <= eps)%Q -> (eps < 1)%Q ->
  (forall x, (0 <= x)%Q -> ((1 - eps) * x <= rnd x)%Q /\ (rnd x <= (1 + eps) * x)%Q) ->
  (forall w, In w windows -> (0 < wd_area w)%Q) ->
  (0 <= ulo)%Q -> (0 <= glo)%Q ->
  (forall w u g, In w windows -> wd_uvalue w = Some u -> wd_shgc w = Some g ->
     (ulo <= u)%Q /\ (u <= uhi)%Q /\ (glo <= g)%Q /\ (g <= ghi)%Q) ->
  (exists w u g, In w windows /\ wd_uvalue w = Some u /\ wd_shgc w = Some g) ->
  let n := List.length (rated windows) in
  let down := (Qpow (1 - eps) (n + 2) / Qpow (1 + eps) n)%Q in
  let up := (Qpow (1 + eps) (n + 2) / Qpow (1 - eps) n)%Q in
  exists u g,
    make_zone_window_fl rnd windows
    = Ok (mkHesZoneWindow (fl_sum rnd (map wd_area windows)) "custom" None
            (Some u) (Some g)) /\
    (ulo * down <= u)%Q /\ (u <= uhi * up)%Q /\
    (glo * down <= g)%Q /\ (g <= ghi * up)%Q.
Proof.
  intros He0 He1 Hrnd Hpos Hulo Hglo Hb [w0 [u0 [g0 [Hin0 [Hu0 Hg0]]]]] n down up.
  assert (Hk : In (u0, g0, wd_area w0) (rated windows))
    by (apply rated_in; exists w0; auto).
  assert (Hall : forall x, In x (rated windows) ->
            (0 < snd x)%Q /\ ((ulo <= fst (fst x))%Q /\ (fst (fst x) <= uhi)%Q) /\
            ((glo <= snd (fst x))%Q /\ (snd (fst x) <= ghi)%Q)).
  { intros [[u g] a] Hx. apply rated_in in Hx as [w [Hw [Hu [Hg ->]]]].
    destruct (Hb w u g Hw Hu Hg) as [? [? [? ?]]]. cbn [fst snd].
    split; [now apply Hpos | tauto]. }
  assert (Hne : rated windows <> []) by (intros C; rewrite C in Hk; destruct Hk).
  destruct (fl_weighted_mean_bounds rnd eps He0 He1 Hrnd (fun x => fst (fst x))
              ulo uhi (rated windows) Hulo Hne) as [u [Eu [Hu1 Hu2]]];
    [intros x Hx; destruct (Hall x Hx); tauto |].
  destruct (fl_weighted_mean_bounds rnd eps He0 He1 Hrnd (fun x => snd (fst x))
              glo ghi (rated windows) Hglo Hne) as [g [Eg [Hg1 Hg2]]];
    [intros x Hx; destruct (Hall x Hx); tauto |].
  exists u, g. split; [| tauto].
  unfold make_zone_window_fl.
  destruct windows as [| w1 ws]; [destruct Hin0 |].
  destruct (rated (w1 :: ws)) as [| k ks]; [now elim Hne |].
  cbv zeta. rewrite Eu, Eg. reflexivity.
Qed.

Lemma zone_window_custom_within_rounded_bounds_witness :
  let window area :=
    mkWindowd (float_of area) (Some (float_of (d2 45))) (Some (float_of (d1 3))) None in
  let windows := [window (inject_Z 12); window (inject_Z 30); window (d1 75)] in
  let down := (Qpow (1 - unit_roundoff) (3 + 2) / Qpow (1 + unit_roundoff) 3)%Q in
  let up := (Qpow (1 + unit_roundoff) (3 + 2) / Qpow (1 - unit_roundoff) 3)%Q in
  exists u g,
    make_zone_window_fl round53 windows
    = Ok (mkHesZoneWindow (fl_sum round53 (map wd_area windows)) "custom" None
            (Some u) (Some g)) /\
    (float_of (d2 45) * down <= u)%Q /\ (u <= float_of (d2 45) * up)%Q /\
    (float_of (d1 3) * down <= g)%Q /\ (g <= float_of (d1 3) * up)%Q.
Proof.
  intros window windows.
  apply (zone_window_custom_within_rounded_bounds round53 unit_roundoff windows
           (float_of (d2 45)) (float_of (d2 45)) (float_of (d1 3)) (float_of (d1 3))).
  - intros C; vm_compute in C; discriminate C.
  - reflexivity.
  - exact round53_relative_error.
  - intros w [<- | [<- | [<- | []]]]; reflexivity.
  - intros C; vm_compute in C; discriminate C.
  - intros C; vm_compute in C; discriminate C.
  - intros w u g [<- | [<- | [<- | []]]] Hu Hg;
      injection Hu as <-; injection Hg as <-; repeat split; apply Qle_refl.
  - exists (window (inject_Z 12)), (float_of (d2 45)), (float_of (d1 3)).
    split; [now left | split; reflexivity].
Defined.

(** The rounding shows: three windows of U-factor 0.45 and areas 12, 30
    and 7.5 give a side whose U-value is below 0.45. *)
Remark mean_of_equal_u_values_below_them :
  let window area :=
    mkWindowd (float_of area) (Some (float_of (d2 45))) (Some (float_of (d1 3))) None in
  match make_zone_window_fl round53
          [window (inject_Z 12); window (inject_Z 30); window (d1 75)] with
  | Ok z =>
      match zw_u_value z with
      | Some u => Qltb u (float_of (d2 45))
      | None => false
      end
  | Raise _ => false
  end = true.
Proof. vm_compute. reflexivity. Qed.

(** ** Skylights, in floats *)

Lemma skylight_areas_positive (skylights : list Skylight) :
  (forall s, In s skylights -> exists a, sk_area s = Some a /\ (0 < a)%Q) ->
  (forall a, In a (skylight_areas skylights) -> (0 < a)%Q) /\
  existsb (fun s => match sk_area s with None => true | Some _ => false end) skylights
  = false.
Proof.
  unfold skylight_areas. induction skylights as [| s r IH]; intros H.
  - split; [intros a [] | reflexivity].
  - destruct IH as [Hnn Hex]; [intros x Hx; apply H; now right |].
    destruct (H s (or_introl eq_refl)) as [a [Ha Hpos]].
    cbn [flat_map existsb]. rewrite Ha. cbn [app orb]. split; [| exact Hex].
    intros b [<- | Hb]; [exact Hpos | now apply Hnn].
Qed.

Lemma Qsum_nonneg (l : list Q) : (forall a, In a l -> (0 < a)%Q) -> (0 <= Qsum l)%Q.
Proof.
  induction l as [| a r IH]; intros H.
  - rewrite Qsum_nil. apply Qle_refl.
  - rewrite Qsum_cons. pose proof (H a (or_introl eq_refl)).
    assert (0 <= Qsum r)%Q by (apply IH; intros b Hb; apply H; now right). lra.
Qed.

(** X21: skylights that all have a positive area, of which at least one
    has both a U-factor and an SHGC, translate in custom mode whatever
    their glazing is, with the sum of all areas as computed in floats.  The
    U-factors and SHGCs given lying within the validator's bounds is not
    enough for the validator to accept the result, because the means are
    rounded; it accepts it when they keep the margin of the rounding from
    the bounds 0.01, 5 and 1, and the computed area is at most 300. *)
Theorem custom_skylights_validate_within_margin
  (rnd : Q -> Q) (eps : Q) (skylights : list Skylight) (ulo uhi glo ghi : Q) :
  (0 <= eps)%Q -> (eps < 1)%Q ->
  (forall x, (0 <= x)%Q -> ((1 - eps) * x <= rnd x)%Q /\ (rnd x <= (1 + eps) * x)%Q) ->
  (forall s, In s skylights -> exists a, sk_area s = Some a /\ (0 < a)%Q) ->
  (exists s u g, In s skylights /\ sk_ufactor s = Some u /\ sk_shgc s = Some g) ->
  (0 <= ulo)%Q -> (0 <= glo)%Q ->
  (forall s u g, In s skylights -> sk_ufactor s = Some u -> sk_shgc s = Some g ->
     (ulo <= u)%Q /\ (u <= uhi)%Q /\ (glo <= g)%Q /\ (g <= ghi)%Q) ->
  let n := List.length (rated_skylights skylights) in
  let down := (Qpow (1 - eps) (n + 2) / Qpow (1 + eps) n)%Q in
  let up := (Qpow (1 + eps) (n + 2) / Qpow (1 - eps) n)%Q in
  (d2 1 <= ulo * down)%Q -> (uhi * up <= inject_Z 5)%Q -> (ghi * up <= inject_Z 1)%Q ->
  (fl_sum rnd (skylight_areas skylights) <= inject_Z 300)%Q ->
  exists z,
    _get_skylights rnd skylights = Ok z /\
    zs_area z = fl_sum rnd (skylight_areas skylights) /\
    zs_method z = Some "custom" /\
    validate_skylight (skylight_inputs z) = Ok tt.
Proof.
  intros He0 He1 Hrnd Hpos [s0 [u0 [g0 [Hin0 [Hu0 Hg0]]]]] Hulo Hglo Hb n down up
    Hm1 Hm2 Hm3 Harea.
  destruct (skylight_areas_positive skylights Hpos) as [Hap Hex].
  assert (Hnn : (inject_Z 0 <= fl_sum rnd (skylight_areas skylights))%Q).
  { destruct (fl_sum_bounds rnd eps He0 He1 Hrnd _ Hap) as [H1 _].
    eapply Qle_trans; [| exact H1].
    apply Qmult_le_0_compat; [apply Qpow_nonneg; lra | now apply Qsum_nonneg]. }
  destruct (Hpos s0 Hin0) as [a0 [Ha0 _]].
  assert (Hk : In (u0, g0, a0) (rated_skylights skylights))
    by (apply rated_skylights_in; exists s0; auto).
  assert (Hall : forall x, In x (rated_skylights skylights) ->
            (0 < snd x)%Q /\ ((ulo <= fst (fst x))%Q /\ (fst (fst x) <= uhi)%Q) /\
            ((glo <= snd (fst x))%Q /\ (snd (fst x) <= ghi)%Q)).
  { intros [[u g] a] Hx. apply rated_skylights_in in Hx as [s [Hs [Hu [Hg Ha]]]].
    destruct (Hb s u g Hs Hu Hg) as [? [? [? ?]]]. cbn [fst snd].
    destruct (Hpos s Hs) as [a' [Ha' Hp]]. rewrite Ha in Ha'. injection Ha' as <-.
    tauto. }
  assert (Hne : rated_skylights skylights <> [])
    by (intros C; rewrite C in Hk; destruct Hk).
  destruct (fl_weighted_mean_bounds rnd eps He0 He1 Hrnd (fun x => fst (fst x))
              ulo uhi (rated_skylights skylights) Hulo Hne) as [u [Eu [Hu1 Hu2]]];
    [intros x Hx; destruct (Hall x Hx); tauto |].
  destruct (fl_weighted_mean_bounds rnd eps He0 He1 Hrnd (fun x => snd (fst x))
              glo ghi (rated_skylights skylights) Hglo Hne) as [g [Eg [Hg1 Hg2]]];
    [intros x Hx; destruct (Hall x Hx); tauto |].
  fold n in Hu1, Hu2, Hg1, Hg2. fold down in Hu1, Hg1. fold up in Hu2, Hg2.
  assert (Hdown : (0 <= down)%Q).
  { unfold down. apply Qle_shift_div_l; [apply Qpow_pos; lra |].
    rewrite Qmult_0_l. apply Qpow_nonneg; lra. }
  assert (Hg0' : (inject_Z 0 <= g)%Q).
  { eapply Qle_trans; [| exact Hg1]. now apply Qmult_le_0_compat. }
  assert (Hu_lo : (d2 1 <= u)%Q) by (eapply Qle_trans; eassumption).
  assert (Hu_hi : (u <= inject_Z 5)%Q) by (eapply Qle_trans; eassumption).
  assert (Hg_hi : (g <= inject_Z 1)%Q) by (eapply Qle_trans; eassumption).
  exists (mkHesZoneSkylight (fl_sum rnd (skylight_areas skylights)) (Some "custom") None
            (Some u) (Some g)).
  split.
  { unfold _get_skylights.
    destruct skylights as [| s1 ss]; [destruct Hin0 |].
    rewrite Hex.
    destruct (rated_skylights (s1 :: ss)) as [| k ks]; [now elim Hne |].
    cbv zeta. rewrite Eu, Eg. reflexivity. }
  cbn [zs_area zs_method]. split; [reflexivity |]. split; [reflexivity |].
  unfold validate_skylight, skylight_inputs.
  cbn [skylight_area skylight_method skylight_u_value skylight_shgc zs_area zs_method
       zs_u_value zs_shgc].
  unfold do_bounds_check. cbn [py_lt bind].
  rewrite (Qltb_ge _ (inject_Z 0) Hnn). cbn [bind]. rewrite (Qltb_ge _ _ Harea). cbn [bind].
  destruct (Qltb 0 (fl_sum rnd (skylight_areas skylights))); [| reflexivity].
  cbn [key_opt bind]. rewrite String.eqb_refl. cbn [bind].
  rewrite (Qltb_ge _ (d2 1) Hu_lo). cbn [bind].
  rewrite (Qltb_ge (inject_Z 5) _ Hu_hi). cbn [bind].
  rewrite (Qltb_ge _ (inject_Z 0) Hg0'). cbn [bind].
  rewrite (Qltb_ge (inject_Z 1) _ Hg_hi).
  reflexivity.
Qed.

Lemma custom_skylights_validate_within_margin_witness :
  let skylights :=
    [mkSkylight (mkGlazing "Unknown" None None None None) (Some (float_of (d1 5)))
       (Some (float_of (d1 4))) (Some (float_of (inject_Z 12)));
     mkSkylight (mkGlazing "Wood" None (Some "double-pane") None None) None None
       (Some (float_of (inject_Z 6)))] in
  exists z,
    _get_skylights round53 skylights = Ok z /\
    zs_area z = fl_sum round53 (skylight_areas skylights) /\
    zs_method z = Some "custom" /\
    validate_skylight (skylight_inputs z) = Ok tt.
Proof.
  intros skylights.
  apply (custom_skylights_validate_within_margin round53 unit_roundoff skylights
           (float_of (d1 5)) (float_of (d1 5)) (float_of (d1 4)) (float_of (d1 4))).
  - intros C; vm_compute in C; discriminate C.
  - reflexivity.
  - exact round53_relative_error.
  - intros s [<- | [<- | []]]; eexists; (split; [reflexivity | reflexivity]).
  - exists (mkSkylight (mkGlazing "Unknown" None None None None) (Some (float_of (d1 5)))
              (Some (float_of (d1 4))) (Some (float_of (inject_Z 12)))),
      (float_of (d1 5)), (float_of (d1 4)).
    split; [now left | split; reflexivity].
  - intros C; vm_compute in C; discriminate C.
  - intros C; vm_compute in C; discriminate C.
  - intros s u g [<- | [<- | []]] Hu Hg; try discriminate.
    injection Hu as <-; injection Hg as <-.
    repeat split; apply Qle_refl.
  - intros C; vm_compute in C; discriminate C.
  - intros C; vm_compute in C; discriminate C.
  - intros C; vm_compute in C; discriminate C.
  - intros C; vm_compute in C; discriminate C.
Defined.

(** The margin is needed: two skylights of U-factor 5, inside the
    validator's bounds, with areas 0.1 and 4.1, give a U-value above 5,
    which the validator refuses. *)
Remark skylights_of_u_value_5_refused :
  let skylight area :=
    mkSkylight (mkGlazing "Unknown" None None None None) (Some (inject_Z 5))
      (Some (float_of (d1 5))) (Some (float_of area)) in
  match _get_skylights round53 [skylight (d1 1); skylight (d1 41)] with
  | Ok z =>
      match zs_u_value z, validate_skylight (skylight_inputs z) with
      | Some u, Raise (InputOutOfBounds f _) => Qltb (inject_Z 5) u && (f =s? "skylight_u_value")
      | _, _ => false
      end
  | Raise _ => false
  end = true.
Proof. vm_compute. reflexivity. Qed.
